(** * WriteUntilYouDie: the countdown-and-decay engine

    A shallow embedding of the browser module [WriteUntilYouDie]
    (the revision with the one second grace period, the heartbeat and the
    writing history), followed by the properties of its timing engine.

    Conventions of the embedding.
    - JavaScript strings are lists of UTF-16 code units.
    - JavaScript numbers are exact: integers are [Z], the fractional values
      the countdown computes are rationals [Q].  [Date.now()] is the
      millisecond clock of the host, an integer that never decreases.
    - The module-level object [state], the cached DOM [elements], the host
      timer table and [localStorage] are the four parts of a [World]; every
      function of the module is a function on worlds.
    - The host is single threaded: a handler runs to completion and the clock
      does not move while it runs.
    - [localStorage] holds well-formed data and its calls succeed.
    - Left out, as they feed nothing back into the module: [renderHistory],
      [copyFromHistory], focus and selection of the text area, the value
      written back to the settings input by [loadSettings], the console. *)

From Stdlib Require Import ZArith QArith Qround List Bool Lia Lqa PArith NArith.
From Stdlib Require Import String Ascii.
Import ListNotations.

Local Open Scope Z_scope.

(** ** Strings *)

Definition jsstring := list N.

(** Code units of an ASCII literal, for writing examples. *)
Fixpoint units (s : string) : jsstring :=
  match s with
  | EmptyString => []
  | String c s' => N_of_ascii c :: units s'
  end.

(** The characters matched by the regular expression class [\s] and removed
    by [String.prototype.trim]: ECMAScript WhiteSpace and LineTerminator. *)
Definition is_space (c : N) : bool :=
  ((9 <=? c) && (c <=? 13) || (c =? 32) || (c =? 160) || (c =? 5760)
   || (8192 <=? c) && (c <=? 8202) || (c =? 8232) || (c =? 8233)
   || (c =? 8239) || (c =? 8287) || (c =? 12288) || (c =? 65279))%N.

Fixpoint trimStart (s : jsstring) : jsstring :=
  match s with
  | [] => []
  | c :: s' => if is_space c then trimStart s' else s
  end.

Fixpoint trimEnd (s : jsstring) : jsstring :=
  match s with
  | [] => []
  | c :: s' =>
      match trimEnd s' with
      | [] => if is_space c then [] else [c]
      | t => c :: t
      end
  end.

Definition trim (s : jsstring) : jsstring := trimEnd (trimStart s).

(** [s.split(/\s+/)] on a string scanned left to right: [cur] is the piece
    being collected (reversed), [inws] tells that the previous code unit
    belonged to a separator that has already closed a piece. *)
Fixpoint split_go (inws : bool) (cur : jsstring) (s : jsstring) : list jsstring :=
  match s with
  | [] => [rev cur]
  | c :: s' =>
      if is_space c
      then if inws then split_go true cur s'
           else rev cur :: split_go true [] s'
      else split_go false (c :: cur) s'
  end.

Definition split_ws (s : jsstring) : list jsstring := split_go false [] s.

(** [countWords] of the module. *)
Definition countWords (text : jsstring) : nat :=
  let trimmed := trim text in
  match trimmed with
  | [] => 0%nat
  | _ => List.length (split_ws trimmed)
  end.

(** The spec's wording of the word count: the number of maximal runs of
    non-whitespace.  [inword] tells that the previous code unit was part of
    a run. *)
Fixpoint word_runs (inword : bool) (s : jsstring) : nat :=
  match s with
  | [] => 0%nat
  | c :: s' =>
      if is_space c then word_runs false s'
      else ((if inword then 0 else 1) + word_runs true s')%nat
  end.

(** [ends_word d s]: the last code unit of [s] is not whitespace, [d] when
    [s] is empty. *)
Fixpoint ends_word (d : bool) (s : jsstring) : bool :=
  match s with
  | [] => d
  | c :: s' => ends_word (negb (is_space c)) s'
  end.

(** ** [parseInt(s, 10)] *)

Definition digit_of (c : N) : option Z :=
  if ((48 <=? c) && (c <=? 57))%N then Some (Z.of_N c - 48) else None.

(** Longest prefix of decimal digits, accumulated; [None] when there is no
    digit at all. *)
Fixpoint digits_go (acc : option Z) (s : jsstring) : option Z :=
  match s with
  | [] => acc
  | c :: s' =>
      match digit_of c with
      | Some d =>
          digits_go (Some (10 * match acc with Some a => a | None => 0 end + d)) s'
      | None => acc
      end
  end.

(** [None] stands for [NaN]. *)
Definition parseInt (s : jsstring) : option Z :=
  match trimStart s with
  | 45%N :: s' => option_map Z.opp (digits_go None s')
  | 43%N :: s' => digits_go None s'
  | s' => digits_go None s'
  end.

(** ** The host: clock and timers

    [setTimeout] and [setInterval] draw their handles from one counter; a
    handle is a positive integer, hence always truthy.  A callback of the
    module closes over the module state only, so a tag identifies it. *)

Inductive Callback :=
| CbGrace        (* the arrow function of [startCountdown] *)
| CbCountdown    (* the sampling function of [beginActiveCountdown] *)
| CbElapsed      (* the function of [startElapsedTimer] *)
| CbUndelete     (* removes the class [deleted], from [handleTextDeletion] *)
| CbSavedLabel.  (* restores the label of the save button, from [saveDraft] *)

Record Timer := mkTimer {
  tid : positive;
  due : Z;
  period : option Z;   (* [Some p] for [setInterval], [None] for [setTimeout] *)
  cb : Callback
}.

Record Host := mkHost {
  now : Z;             (* [Date.now()] *)
  nextId : positive;
  timers : list Timer
}.

Definition schedule (delay : Z) (repeating : bool) (c : Callback) (h : Host)
  : positive * Host :=
  (nextId h,
   {| now := now h;
      nextId := Pos.succ (nextId h);
      timers := mkTimer (nextId h) (now h + delay)
                        (if repeating then Some delay else None) c :: timers h |}).

Definition setTimeout (c : Callback) (delay : Z) := schedule delay false c.
Definition setInterval (c : Callback) (delay : Z) := schedule delay true c.

Definition keeps (id : positive) (tm : Timer) : bool := negb (Pos.eqb (tid tm) id).

(** [clearTimeout] and [clearInterval] are the same operation. *)
Definition cancel (id : positive) (h : Host) : Host :=
  {| now := now h; nextId := nextId h; timers := filter (keeps id) (timers h) |}.

Definition lookup_timer (id : positive) (h : Host) : option Timer :=
  find (fun tm => Pos.eqb (tid tm) id) (timers h).

(** ** The module state *)

Record State := mkState {
  isActive : bool;
  countdownActive : bool;
  startTime : option Z;
  countdownStart : option Z;
  timeoutSeconds : Q;
  graceTimerId : option positive;
  countdownTimerId : option positive;
  elapsedTimerId : option positive;
  heartbeatCount : Z;
  lastBeatTime : option Z     (* created by [beginActiveCountdown] *)
}.

Definition CONFIG_DEFAULT_TIMEOUT : Q := 5.
Definition CONFIG_MAX_HISTORY : nat := 20.
Definition CONFIG_COUNTDOWN_INTERVAL : Z := 100.

Definition initial_state : State :=
  {| isActive := false; countdownActive := false; startTime := None;
     countdownStart := None; timeoutSeconds := CONFIG_DEFAULT_TIMEOUT;
     graceTimerId := None; countdownTimerId := None; elapsedTimerId := None;
     heartbeatCount := 0; lastBeatTime := None |}.

(** ** The part of the page the module writes *)

(** [SinPulse t a] is the value [Math.sin(t / 0.6 * Math.PI) * a], kept
    symbolic. *)
Inductive Pulse := NoPulse | SinPulse (timeSinceBeat amplitude : Q).

(** [Blur b p] is the style [blur((b + p)px)]. *)
Inductive Filter := FilterNone | Blur (baseBlur : Q) (beatPulse : Pulse).

Record Elements := mkElements {
  textArea_value : jsstring;
  textArea_filter : Filter;
  textArea_disabled : bool;
  textArea_deleted : bool;          (* class [deleted] *)
  startButton_shown : bool;         (* [style.display] is not [none] *)
  wordCount_text : nat;
  elapsedTime_text : Z * Z;         (* minutes, seconds *)
  pauseTimer_text : Q;              (* the number printed with [toFixed(1)] *)
  progressBar_width : Q;            (* per cent *)
  progressContainer_active : bool;
  wrapper_countdown : bool;         (* class [countdown-active] *)
  wrapper_heartbeat : bool;         (* class [heartbeat] *)
  saveButton_disabled : bool;
  saveButton_saved : bool;          (* the label reads [Saved!] *)
  resetButton_disabled : bool;
  timeoutDisplay_text : option Q;   (* [None]: the page has no such element *)
  body_lightMode : bool
}.

(** ** [localStorage] *)

Record Entry := mkEntry {
  e_id : Z; e_text : jsstring; e_wordCount : nat; e_savedAt : Z
}.

Record Draft := mkDraft {
  d_text : jsstring; d_wordCount : nat; d_savedAt : Z
}.

Record Settings := mkSettings {
  s_timeout : option Q;   (* [None]: the stored object has no number there *)
  s_lightMode : bool
}.

Record Storage := mkStorage {
  draft : option Draft;
  settings : option Settings;
  history : list Entry
}.

Record World := mkWorld {
  st : State;
  el : Elements;
  host : Host;
  store : Storage
}.

(** What the Presentation Adapter and the archive see of a handler. *)
Inductive Obs :=
| DecayTick (progress remaining : Q) (heartbeat : bool)
| Archived (text : jsstring) (words : nat)
| TextDestroyed (finalText : jsstring) (wordCount : nat).

(** *** Field updates *)

Definition with_st (f : State -> State) (w : World) : World :=
  {| st := f (st w); el := el w; host := host w; store := store w |}.
Definition with_el (f : Elements -> Elements) (w : World) : World :=
  {| st := st w; el := f (el w); host := host w; store := store w |}.
Definition with_host (f : Host -> Host) (w : World) : World :=
  {| st := st w; el := el w; host := f (host w); store := store w |}.
Definition with_store (f : Storage -> Storage) (w : World) : World :=
  {| st := st w; el := el w; host := host w; store := f (store w) |}.

Definition set_isActive (v : bool) (s : State) : State :=
  mkState v (countdownActive s) (startTime s) (countdownStart s) (timeoutSeconds s)
          (graceTimerId s) (countdownTimerId s) (elapsedTimerId s)
          (heartbeatCount s) (lastBeatTime s).
Definition set_countdownActive (v : bool) (s : State) : State :=
  mkState (isActive s) v (startTime s) (countdownStart s) (timeoutSeconds s)
          (graceTimerId s) (countdownTimerId s) (elapsedTimerId s)
          (heartbeatCount s) (lastBeatTime s).
Definition set_startTime (v : option Z) (s : State) : State :=
  mkState (isActive s) (countdownActive s) v (countdownStart s) (timeoutSeconds s)
          (graceTimerId s) (countdownTimerId s) (elapsedTimerId s)
          (heartbeatCount s) (lastBeatTime s).
Definition set_countdownStart (v : option Z) (s : State) : State :=
  mkState (isActive s) (countdownActive s) (startTime s) v (timeoutSeconds s)
          (graceTimerId s) (countdownTimerId s) (elapsedTimerId s)
          (heartbeatCount s) (lastBeatTime s).
Definition set_timeoutSeconds (v : Q) (s : State) : State :=
  mkState (isActive s) (countdownActive s) (startTime s) (countdownStart s) v
          (graceTimerId s) (countdownTimerId s) (elapsedTimerId s)
          (heartbeatCount s) (lastBeatTime s).
Definition set_graceTimerId (v : option positive) (s : State) : State :=
  mkState (isActive s) (countdownActive s) (startTime s) (countdownStart s)
          (timeoutSeconds s) v (countdownTimerId s) (elapsedTimerId s)
          (heartbeatCount s) (lastBeatTime s).
Definition set_countdownTimerId (v : option positive) (s : State) : State :=
  mkState (isActive s) (countdownActive s) (startTime s) (countdownStart s)
          (timeoutSeconds s) (graceTimerId s) v (elapsedTimerId s)
          (heartbeatCount s) (lastBeatTime s).
Definition set_elapsedTimerId (v : option positive) (s : State) : State :=
  mkState (isActive s) (countdownActive s) (startTime s) (countdownStart s)
          (timeoutSeconds s) (graceTimerId s) (countdownTimerId s) v
          (heartbeatCount s) (lastBeatTime s).
Definition set_heartbeatCount (v : Z) (s : State) : State :=
  mkState (isActive s) (countdownActive s) (startTime s) (countdownStart s)
          (timeoutSeconds s) (graceTimerId s) (countdownTimerId s)
          (elapsedTimerId s) v (lastBeatTime s).
Definition set_lastBeatTime (v : option Z) (s : State) : State :=
  mkState (isActive s) (countdownActive s) (startTime s) (countdownStart s)
          (timeoutSeconds s) (graceTimerId s) (countdownTimerId s)
          (elapsedTimerId s) (heartbeatCount s) v.

(** ** Numbers *)

(** [Math.max(0, x)]. *)
Definition Math_max0 (x : Q) : Q := if Qle_bool x 0 then 0 else x.

Definition Qlt_b (a b : Q) : bool := negb (Qle_bool b a).

(** [t - v] where [v] may be [null], which the subtraction reads as 0. *)
Definition null_to_zero (v : option Z) : Z :=
  match v with Some t => t | None => 0 end.

Definition Qtrunc (q : Q) : Z := Z.quot (Qnum q) (Zpos (Qden q)).

(** [formatTime]: the minutes and the seconds it prints.  Numbers are exact
    rationals here and doubles in the code.  The module calls [formatTime]
    on [(Date.now() - startTime) / 1000] only, a whole number of
    milliseconds divided by 1000; up to 10^15 milliseconds the rounding of
    the doubles is too small to move either floor, so both give the same
    two integers.  For arguments of the size of 10^21 they differ. *)
Definition formatTime (totalSeconds : Q) : Z * Z :=
  (Qfloor (totalSeconds / 60),
   Qfloor (totalSeconds - 60 * inject_Z (Qtrunc (totalSeconds / 60)))).

(** ** Timer and countdown *)

Definition clearTimer (id : option positive) (h : Host) : Host :=
  match id with
  | Some i => cancel i h
  | None => h
  end.

Definition clearAllTimers (w : World) : World :=
  let w1 := with_st (set_graceTimerId None)
              (with_host (clearTimer (graceTimerId (st w))) w) in
  let w2 := with_st (set_countdownTimerId None)
              (with_host (clearTimer (countdownTimerId (st w1))) w1) in
  with_st (set_elapsedTimerId None)
    (with_host (clearTimer (elapsedTimerId (st w2))) w2).

Definition startElapsedTimer (w : World) : World :=
  let (id, h) := setInterval CbElapsed 1000 (host w) in
  with_st (set_elapsedTimerId (Some id)) (with_host (fun _ => h) w).

Definition startCountdown (w : World) : World :=
  let w1 := with_st (set_graceTimerId None)
              (with_host (clearTimer (graceTimerId (st w))) w) in
  let (id, h) := setTimeout CbGrace 1000 (host w1) in
  with_st (set_graceTimerId (Some id)) (with_host (fun _ => h) w1).

Definition triggerHeartbeat (w : World) : World :=
  with_el (fun e =>
    mkElements (textArea_value e) (textArea_filter e) (textArea_disabled e)
      (textArea_deleted e) (startButton_shown e) (wordCount_text e)
      (elapsedTime_text e) (pauseTimer_text e) (progressBar_width e)
      (progressContainer_active e) (wrapper_countdown e) true
      (saveButton_disabled e) (saveButton_saved e) (resetButton_disabled e)
      (timeoutDisplay_text e) (body_lightMode e)) w.

Definition ui_countdown_begins (e : Elements) : Elements :=
  mkElements (textArea_value e) (textArea_filter e) (textArea_disabled e)
    (textArea_deleted e) (startButton_shown e) (wordCount_text e)
    (elapsedTime_text e) (pauseTimer_text e) (progressBar_width e)
    true true (wrapper_heartbeat e)
    (saveButton_disabled e) (saveButton_saved e) (resetButton_disabled e)
    (timeoutDisplay_text e) (body_lightMode e).

Definition beginActiveCountdown (w : World) : World :=
  let t := now (host w) in
  let w1 := with_st (fun s =>
              set_lastBeatTime (Some 0)
                (set_heartbeatCount 0
                   (set_countdownStart (Some t) (set_countdownActive true s)))) w in
  let w2 := with_el ui_countdown_begins w1 in
  let w3 := triggerHeartbeat (with_st (set_lastBeatTime (Some t)) w2) in
  let (id, h) := setInterval CbCountdown CONFIG_COUNTDOWN_INTERVAL (host w3) in
  with_st (set_countdownTimerId (Some id)) (with_host (fun _ => h) w3).

(** The page after the countdown has been stopped. *)
Definition ui_countdown_stopped (T : Q) (e : Elements) : Elements :=
  mkElements (textArea_value e) FilterNone (textArea_disabled e)
    (textArea_deleted e) (startButton_shown e) (wordCount_text e)
    (elapsedTime_text e) T 100
    false false false
    (saveButton_disabled e) (saveButton_saved e) (resetButton_disabled e)
    (timeoutDisplay_text e) (body_lightMode e).

Definition stopCountdown (w : World) : World :=
  let w1 := with_st (set_graceTimerId None)
              (with_host (clearTimer (graceTimerId (st w))) w) in
  let w2 := with_st (set_countdownTimerId None)
              (with_host (clearTimer (countdownTimerId (st w1))) w1) in
  let w3 := with_st (fun s =>
              set_heartbeatCount 0
                (set_countdownStart None (set_countdownActive false s))) w2 in
  with_el (ui_countdown_stopped (timeoutSeconds (st w3))) w3.

(** ** History *)

Definition getHistory (w : World) : list Entry := history (store w).

Definition saveToHistory (text : jsstring) (wordCount : nat) (w : World) : World :=
  let t := now (host w) in
  let h := mkEntry t text wordCount t :: getHistory w in
  let h := if (CONFIG_MAX_HISTORY <? List.length h)%nat
           then firstn CONFIG_MAX_HISTORY h else h in
  with_store (fun s => mkStorage (draft s) (settings s) h) w.

(** ** Core logic *)

(** The writes that [handleTextDeletion] and [resetSession] both perform
    on the page. *)
Definition ui_session_over (T : Q) (e : Elements) : Elements :=
  mkElements [] FilterNone true
    (textArea_deleted e) true 0%nat
    (0, 0) T 100
    false false false
    true (saveButton_saved e) true
    (timeoutDisplay_text e) (body_lightMode e).

Definition ui_mark_deleted (v : bool) (e : Elements) : Elements :=
  mkElements (textArea_value e) (textArea_filter e) (textArea_disabled e)
    v (startButton_shown e) (wordCount_text e)
    (elapsedTime_text e) (pauseTimer_text e) (progressBar_width e)
    (progressContainer_active e) (wrapper_countdown e) (wrapper_heartbeat e)
    (saveButton_disabled e) (saveButton_saved e) (resetButton_disabled e)
    (timeoutDisplay_text e) (body_lightMode e).

Definition handleTextDeletion (w : World) : World * list Obs :=
  let text := trim (textArea_value (el w)) in
  let words := countWords text in
  let save := (0 <? List.length text)%nat && (3 <=? words)%nat in
  let w1 := if save then saveToHistory text words w else w in
  let w2 := clearAllTimers w1 in
  let w3 := with_st (fun s =>
              set_startTime None (set_countdownActive false (set_isActive false s))) w2 in
  let w4 := with_el (ui_session_over (timeoutSeconds (st w3))) w3 in
  let w5 := with_el (ui_mark_deleted true) w4 in
  let w6 := with_host (fun h => snd (setTimeout CbUndelete 500 h)) w5 in
  (w6, (if save then [Archived text words] else []) ++ [TextDestroyed text words]).

Definition ui_session_started (initialText : option jsstring) (e : Elements)
  : Elements :=
  mkElements (match initialText with Some s => s | None => [] end)
    (textArea_filter e) false
    (textArea_deleted e) false
    (match initialText with
     | Some s => countWords s
     | None => wordCount_text e
     end)
    (elapsedTime_text e) (pauseTimer_text e) (progressBar_width e)
    (progressContainer_active e) (wrapper_countdown e) (wrapper_heartbeat e)
    false (saveButton_saved e) false
    (timeoutDisplay_text e) (body_lightMode e).

Definition startSession (initialText : option jsstring) (w : World) : World :=
  let t := now (host w) in
  let w1 := with_st (fun s => set_startTime (Some t) (set_isActive true s)) w in
  let w2 := with_el (ui_session_started initialText) w1 in
  startCountdown (startElapsedTimer w2).

Definition ui_wordCount (n : nat) (e : Elements) : Elements :=
  mkElements (textArea_value e) (textArea_filter e) (textArea_disabled e)
    (textArea_deleted e) (startButton_shown e) n
    (elapsedTime_text e) (pauseTimer_text e) (progressBar_width e)
    (progressContainer_active e) (wrapper_countdown e) (wrapper_heartbeat e)
    (saveButton_disabled e) (saveButton_saved e) (resetButton_disabled e)
    (timeoutDisplay_text e) (body_lightMode e).

Definition handleInput (w : World) : World :=
  let w1 := stopCountdown w in
  let w2 := with_el (ui_wordCount (countWords (textArea_value (el w1)))) w1 in
  startCountdown w2.

Definition resetSession (w : World) : World :=
  let w1 := stopCountdown (clearAllTimers w) in
  let w2 := with_st (fun s => set_startTime None (set_isActive false s)) w1 in
  with_el (ui_session_over (timeoutSeconds (st w2))) w2.

(** The sampling function installed by [beginActiveCountdown]. *)
Definition ui_sample (progress remaining : Q) (f : Filter) (e : Elements)
  : Elements :=
  mkElements (textArea_value e) f (textArea_disabled e)
    (textArea_deleted e) (startButton_shown e) (wordCount_text e)
    (elapsedTime_text e) remaining (progress * 100)
    (progressContainer_active e) (wrapper_countdown e) (wrapper_heartbeat e)
    (saveButton_disabled e) (saveButton_saved e) (resetButton_disabled e)
    (timeoutDisplay_text e) (body_lightMode e).

Definition elapsed_of (w : World) : Q :=
  (now (host w) - null_to_zero (countdownStart (st w))) # 1000.

Definition remaining_of (w : World) : Q :=
  Math_max0 (timeoutSeconds (st w) - elapsed_of w).

Definition progress_of (w : World) : Q :=
  remaining_of w / timeoutSeconds (st w).

Definition baseBlur_of (w : World) : Q := (1 - progress_of w) * 10.

Definition beatPulse_of (w : World) : Pulse :=
  match lastBeatTime (st w) with
  | Some b =>
      let timeSinceBeat := (now (host w) - b) # 1000 in
      if Qlt_b timeSinceBeat (6 # 10)
      then SinPulse timeSinceBeat (6 + baseBlur_of w * (1 # 2))
      else NoPulse
  | None => NoPulse      (* [NaN < 0.6] is false *)
  end.

Definition countdownSample (w : World) : World * list Obs :=
  let elapsed := elapsed_of w in
  let remaining := remaining_of w in
  let progress := progress_of w in
  let w1 := with_el (ui_sample progress remaining
                       (Blur (baseBlur_of w) (beatPulse_of w))) w in
  let currentBeat := Qfloor elapsed in
  let beat := heartbeatCount (st w1) <? currentBeat in
  let w2 := if beat
            then triggerHeartbeat
                   (with_st (fun s =>
                      set_lastBeatTime (Some (now (host w1)))
                        (set_heartbeatCount currentBeat s)) w1)
            else w1 in
  if Qle_bool remaining 0
  then let (w3, o) := handleTextDeletion w2 in
       (w3, DecayTick progress remaining beat :: o)
  else (w2, [DecayTick progress remaining beat]).

(** The world after the page has been updated by a sample, before the
    deadline test. *)
Definition sampled (w : World) : World :=
  let w1 := with_el (ui_sample (progress_of w) (remaining_of w)
                       (Blur (baseBlur_of w) (beatPulse_of w))) w in
  if heartbeatCount (st w1) <? Qfloor (elapsed_of w)
  then triggerHeartbeat
         (with_st (fun s =>
            set_lastBeatTime (Some (now (host w1)))
              (set_heartbeatCount (Qfloor (elapsed_of w)) s)) w1)
  else w1.

Definition graceElapsed (w : World) : World :=
  beginActiveCountdown (with_st (set_graceTimerId None) w).

Definition truthy_time (t : option Z) : bool :=
  match t with Some v => negb (v =? 0) | None => false end.

Definition ui_elapsed (v : Z * Z) (e : Elements) : Elements :=
  mkElements (textArea_value e) (textArea_filter e) (textArea_disabled e)
    (textArea_deleted e) (startButton_shown e) (wordCount_text e)
    v (pauseTimer_text e) (progressBar_width e)
    (progressContainer_active e) (wrapper_countdown e) (wrapper_heartbeat e)
    (saveButton_disabled e) (saveButton_saved e) (resetButton_disabled e)
    (timeoutDisplay_text e) (body_lightMode e).

Definition elapsedTick (w : World) : World :=
  if truthy_time (startTime (st w)) && isActive (st w)
  then let elapsed := (now (host w) - null_to_zero (startTime (st w))) # 1000 in
       with_el (ui_elapsed (formatTime elapsed)) w
  else w.

Definition continueFromHistory (id : Z) (w : World) : World :=
  match find (fun h => e_id h =? id) (getHistory w) with
  | Some entry =>
      let w1 := if isActive (st w) then resetSession w else w in
      startSession (Some (e_text entry)) w1
  | None => w
  end.

Definition deleteFromHistory (id : Z) (w : World) : World :=
  with_store (fun s =>
    mkStorage (draft s) (settings s)
              (filter (fun h => negb (e_id h =? id)) (history s))) w.

Definition clearHistory (w : World) : World :=
  with_store (fun s => mkStorage (draft s) (settings s) []) w.

(** ** Storage *)

Definition ui_saved_label (v : bool) (e : Elements) : Elements :=
  mkElements (textArea_value e) (textArea_filter e) (textArea_disabled e)
    (textArea_deleted e) (startButton_shown e) (wordCount_text e)
    (elapsedTime_text e) (pauseTimer_text e) (progressBar_width e)
    (progressContainer_active e) (wrapper_countdown e) (wrapper_heartbeat e)
    (saveButton_disabled e) v (resetButton_disabled e)
    (timeoutDisplay_text e) (body_lightMode e).

Definition saveDraft (w : World) : World :=
  let text := textArea_value (el w) in
  let words := countWords text in
  let d := mkDraft text words (now (host w)) in
  let w1 := with_store (fun s => mkStorage (Some d) (settings s) (history s)) w in
  let w2 := if (0 <? List.length (trim text))%nat && (3 <=? words)%nat
            then saveToHistory text words w1 else w1 in
  let w3 := with_el (ui_saved_label true) w2 in
  with_host (fun h => snd (setTimeout CbSavedLabel 2000 h)) w3.

Definition loadDraft (w : World) : World :=
  match draft (store w) with
  | Some d =>
      match d_text d with
      | [] => w
      | text => startSession (Some text) w
      end
  | None => w
  end.

Definition saveSettings (w : World) : World :=
  with_store (fun s =>
    mkStorage (draft s)
              (Some (mkSettings (Some (timeoutSeconds (st w)))
                                (body_lightMode (el w))))
              (history s)) w.

Definition ui_timeout_shown (T : Q) (e : Elements) : Elements :=
  mkElements (textArea_value e) (textArea_filter e) (textArea_disabled e)
    (textArea_deleted e) (startButton_shown e) (wordCount_text e)
    (elapsedTime_text e) T (progressBar_width e)
    (progressContainer_active e) (wrapper_countdown e) (wrapper_heartbeat e)
    (saveButton_disabled e) (saveButton_saved e) (resetButton_disabled e)
    (option_map (fun _ => T) (timeoutDisplay_text e)) (body_lightMode e).

Definition ui_lightMode (v : bool) (e : Elements) : Elements :=
  mkElements (textArea_value e) (textArea_filter e) (textArea_disabled e)
    (textArea_deleted e) (startButton_shown e) (wordCount_text e)
    (elapsedTime_text e) (pauseTimer_text e) (progressBar_width e)
    (progressContainer_active e) (wrapper_countdown e) (wrapper_heartbeat e)
    (saveButton_disabled e) (saveButton_saved e) (resetButton_disabled e)
    (timeoutDisplay_text e) v.

(** [settings.timeout || CONFIG.DEFAULT_TIMEOUT]: a missing value and 0 are
    falsy. *)
Definition timeout_or_default (v : option Q) : Q :=
  match v with
  | Some q => if Qeq_bool q 0 then CONFIG_DEFAULT_TIMEOUT else q
  | None => CONFIG_DEFAULT_TIMEOUT
  end.

Definition loadSettings (w : World) : World :=
  match settings (store w) with
  | Some s =>
      let w1 := with_st (set_timeoutSeconds (timeout_or_default (s_timeout s))) w in
      let w2 := with_el (ui_timeout_shown (timeoutSeconds (st w1))) w1 in
      if s_lightMode s then with_el (ui_lightMode true) w2 else w2
  | None => w
  end.

(** ** Event handlers *)

(** [value] is what the settings input holds when its change event fires. *)
Definition handleTimeoutChange (value : jsstring) (w : World) : World :=
  match parseInt value with
  | Some v =>
      if (1 <=? v) && (v <=? 30)
      then let w1 := with_st (set_timeoutSeconds (inject_Z v)) w in
           saveSettings (with_el (ui_timeout_shown (timeoutSeconds (st w1))) w1)
      else w
  | None => w
  end.

Definition handleDarkModeToggle (w : World) : World :=
  saveSettings (with_el (fun e => ui_lightMode (negb (body_lightMode e)) e) w).

(** ** The page as the host drives it *)

Inductive Event :=
| UserRequestedStart
| UserEditedText (newText : jsstring)
| UserRequestedReset
| EscapePressed
| SaveClicked
| LoadClicked
| ContinueClicked (id : Z)
| DeleteClicked (id : Z)
| ClearHistoryClicked
| TimeoutSettingChanged (value : jsstring)
| ThemeToggled
| TimerFired (id : positive).

Definition ui_value (s : jsstring) (e : Elements) : Elements :=
  mkElements s (textArea_filter e) (textArea_disabled e)
    (textArea_deleted e) (startButton_shown e) (wordCount_text e)
    (elapsedTime_text e) (pauseTimer_text e) (progressBar_width e)
    (progressContainer_active e) (wrapper_countdown e) (wrapper_heartbeat e)
    (saveButton_disabled e) (saveButton_saved e) (resetButton_disabled e)
    (timeoutDisplay_text e) (body_lightMode e).

(** The callback behind a timer. *)
Definition fire (c : Callback) (w : World) : World * list Obs :=
  match c with
  | CbGrace => (graceElapsed w, [])
  | CbCountdown => countdownSample w
  | CbElapsed => (elapsedTick w, [])
  | CbUndelete => (with_el (ui_mark_deleted false) w, [])
  | CbSavedLabel => (with_el (ui_saved_label false) w, [])
  end.

(** A one-shot timer leaves the table when it fires, an interval is armed
    again one period later. *)
Definition rearm (tm : Timer) (h : Host) : Host :=
  match period tm with
  | None => cancel (tid tm) h
  | Some p =>
      {| now := now h; nextId := nextId h;
         timers := map (fun x => if Pos.eqb (tid x) (tid tm)
                                 then mkTimer (tid x) (now h + p) (period x) (cb x)
                                 else x) (timers h) |}
  end.

(** What the page lets happen: a disabled control receives no event, a
    hidden button no click, and a timer never fires before it is due. *)
Definition enabled (e : Event) (w : World) : bool :=
  match e with
  | UserRequestedStart => startButton_shown (el w)
  | UserEditedText _ => negb (textArea_disabled (el w))
  | UserRequestedReset => negb (resetButton_disabled (el w))
  | SaveClicked => negb (saveButton_disabled (el w))
  | TimerFired id =>
      match lookup_timer id (host w) with
      | Some tm => due tm <=? now (host w)
      | None => false
      end
  | _ => true
  end.

Definition handle (e : Event) (w : World) : World * list Obs :=
  match e with
  | UserRequestedStart => (startSession None w, [])
  | UserEditedText s => (handleInput (with_el (ui_value s) w), [])
  | UserRequestedReset => (resetSession w, [])
  | EscapePressed => (if isActive (st w) then resetSession w else w, [])
  | SaveClicked => (saveDraft w, [])
  | LoadClicked => (loadDraft w, [])
  | ContinueClicked id => (continueFromHistory id w, [])
  | DeleteClicked id => (deleteFromHistory id w, [])
  | ClearHistoryClicked => (clearHistory w, [])
  | TimeoutSettingChanged v => (handleTimeoutChange v w, [])
  | ThemeToggled => (handleDarkModeToggle w, [])
  | TimerFired id =>
      match lookup_timer id (host w) with
      | Some tm => fire (cb tm) (with_host (rearm tm) w)
      | None => (w, [])
      end
  end.

Definition set_clock (t : Z) (h : Host) : Host :=
  {| now := t; nextId := nextId h; timers := timers h |}.

(** One event at clock time [t]; [None] when the page cannot produce it. *)
Definition step (t : Z) (e : Event) (w : World) : option (World * list Obs) :=
  if t <? now (host w) then None
  else let w0 := with_host (set_clock t) w in
       if enabled e w0 then Some (handle e w0) else None.

Definition stamp (t : Z) (o : list Obs) : list (Z * Obs) := map (pair t) o.

Fixpoint run (tr : list (Z * Event)) (w : World) : option (World * list (Z * Obs)) :=
  match tr with
  | [] => Some (w, [])
  | (t, e) :: tr' =>
      match step t e w with
      | Some (w1, o) =>
          match run tr' w1 with
          | Some (w2, o') => Some (w2, stamp t o ++ o')
          | None => None
          end
      | None => None
      end
  end.

(** The HTML page is not among the sources.  What the engine needs of it is
    that it is served in the state [resetSession] restores: text area
    disabled, start button shown, save and reset disabled, no trace of a
    countdown. *)
Definition idle_page (e : Elements) : bool :=
  textArea_disabled e && startButton_shown e
  && resetButton_disabled e && saveButton_disabled e
  && match textArea_filter e with FilterNone => true | Blur _ _ => false end
  && negb (progressContainer_active e)
  && negb (wrapper_countdown e) && negb (wrapper_heartbeat e).

(** Such a page, for the examples. *)
Definition page_served : Elements :=
  mkElements [] FilterNone true false true 0%nat (0, 0) 5 100
    false false false true false true (Some 5%Q) false.

(** [init] at clock time [t0] over the page and the stored data. *)
Definition boot (page : Elements) (stored : Storage) (t0 : Z) : World :=
  loadSettings (mkWorld initial_state page (mkHost t0 1%positive []) stored).

Definition empty_storage : Storage := mkStorage None None [].

(** ** Runs and their discipline *)

(** The events that begin a grace period: a session start or an edit.  The
    load and continue buttons start a session only when there is something
    to load. *)
Definition restarts (e : Event) (w : World) : bool :=
  match e with
  | UserRequestedStart => true
  | UserEditedText _ => true
  | LoadClicked =>
      match draft (store w) with
      | Some d => match d_text d with [] => false | _ => true end
      | None => false
      end
  | ContinueClicked id =>
      match find (fun h => e_id h =? id) (getHistory w) with
      | Some _ => true
      | None => false
      end
  | _ => false
  end.

(** A session is started only when none is active.  The start button is
    hidden and [continueFromHistory] resets first, so this restricts the
    load button alone. *)
Definition allowed (e : Event) (w : World) : bool :=
  match e with
  | LoadClicked => negb (isActive (st w))
  | _ => true
  end.

(** [always P la w tr]: [P la t e w] holds at every event [(t, e)] of the run
    of [tr] from [w], where [la] is the time of the latest event that
    restarted the grace period ([la] itself before the first one). *)
Fixpoint always (P : Z -> Z -> Event -> World -> bool)
    (la : Z) (w : World) (tr : list (Z * Event)) : bool :=
  match tr with
  | [] => true
  | (t, e) :: tr' =>
      P la t e w
      && match step t e w with
         | Some (w1, _) => always P (if restarts e w then t else la) w1 tr'
         | None => true
         end
  end.

Definition starts_when_idle : Z -> World -> list (Z * Event) -> bool :=
  always (fun _ _ e w => allowed e w).

(** While a session is active every event comes less than [timeoutSeconds]
    after the latest activity. *)
Definition active_within_timeout : Z -> World -> list (Z * Event) -> bool :=
  always (fun la t _ w =>
            negb (isActive (st w))
            || Qlt_b (inject_Z (t - la)) (1000 * timeoutSeconds (st w))).

(** While a session is active every event comes less than one second after
    the latest activity. *)
Definition active_within_grace : Z -> World -> list (Z * Event) -> bool :=
  always (fun la t _ w => negb (isActive (st w)) || (t - la <? 1000)).

(** The host fires every timer exactly when it is due. *)
Definition punctual : Z -> World -> list (Z * Event) -> bool :=
  always (fun _ t e w =>
            match e with
            | TimerFired id =>
                match lookup_timer id (host w) with
                | Some tm => due tm =? t
                | None => true
                end
            | _ => true
            end).

Definition only_timers (tr : list (Z * Event)) : bool :=
  forallb (fun te => match snd te with TimerFired _ => true | _ => false end) tr.

Definition is_destroyed (o : Z * Obs) : bool :=
  match snd o with TextDestroyed _ _ => true | _ => false end.

Definition cb_eqb (a b : Callback) : bool :=
  match a, b with
  | CbGrace, CbGrace | CbCountdown, CbCountdown | CbElapsed, CbElapsed
  | CbUndelete, CbUndelete | CbSavedLabel, CbSavedLabel => true
  | _, _ => false
  end.

(** How many timers with callback [c] are pending. *)
Definition chains (c : Callback) (w : World) : nat :=
  List.length (filter (fun tm => cb_eqb (cb tm) c) (timers (host w))).

(** The time of the latest restart in the run of [tr] from [w]. *)
Fixpoint last_activity (la : Z) (w : World) (tr : list (Z * Event)) : Z :=
  match tr with
  | [] => la
  | (t, e) :: tr' =>
      match step t e w with
      | Some (w1, _) => last_activity (if restarts e w then t else la) w1 tr'
      | None => la
      end
  end.

(** At most one pending timer of each kind of the engine. *)
Definition one_chain (w : World) : Prop :=
  (chains CbGrace w <= 1)%nat
  /\ (chains CbCountdown w <= 1)%nat
  /\ (chains CbElapsed w <= 1)%nat.

(** Nothing of a countdown is on the page. *)
Definition no_countdown_shown (w : World) : Prop :=
  countdownActive (st w) = false
  /\ textArea_filter (el w) = FilterNone
  /\ progressContainer_active (el w) = false
  /\ wrapper_countdown (el w) = false
  /\ wrapper_heartbeat (el w) = false.

Definition stored_timeout (q : Q) : Storage :=
  mkStorage None (Some (mkSettings (Some q) false)) [].

Definition stored_draft : Storage :=
  mkStorage (Some (mkDraft (units "once upon a time") 4 0)) None [].

(** ** The invariant of disciplined runs *)

Definition host_ok (h : Host) : Prop :=
  NoDup (map tid (timers h))
  /\ forall tm, In tm (timers h) -> (tid tm < nextId h)%positive.

Record Inv (la : Z) (w : World) : Prop := mkInv {
  inv_host : host_ok (host w);
  inv_grace : forall tm, In tm (timers (host w)) -> cb tm = CbGrace ->
      graceTimerId (st w) = Some (tid tm)
      /\ due tm = la + 1000 /\ period tm = None;
  inv_countdown : forall tm, In tm (timers (host w)) -> cb tm = CbCountdown ->
      countdownTimerId (st w) = Some (tid tm)
      /\ period tm = Some 100
      /\ countdownActive (st w) = true
      /\ exists cs, countdownStart (st w) = Some cs
                    /\ la + 1000 <= cs /\ cs <= now (host w);
  inv_elapsed : forall tm, In tm (timers (host w)) -> cb tm = CbElapsed ->
      elapsedTimerId (st w) = Some (tid tm);
  inv_phase : graceTimerId (st w) <> None -> countdownTimerId (st w) = None;
  inv_idle : isActive (st w) = false ->
      graceTimerId (st w) = None /\ countdownTimerId (st w) = None
      /\ elapsedTimerId (st w) = None;
  inv_page : textArea_disabled (el w) = negb (isActive (st w))
      /\ startButton_shown (el w) = negb (isActive (st w))
      /\ resetButton_disabled (el w) = negb (isActive (st w))
      /\ saveButton_disabled (el w) = negb (isActive (st w));
  inv_calm : (forall tm, In tm (timers (host w)) -> cb tm <> CbCountdown) ->
      countdownActive (st w) = false
      /\ textArea_filter (el w) = FilterNone
      /\ progressContainer_active (el w) = false
      /\ wrapper_countdown (el w) = false
      /\ wrapper_heartbeat (el w) = false;
  inv_live : isActive (st w) = true ->
      exists tm, In tm (timers (host w))
                 /\ (cb tm = CbGrace \/ cb tm = CbCountdown)
}.

(** A session started at [s] with a timeout of [n] seconds and left alone
    under a punctual host: either the grace timeout is pending, or the
    sampling interval is, due at one of the 100 ms marks up to the
    deadline. *)
Definition Waiting (s n : Z) (w : World) : Prop :=
  Inv s w
  /\ timeoutSeconds (st w) = inject_Z n
  /\ isActive (st w) = true
  /\ ((exists tm, In tm (timers (host w)) /\ cb tm = CbGrace)
      \/ (exists tm k, In tm (timers (host w)) /\ cb tm = CbCountdown
                       /\ countdownStart (st w) = Some (s + 1000)
                       /\ 1 <= k <= 10 * n
                       /\ due tm = s + 1000 + 100 * k)).

Definition destroyed_obs (o : Obs) : bool :=
  match o with TextDestroyed _ _ => true | _ => false end.

(** ** The earlier revision of the timing code

    [static/js/main.js] holds an earlier revision of the same module, without
    grace period, heartbeat or history: the pause timeout waits
    [timeoutSeconds] and the blur then advances by a fixed step every tick.
    Only its two timing functions are modelled, for comparison. *)

Module Legacy.

Definition BLUR_INCREMENT : Z := 1.
Definition BLUR_MAX : Z := 20.
Definition TICK_INTERVAL : Z := 250.

(** The delay [startPauseTimeout] passes to [setTimeout], in ms. *)
Definition pauseDelay (timeoutSeconds : Q) : Q := timeoutSeconds * 1000.

(** One tick of the interval of [startBlurEffect]: the new [blurAmount]
    and whether [handleTextDeletion] is called. *)
Definition blurTick (blurAmount : Z) : Z * bool :=
  let b := blurAmount + BLUR_INCREMENT in (b, BLUR_MAX <=? b).

Fixpoint blurTicks (n : nat) (blurAmount : Z) : Z * bool :=
  match n with
  | O => (blurAmount, false)
  | S n' =>
      let (b, deleted) := blurTick blurAmount in
      if deleted then (b, true) else blurTicks n' b
  end.

End Legacy.

(** ** Rendering the history

    [renderHistory] writes HTML; what it computes from an entry is the
    preview of the text and the label of its date. *)

(** [s.replace(/c/g, r)] for a single code unit [c]. *)
Fixpoint replaceAll (c : N) (r : jsstring) (s : jsstring) : jsstring :=
  match s with
  | [] => []
  | x :: s' => (if (x =? c)%N then r else [x]) ++ replaceAll c r s'
  end.

(** The text of an entry cut to 120 code units. *)
Definition preview (text : jsstring) : jsstring :=
  if (120 <? List.length text)%nat
  then firstn 120 text ++ units "..."
  else text.

(** What goes between the tags of the preview paragraph. *)
Definition previewHtml (text : jsstring) : jsstring :=
  replaceAll 62 (units "&gt;") (replaceAll 60 (units "&lt;") (preview text)).

(** The label [formatDate] gives a date saved at [savedAt], read at [now]. *)
Inductive DateLabel :=
| JustNow
| MinutesAgo (n : Z)
| HoursAgo (n : Z)
| LocaleDate (savedAt : Z).

Definition formatDate (savedAt now : Z) : DateLabel :=
  let diff := now - savedAt in
  if diff <? 60000 then JustNow
  else if diff <? 3600000 then MinutesAgo (diff / 60000)
  else if diff <? 86400000 then HoursAgo (diff / 3600000)
  else LocaleDate savedAt.

(** ** The configured range *)

Definition in_range (q : Q) : Prop := exists n, 1 <= n <= 30 /\ q = inject_Z n.

(** The stored settings hold no timeout, or one in range. *)
Definition settings_in_range (s : Storage) : Prop :=
  match settings s with
  | Some x =>
      match s_timeout x with
      | Some q => in_range q
      | None => True
      end
  | None => True
  end.

(** ** The first page

    The page of [src/unnamed/part_000] counts words inline, without the
    test for blank text. *)
Definition inlineWordCount (text : jsstring) : nat :=
  List.length (split_ws (trim text)).

(** The tick of the blur loops of the earlier revisions, with what
    [startBlurEffect] of [static/js/main.js] shows: the width of the
    progress bar in per cent and the time left. *)
Definition legacyWidth (blurAmount : Z) : Q :=
  100 - (inject_Z blurAmount / inject_Z Legacy.BLUR_MAX) * 100.

Definition legacyTimeLeft (timeoutSeconds : Q) (blurAmount : Z) : Q :=
  Math_max0 (timeoutSeconds
             - (inject_Z blurAmount / inject_Z Legacy.BLUR_MAX) * timeoutSeconds).

(** ** Scenarios

    Concrete worlds and traces used as examples.  The clock starts at one
    million milliseconds. *)

Definition after (tr : list (Z * Event)) (w : World) : World :=
  match run tr w with
  | Some (w', _) => w'
  | None => w
  end.

Definition seen (tr : list (Z * Event)) (w : World) : list (Z * Obs) :=
  match run tr w with
  | Some (_, o) => o
  | None => []
  end.

Definition fresh : World := boot page_served empty_storage 1000000.

(** Start; one second later the elapsed-time interval (handle 1) and the
    grace timeout (handle 2) fire on time.  The sampling interval then has
    handle 3. *)
Definition to_decaying : list (Z * Event) :=
  [(1000000, UserRequestedStart);
   (1001000, TimerFired 1%positive); (1001000, TimerFired 2%positive)].

Definition decaying : World := after to_decaying fresh.

Definition at_clock (t : Z) (w : World) : World := with_host (set_clock t) w.

(** [n] edits, one every [gap] milliseconds from [t] on. *)
Fixpoint typing (n : nat) (gap t : Z) : list (Z * Event) :=
  match n with
  | O => []
  | S n' => (t, UserEditedText (units "a")) :: typing n' gap (t + gap)
  end.

(** [n] firings of timer [id], one every 100 ms from [t] on. *)
Fixpoint sampling (n : nat) (id : positive) (t : Z) : list (Z * Event) :=
  match n with
  | O => []
  | S n' => (t, TimerFired id) :: sampling n' id (t + 100)
  end.

(** Thirty seconds of typing with half a second between keystrokes. *)
Definition steady_typing : list (Z * Event) :=
  (1000000, UserRequestedStart) :: typing 60 500 1000500.

(** A session left alone: the grace timeout fires after one second, then
    fifty samples follow, the last one five seconds later. *)
Definition left_alone : list (Z * Event) :=
  (1001000, TimerFired 2%positive) :: sampling 50 3%positive 1001100.

(** The decay has begun and the setting is changed 50 ms later, before the
    first sample. *)
Definition change_in_decay (value : string) : list (Z * Event) :=
  to_decaying ++ [(1001050, TimeoutSettingChanged (units value))].

(** The decay has begun and the load button is pressed 50 ms later; every
    timer then fires on time until both grace timeouts have elapsed. *)
Definition load_in_decay : list (Z * Event) :=
  to_decaying
  ++ (1001050, LoadClicked) :: sampling 9 3%positive 1001100
  ++ [(1002000, TimerFired 1%positive); (1002000, TimerFired 3%positive);
      (1002050, TimerFired 4%positive); (1002050, TimerFired 5%positive)].

(** ... and then a keystroke between two samples. *)
Definition load_then_type : list (Z * Event) :=
  load_in_decay
  ++ [(1002100, TimerFired 3%positive); (1002120, UserEditedText (units "x"));
      (1002200, TimerFired 3%positive)].

(** The same start, and the reset button 10 ms after the second grace
    timeout has elapsed. *)
Definition reset_after_load : list (Z * Event) :=
  load_in_decay ++ [(1002060, UserRequestedReset)].

(** ... then the next firing of the sampling interval with handle 3, a new
    session, three words typed and the firing after that. *)
Definition restart_after_reset : list (Z * Event) :=
  reset_after_load
  ++ [(1002100, TimerFired 3%positive); (1002150, UserRequestedStart);
      (1002160, UserEditedText (units "a b c"));
      (1002200, TimerFired 3%positive)].

(** Twenty archived texts, with the ids 1 to 20. *)
Definition full_history : list Entry :=
  map (fun i => mkEntry (Z.of_nat i) (units "an old text") 3 (Z.of_nat i))
      (seq 1 20).

Definition stored_history : Storage := mkStorage None None full_history.

(** A session in which three words are typed and then left alone: the grace
    timeout armed by the edit has handle 3, the sampling interval handle 4,
    and its firing five seconds into the decay destroys the text. *)
Definition write_and_leave : list (Z * Event) :=
  [(1000000, UserRequestedStart);
   (1000500, UserEditedText (units "one two three"));
   (1001500, TimerFired 3%positive); (1006500, TimerFired 4%positive)].

(** * Properties *)

(** ** Word counting *)

Example countWords_fox : countWords (units "  the quick	brown fox ") = 4%nat.
Proof. reflexivity. Qed.

Example countWords_blank : countWords (units "   ") = 0%nat.
Proof. reflexivity. Qed.

Example split_leading : split_ws (units " a") = [ []; units "a" ].
Proof. reflexivity. Qed.

Example parseInt_examples :
  parseInt (units " 12.7") = Some 12 /\ parseInt (units "abc") = None
  /\ parseInt (units "-3") = Some (-3) /\ parseInt (units "31x") = Some 31.
Proof. repeat split. Qed.

Lemma split_go_length (s : jsstring) :
  forall inws cur,
    ends_word (negb inws) s = true ->
    List.length (split_go inws cur s)
    = (word_runs (negb inws) s + (if inws then 0 else 1))%nat.
Proof.
  induction s as [|c s IH]; intros inws cur Hend; simpl in *.
  - destruct inws; [discriminate | reflexivity].
  - destruct (is_space c) eqn:Hc; simpl in Hend.
    + destruct inws; simpl.
      * rewrite (IH true cur Hend). simpl. lia.
      * rewrite (IH true [] Hend). simpl. lia.
    + rewrite (IH false (c :: cur) Hend). destruct inws; simpl; lia.
Qed.

Lemma word_runs_trimStart (s : jsstring) :
  word_runs false (trimStart s) = word_runs false s.
Proof.
  induction s as [|c s IH]; simpl; [reflexivity|].
  destruct (is_space c) eqn:Hc; [exact IH | simpl; rewrite Hc; reflexivity].
Qed.

Lemma word_runs_trimEnd (s : jsstring) :
  forall b, word_runs b (trimEnd s) = word_runs b s.
Proof.
  induction s as [|c s IH]; intros b; simpl; [reflexivity|].
  destruct (trimEnd s) as [|d t] eqn:Ht.
  - destruct (is_space c) eqn:Hc; simpl; rewrite ?Hc.
    + rewrite <- IH. reflexivity.
    + rewrite <- (IH true). reflexivity.
  - change (word_runs b (c :: d :: t) = word_runs b (c :: s)).
    simpl. destruct (is_space c); rewrite <- IH; reflexivity.
Qed.

Lemma ends_word_trimEnd (s : jsstring) :
  forall d, ends_word d (trimEnd s) = match trimEnd s with [] => d | _ => true end.
Proof.
  induction s as [|c s IH]; intros d; simpl; [reflexivity|].
  destruct (trimEnd s) as [|e t] eqn:Ht.
  - destruct (is_space c) eqn:Hc; simpl; [reflexivity | rewrite Hc; reflexivity].
  - change (ends_word (negb (is_space c)) (e :: t) = true).
    rewrite IH. reflexivity.
Qed.

Lemma trimEnd_head (s : jsstring) c t :
  trimEnd s = c :: t -> exists s', s = c :: s'.
Proof.
  destruct s as [|a s]; simpl; [discriminate|].
  destruct (trimEnd s); [destruct (is_space a)|]; intros H; inversion H; eauto.
Qed.

Lemma trimStart_head (s : jsstring) c t :
  trimStart s = c :: t -> is_space c = false.
Proof.
  induction s as [|a s IH]; simpl; [discriminate|].
  destruct (is_space a) eqn:Ha; [exact IH|].
  intros H; inversion H; subst; exact Ha.
Qed.

(** The module's [countWords] counts the runs of non-whitespace. *)
Lemma countWords_word_runs (s : jsstring) : countWords s = word_runs false s.
Proof.
  unfold countWords.
  rewrite <- (word_runs_trimStart s), <- (word_runs_trimEnd (trimStart s) false).
  fold (trim s). destruct (trim s) as [|c t] eqn:Ht; [reflexivity|].
  unfold split_ws. rewrite split_go_length.
  - unfold trim in Ht. destruct (trimEnd_head _ _ _ Ht) as [s' Hs'].
    apply trimStart_head in Hs'. simpl. rewrite Hs'. simpl. lia.
  - rewrite <- Ht. unfold trim. rewrite ends_word_trimEnd.
    destruct (trimEnd (trimStart s)); reflexivity.
Qed.

Lemma word_runs_zero (s : jsstring) :
  word_runs false s = 0%nat <-> forallb is_space s = true.
Proof.
  induction s as [|c s IH]; simpl; [tauto|].
  destruct (is_space c); simpl; [exact IH|].
  split; [lia | discriminate].
Qed.

Lemma word_runs_trim (s : jsstring) : word_runs false (trim s) = word_runs false s.
Proof. unfold trim. rewrite word_runs_trimEnd. apply word_runs_trimStart. Qed.

Lemma word_runs_pos_nonempty (s : jsstring) :
  (0 < word_runs false s)%nat -> (0 < List.length (trim s))%nat.
Proof.
  rewrite <- word_runs_trim. destruct (trim s); simpl; lia.
Qed.

(** ** The destructive step *)

Lemma countWords_trim (s : jsstring) : countWords (trim s) = countWords s.
Proof. rewrite !countWords_word_runs. apply word_runs_trim. Qed.

Lemma archive_test (s : jsstring) :
  (0 <? List.length (trim s))%nat && (3 <=? countWords (trim s))%nat
  = (3 <=? countWords s)%nat.
Proof.
  rewrite countWords_trim.
  destruct (3 <=? countWords s)%nat eqn:H3; [|apply andb_false_r].
  rewrite andb_true_r. apply Nat.ltb_lt. apply Nat.leb_le in H3.
  apply word_runs_pos_nonempty. rewrite <- countWords_word_runs. lia.
Qed.

Lemma handleTextDeletion_obs (w : World) :
  snd (handleTextDeletion w)
  = (if (3 <=? countWords (textArea_value (el w)))%nat
     then [Archived (trim (textArea_value (el w)))
                    (countWords (textArea_value (el w)))]
     else [])
    ++ [TextDestroyed (trim (textArea_value (el w)))
                      (countWords (textArea_value (el w)))].
Proof.
  unfold handleTextDeletion. cbv zeta. unfold snd.
  rewrite archive_test, countWords_trim. reflexivity.
Qed.

Lemma handleTextDeletion_history (w : World) :
  history (store (fst (handleTextDeletion w)))
  = if (3 <=? countWords (textArea_value (el w)))%nat
    then history (store (saveToHistory (trim (textArea_value (el w)))
                                       (countWords (textArea_value (el w))) w))
    else history (store w).
Proof.
  unfold handleTextDeletion. cbv zeta. unfold fst.
  rewrite archive_test, countWords_trim.
  destruct (3 <=? countWords (textArea_value (el w)))%nat; reflexivity.
Qed.

Lemma saveToHistory_head (text : jsstring) (n : nat) (w : World) :
  exists rest,
    history (store (saveToHistory text n w))
    = mkEntry (now (host w)) text n (now (host w)) :: rest.
Proof.
  unfold saveToHistory, getHistory. cbv zeta.
  destruct (CONFIG_MAX_HISTORY <? _)%nat; simpl; eauto.
Qed.

(** C8.  When the text is destroyed the trimmed buffer goes to the history
    exactly when it holds at least three words, a word being a maximal run of
    non-whitespace (so blank text has none); the archive call comes before
    the text area is emptied, and afterwards the text area is empty and the
    session inactive. *)
Theorem C8_destroyed_text_is_archived_iff_three_words (w : World) :
  let buffer := textArea_value (el w) in
  let w' := fst (handleTextDeletion w) in
  let obs := snd (handleTextDeletion w) in
  countWords buffer = word_runs false buffer
  /\ (countWords buffer = 0%nat <-> forallb is_space buffer = true)
  /\ ((exists t n, In (Archived t n) obs) <-> (3 <= countWords buffer)%nat)
  /\ obs = (if (3 <=? countWords buffer)%nat
            then [Archived (trim buffer) (countWords buffer)] else [])
           ++ [TextDestroyed (trim buffer) (countWords buffer)]
  /\ ((3 <= countWords buffer)%nat ->
      exists rest,
        history (store w')
        = mkEntry (now (host w)) (trim buffer) (countWords buffer) (now (host w))
          :: rest)
  /\ ((countWords buffer < 3)%nat -> history (store w') = history (store w))
  /\ textArea_value (el w') = []
  /\ isActive (st w') = false.
Proof.
  intros buffer w' obs. subst w' obs.
  rewrite handleTextDeletion_obs, handleTextDeletion_history. fold buffer.
  split; [apply countWords_word_runs|].
  split; [rewrite countWords_word_runs; apply word_runs_zero|].
  split.
  { destruct (3 <=? countWords buffer)%nat eqn:H3.
    - apply Nat.leb_le in H3. split; [intros _; exact H3|].
      intros _. exists (trim buffer), (countWords buffer). simpl. auto.
    - apply Nat.leb_gt in H3. split; [|lia].
      intros (t & n & [H|[]]). discriminate H. }
  split; [reflexivity|].
  split.
  { intros H3. apply Nat.leb_le in H3. rewrite H3. apply saveToHistory_head. }
  split.
  { intros H3. apply Nat.leb_gt in H3. rewrite H3. reflexivity. }
  split; reflexivity.
Qed.

Example destroyed_fox :
  let w := with_el (ui_value (units "the quick brown fox"))
             (boot page_served empty_storage 1000) in
  snd (handleTextDeletion w)
  = [Archived (units "the quick brown fox") 4;
     TextDestroyed (units "the quick brown fox") 4].
Proof. reflexivity. Qed.

Example destroyed_empty :
  snd (handleTextDeletion (boot page_served empty_storage 1000)) = [TextDestroyed [] 0].
Proof. reflexivity. Qed.

(** ** Frame: who writes [timeoutSeconds] *)

Lemma resetSession_timeout (w : World) :
  timeoutSeconds (st (resetSession w)) = timeoutSeconds (st w).
Proof. reflexivity. Qed.

Lemma handleTextDeletion_timeout (w : World) :
  timeoutSeconds (st (fst (handleTextDeletion w))) = timeoutSeconds (st w).
Proof.
  unfold handleTextDeletion. cbv zeta. unfold fst.
  destruct (_ && _); reflexivity.
Qed.

Lemma startSession_timeout (i : option jsstring) (w : World) :
  timeoutSeconds (st (startSession i w)) = timeoutSeconds (st w).
Proof. reflexivity. Qed.

Lemma countdownSample_timeout (w : World) :
  timeoutSeconds (st (fst (countdownSample w))) = timeoutSeconds (st w).
Proof.
  unfold countdownSample. cbv zeta.
  destruct (Qle_bool (remaining_of w) 0).
  - destruct (handleTextDeletion _) as [w3 o] eqn:Hd. unfold fst.
    change w3 with (fst (w3, o)). rewrite <- Hd, handleTextDeletion_timeout.
    destruct (_ <? _); reflexivity.
  - unfold fst. destruct (_ <? _); reflexivity.
Qed.

Lemma fire_timeout (c : Callback) (w : World) :
  timeoutSeconds (st (fst (fire c w))) = timeoutSeconds (st w).
Proof.
  destruct c; try reflexivity.
  - apply countdownSample_timeout.
  - simpl. unfold elapsedTick. destruct (_ && _); reflexivity.
Qed.

Lemma handle_timeout (e : Event) (w : World) :
  (forall v, e <> TimeoutSettingChanged v) ->
  timeoutSeconds (st (fst (handle e w))) = timeoutSeconds (st w).
Proof.
  intros Hne. destruct e; simpl; try reflexivity.
  - destruct (isActive (st w)); reflexivity.
  - unfold saveDraft. cbv zeta. destruct (_ && _); reflexivity.
  - unfold loadDraft. destruct (draft (store w)) as [d|]; [|reflexivity].
    destruct (d_text d); reflexivity.
  - unfold continueFromHistory. destruct (find _ _); [|reflexivity].
    destruct (isActive (st w)); reflexivity.
  - exfalso. exact (Hne value eq_refl).
  - destruct (lookup_timer id (host w)) as [tm|]; [|reflexivity].
    rewrite fire_timeout. reflexivity.
Qed.

(** C10.  Neither [resetSession] nor [handleTextDeletion] changes
    [timeoutSeconds]; among all the handlers of the page only the change of
    the timeout setting writes it (the other writer, [loadSettings], runs
    once at start-up). *)
Theorem C10_reset_and_deletion_keep_timeout (w : World) :
  timeoutSeconds (st (resetSession w)) = timeoutSeconds (st w)
  /\ timeoutSeconds (st (fst (handleTextDeletion w))) = timeoutSeconds (st w)
  /\ (forall e, (forall v, e <> TimeoutSettingChanged v) ->
        timeoutSeconds (st (fst (handle e w))) = timeoutSeconds (st w))
  /\ (forall t e w' o, step t e w = Some (w', o) ->
        (forall v, e <> TimeoutSettingChanged v) ->
        timeoutSeconds (st w') = timeoutSeconds (st w)).
Proof.
  split; [apply resetSession_timeout|].
  split; [apply handleTextDeletion_timeout|].
  split; [intros e; apply handle_timeout|].
  intros t e w' o Hs Hne. unfold step in Hs.
  destruct (t <? now (host w)); [discriminate|].
  destruct (enabled e _); [|discriminate].
  inversion Hs as [Hh]. clear Hs.
  change w' with (fst (w', o)). rewrite <- Hh, handle_timeout by exact Hne.
  reflexivity.
Qed.

(** ** Timers: cancelling *)

Lemma in_cancel (id : positive) (h : Host) (tm : Timer) :
  In tm (timers (cancel id h)) <-> In tm (timers h) /\ tid tm <> id.
Proof.
  unfold cancel, keeps. simpl. rewrite filter_In.
  destruct (Pos.eqb_spec (tid tm) id); simpl; intuition congruence.
Qed.

Lemma in_clearTimer (id : option positive) (h : Host) (tm : Timer) :
  In tm (timers (clearTimer id h)) <-> In tm (timers h) /\ id <> Some (tid tm).
Proof.
  destruct id as [i|]; unfold clearTimer.
  - rewrite in_cancel. intuition congruence.
  - intuition congruence.
Qed.

Lemma now_clearTimer (id : option positive) (h : Host) :
  now (clearTimer id h) = now h.
Proof. destruct id; reflexivity. Qed.

Lemma nextId_clearTimer (id : option positive) (h : Host) :
  nextId (clearTimer id h) = nextId h.
Proof. destruct id; reflexivity. Qed.

Lemma in_clearAllTimers (w : World) (tm : Timer) :
  In tm (timers (host (clearAllTimers w)))
  <-> In tm (timers (host w))
      /\ graceTimerId (st w) <> Some (tid tm)
      /\ countdownTimerId (st w) <> Some (tid tm)
      /\ elapsedTimerId (st w) <> Some (tid tm).
Proof.
  unfold clearAllTimers. cbv zeta. simpl. rewrite !in_clearTimer. tauto.
Qed.

Lemma in_handleTextDeletion (w : World) (tm : Timer) :
  In tm (timers (host (fst (handleTextDeletion w)))) ->
  cb tm = CbUndelete
  \/ (In tm (timers (host w))
      /\ graceTimerId (st w) <> Some (tid tm)
      /\ countdownTimerId (st w) <> Some (tid tm)
      /\ elapsedTimerId (st w) <> Some (tid tm)).
Proof.
  unfold handleTextDeletion. cbv zeta. unfold fst.
  destruct (_ && _); simpl; rewrite !in_clearTimer;
    (intros [H|H]; [left; subst tm; reflexivity | right; tauto]).
Qed.

(** ** One sample of the countdown *)

Lemma Math_max0_le0 (x : Q) : (Math_max0 x <= 0 <-> x <= 0)%Q.
Proof.
  unfold Math_max0. destruct (Qle_bool x 0) eqn:H.
  - apply Qle_bool_iff in H. split; [intros _; exact H | intros _; apply Qle_refl].
  - tauto.
Qed.


(** The deadline in clock terms: [T] seconds after [cs]. *)
Lemma past_deadline (T : Q) (cs t : Z) :
  (T - ((t - cs) # 1000) <= 0 <-> inject_Z cs + 1000 * T <= inject_Z t)%Q.
Proof.
  rewrite (Qmake_Qdiv (t - cs) 1000). unfold Z.sub.
  rewrite inject_Z_plus, inject_Z_opp.
  change (inject_Z (Z.pos 1000)) with 1000%Q.
  assert (E : ((inject_Z t + - inject_Z cs) / 1000
               == (inject_Z t + - inject_Z cs) * (1 # 1000))%Q) by field.
  rewrite E. split; intros H; lra.
Qed.

Lemma countdownSample_tick (w : World) :
  exists beat rest,
    snd (countdownSample w)
    = DecayTick (progress_of w) (remaining_of w) beat :: rest.
Proof.
  unfold countdownSample. cbv zeta.
  destruct (Qle_bool (remaining_of w) 0).
  - destruct (handleTextDeletion _) as [w3 o]. simpl. eauto.
  - simpl. eauto.
Qed.

Lemma countdownSample_destroys (w : World) :
  (exists txt n, In (TextDestroyed txt n) (snd (countdownSample w)))
  <-> (remaining_of w <= 0)%Q.
Proof.
  unfold countdownSample. cbv zeta.
  destruct (Qle_bool (remaining_of w) 0) eqn:Hr.
  - pose proof Hr as Hr'. apply Qle_bool_iff in Hr'.
    split; [intros _; exact Hr'|]. intros _.
    match goal with |- context [handleTextDeletion ?x] =>
      pose proof (handleTextDeletion_obs x) as Ho;
      destruct (handleTextDeletion x) as [w3 o] end.
    simpl in *. subst o. eexists. eexists. right. apply in_or_app. right.
    left. reflexivity.
  - split.
    + simpl. intros (txt & n & [H|[]]). discriminate H.
    + intros H. apply Qle_bool_iff in H. congruence.
Qed.

Lemma countdownSample_alive (w : World) :
  ~ (remaining_of w <= 0)%Q ->
  host (fst (countdownSample w)) = host w
  /\ store (fst (countdownSample w)) = store w
  /\ isActive (st (fst (countdownSample w))) = isActive (st w)
  /\ countdownActive (st (fst (countdownSample w))) = countdownActive (st w)
  /\ countdownStart (st (fst (countdownSample w))) = countdownStart (st w)
  /\ graceTimerId (st (fst (countdownSample w))) = graceTimerId (st w)
  /\ countdownTimerId (st (fst (countdownSample w))) = countdownTimerId (st w)
  /\ elapsedTimerId (st (fst (countdownSample w))) = elapsedTimerId (st w)
  /\ snd (countdownSample w)
     = [DecayTick (progress_of w) (remaining_of w)
                  (heartbeatCount (st w) <? Qfloor (elapsed_of w))].
Proof.
  intros Hr. unfold countdownSample. cbv zeta.
  destruct (Qle_bool (remaining_of w) 0) eqn:Hb.
  - apply Qle_bool_iff in Hb. contradiction.
  - unfold fst. simpl. destruct (_ <? _); simpl; repeat split; reflexivity.
Qed.

Lemma countdownSample_dead (w : World) :
  (remaining_of w <= 0)%Q ->
  isActive (st (fst (countdownSample w))) = false
  /\ countdownActive (st (fst (countdownSample w))) = false
  /\ graceTimerId (st (fst (countdownSample w))) = None
  /\ countdownTimerId (st (fst (countdownSample w))) = None
  /\ elapsedTimerId (st (fst (countdownSample w))) = None
  /\ textArea_value (el (fst (countdownSample w))) = []
  /\ forall tm, In tm (timers (host (fst (countdownSample w)))) ->
       cb tm = CbUndelete
       \/ (In tm (timers (host w))
           /\ graceTimerId (st w) <> Some (tid tm)
           /\ countdownTimerId (st w) <> Some (tid tm)
           /\ elapsedTimerId (st w) <> Some (tid tm)).
Proof.
  intros Hr. apply Qle_bool_iff in Hr. unfold countdownSample. cbv zeta.
  rewrite Hr.
  match goal with |- context [handleTextDeletion ?x] =>
    set (w2 := x);
    pose proof (in_handleTextDeletion w2) as Hin;
    assert (Hst : isActive (st (fst (handleTextDeletion w2))) = false
                  /\ countdownActive (st (fst (handleTextDeletion w2))) = false
                  /\ graceTimerId (st (fst (handleTextDeletion w2))) = None
                  /\ countdownTimerId (st (fst (handleTextDeletion w2))) = None
                  /\ elapsedTimerId (st (fst (handleTextDeletion w2))) = None
                  /\ textArea_value (el (fst (handleTextDeletion w2))) = [])
      by (unfold handleTextDeletion; cbv zeta; unfold fst;
          destruct (_ && _); repeat split; reflexivity);
    destruct (handleTextDeletion w2) as [w3 o] end.
  unfold fst in *. destruct Hst as (? & ? & ? & ? & ? & ?).
  repeat (split; [assumption|]).
  intros tm Htm. destruct (Hin tm Htm) as [Hc|Hc]; [left; exact Hc|right].
  subst w2. destruct (_ <? _); simpl in Hc; exact Hc.
Qed.

Lemma remaining_started (w : World) (cs : Z) :
  countdownStart (st w) = Some cs ->
  remaining_of w
  = Math_max0 (timeoutSeconds (st w) - ((now (host w) - cs) # 1000)).
Proof. intros Hcs. unfold remaining_of, elapsed_of. rewrite Hcs. reflexivity. Qed.

Lemma destroys_iff_deadline (w : World) (cs : Z) :
  countdownStart (st w) = Some cs ->
  (exists txt n, In (TextDestroyed txt n) (snd (countdownSample w)))
  <-> (inject_Z cs + 1000 * timeoutSeconds (st w) <= inject_Z (now (host w)))%Q.
Proof.
  intros Hcs. rewrite countdownSample_destroys, (remaining_started w cs Hcs).
  rewrite Math_max0_le0. apply past_deadline.
Qed.

(** C1.  A sample taken at clock time [t] of a phase that began at [cs]
    shows [remaining = max(0, timeoutSeconds - (t - cs)/1000)], destroys the
    text exactly when that is not positive, that is exactly when the clock
    has reached [cs + timeoutSeconds]; the decision reads nothing but the
    clock, [countdownStart] and [timeoutSeconds], so it holds whatever the
    number of earlier samples.  A destroying sample cancels the sampling
    interval, a sample that does not destroy leaves the phase as it is: the
    destruction happens at the first sample past the deadline. *)
Theorem C1_deadline_is_recomputed_from_the_clock (w : World) (cs : Z) :
  countdownStart (st w) = Some cs ->
  let t := now (host w) in
  let T := timeoutSeconds (st w) in
  let remaining := Math_max0 (T - ((t - cs) # 1000)) in
  let w' := fst (countdownSample w) in
  let obs := snd (countdownSample w) in
  (exists beat rest, obs = DecayTick (remaining / T) remaining beat :: rest)
  /\ ((exists txt n, In (TextDestroyed txt n) obs) <-> (remaining <= 0)%Q)
  /\ ((remaining <= 0)%Q <-> (inject_Z cs + 1000 * T <= inject_Z t)%Q)
  /\ ((remaining <= 0)%Q ->
      isActive (st w') = false
      /\ countdownTimerId (st w') = None
      /\ forall tm, In tm (timers (host w')) -> cb tm = CbCountdown ->
           countdownTimerId (st w) <> Some (tid tm))
  /\ (~ (remaining <= 0)%Q ->
      host w' = host w
      /\ isActive (st w') = isActive (st w)
      /\ countdownStart (st w') = Some cs
      /\ countdownTimerId (st w') = countdownTimerId (st w)).
Proof.
  intros Hcs t T remaining w' obs.
  assert (Hrem : remaining_of w = remaining).
  { unfold remaining_of, elapsed_of. rewrite Hcs. reflexivity. }
  assert (Hprog : progress_of w = (remaining / T)%Q).
  { unfold progress_of. rewrite Hrem. reflexivity. }
  split.
  { subst obs. destruct (countdownSample_tick w) as (beat & rest & H).
    exists beat, rest. rewrite H, Hprog, Hrem. reflexivity. }
  split.
  { subst obs. rewrite <- Hrem. apply countdownSample_destroys. }
  split.
  { subst remaining. rewrite Math_max0_le0. apply past_deadline. }
  split.
  - intros Hle. rewrite <- Hrem in Hle.
    destruct (countdownSample_dead w Hle) as (Ha & _ & _ & Hc & _ & _ & Hin).
    subst w'. repeat split; try assumption.
    intros tm Htm Hcb. destruct (Hin tm Htm) as [Hu|Hu].
    + congruence.
    + tauto.
  - intros Hgt. rewrite <- Hrem in Hgt.
    destruct (countdownSample_alive w Hgt) as (Hh & _ & Ha & _ & Hs & _ & Hc & _).
    subst w'. rewrite Hh, Ha, Hs, Hc, Hcs. repeat split.
Qed.

(** The sample of the example phase taken exactly at its deadline. *)
Lemma C1_deadline_witness :
  countdownStart (st (at_clock 1006000 decaying)) = Some 1001000
  /\ exists txt n,
       In (TextDestroyed txt n) (snd (countdownSample (at_clock 1006000 decaying))).
Proof.
  split; [reflexivity|].
  apply (proj1 (proj2 (C1_deadline_is_recomputed_from_the_clock
                         (at_clock 1006000 decaying) 1001000 eq_refl))).
  vm_compute. discriminate.
Defined.

(** ** The timeout setting *)

Lemma handleTimeoutChange_accepts (value : jsstring) (n : Z) (w : World) :
  parseInt value = Some n -> 1 <= n <= 30 ->
  timeoutSeconds (st (handleTimeoutChange value w)) = inject_Z n
  /\ settings (store (handleTimeoutChange value w))
     = Some (mkSettings (Some (inject_Z n)) (body_lightMode (el w)))
  /\ host (handleTimeoutChange value w) = host w
  /\ countdownStart (st (handleTimeoutChange value w)) = countdownStart (st w)
  /\ lastBeatTime (st (handleTimeoutChange value w)) = lastBeatTime (st w)
  /\ heartbeatCount (st (handleTimeoutChange value w)) = heartbeatCount (st w).
Proof.
  intros Hp Hn. unfold handleTimeoutChange. rewrite Hp.
  replace ((1 <=? n) && (n <=? 30)) with true by (symmetry; apply andb_true_iff; lia).
  repeat split.
Qed.

Lemma handleTimeoutChange_rejects (value : jsstring) (w : World) :
  match parseInt value with
  | Some n => n < 1 \/ 30 < n
  | None => True
  end ->
  handleTimeoutChange value w = w.
Proof.
  unfold handleTimeoutChange. destruct (parseInt value) as [n|]; [|reflexivity].
  intros Hn. replace ((1 <=? n) && (n <=? 30)) with false; [reflexivity|].
  symmetry. apply andb_false_iff. lia.
Qed.

(** C7.  The change handler of the setting rejects a value outside 1..30 and
    keeps the previous one, but [loadSettings] applies whatever number the
    settings store holds: a stored 100 or -3 becomes [timeoutSeconds] at
    start-up, and with -3 the first sample after the grace period destroys
    the text. *)
Theorem C7_loadSettings_applies_out_of_range_timeout :
  timeoutSeconds (st (boot page_served (stored_timeout 100) 1000000)) = 100%Q
  /\ timeoutSeconds (st (boot page_served (stored_timeout (-3)) 1000000)) = (-3)%Q
  /\ timeoutSeconds (st (handleTimeoutChange (units "100") fresh)) = 5%Q
  /\ timeoutSeconds (st (handleTimeoutChange (units "-3") fresh)) = 5%Q
  /\ seen (to_decaying ++ [(1001100, TimerFired 3%positive)])
          (boot page_served (stored_timeout (-3)) 1000000)
     = [(1001100, DecayTick (0 # 3) 0 false); (1001100, TextDestroyed [] 0)].
Proof. repeat split. Qed.

(** The change handler alone does what the configuration boundary asks:
    out of range or not a number, nothing changes; in range, the value is
    taken and stored. *)
Lemma handleTimeoutChange_boundary (value : jsstring) (w : World) :
  match parseInt value with
  | Some n =>
      if (1 <=? n) && (n <=? 30)
      then timeoutSeconds (st (handleTimeoutChange value w)) = inject_Z n
      else handleTimeoutChange value w = w
  | None => handleTimeoutChange value w = w
  end.
Proof.
  destruct (parseInt value) as [n|] eqn:Hp.
  - destruct ((1 <=? n) && (n <=? 30)) eqn:Hr.
    + apply andb_true_iff in Hr. apply handleTimeoutChange_accepts; [exact Hp | lia].
    + apply handleTimeoutChange_rejects. rewrite Hp.
      apply andb_false_iff in Hr. lia.
  - apply handleTimeoutChange_rejects. rewrite Hp. exact I.
Qed.

(** C5, as the claim states it, fails: the phase is entered with a timeout
    of 5 at clock 1001000 and the setting is changed to 1 at 1001050.  The
    first sample, at 1001100, shows a remaining time of 0.9 and not the 4.9
    seconds the value at entry gives; with every sample on time the text is
    destroyed at 1002000, four seconds before 1001000 + 5000. *)
Lemma C5_retroactive_rescale_counterexample :
  timeoutSeconds (st decaying) = 5%Q
  /\ countdownStart (st decaying) = Some 1001000
  /\ seen (change_in_decay "1" ++ [(1001100, TimerFired 3%positive)]) fresh
     = [(1001100, DecayTick (900 # 1000) (900 # 1000) false)]
  /\ ~ (900 # 1000 == Math_max0 (5 - ((1001100 - 1001000) # 1000)))%Q
  /\ punctual 1000000 fresh
       (change_in_decay "1" ++ sampling 10 3%positive 1001100) = true
  /\ filter is_destroyed
       (seen (change_in_decay "1" ++ sampling 10 3%positive 1001100) fresh)
     = [(1002000, TextDestroyed [] 0)].
Proof.
  split; [reflexivity|]. split; [reflexivity|]. split; [vm_compute; reflexivity|].
  split; [vm_compute; discriminate|].
  split; vm_compute; reflexivity.
Qed.

(** C5, amended.  A change of the setting accepted during a phase keeps the
    start of the phase and is used by the very next sample: at clock [t] it
    shows [max(0, n - (t - cs)/1000)] for the new value [n], and destroys the
    text exactly when the clock has reached [cs + n]. *)
Theorem C5_timeout_change_applies_to_the_running_decay
    (w : World) (cs : Z) (value : jsstring) (n t : Z) :
  countdownStart (st w) = Some cs ->
  parseInt value = Some n -> 1 <= n <= 30 ->
  let w1 := at_clock t (handleTimeoutChange value w) in
  let remaining := Math_max0 (inject_Z n - ((t - cs) # 1000)) in
  countdownStart (st w1) = Some cs
  /\ timers (host w1) = timers (host w)
  /\ (exists beat rest,
        snd (countdownSample w1)
        = DecayTick (remaining / inject_Z n) remaining beat :: rest)
  /\ ((exists txt k, In (TextDestroyed txt k) (snd (countdownSample w1)))
      <-> cs + 1000 * n <= t).
Proof.
  intros Hcs Hp Hn w1 remaining.
  destruct (handleTimeoutChange_accepts value n w Hp Hn)
    as (HT & _ & Hh & Hs & _ & _).
  assert (Hcs1 : countdownStart (st w1) = Some cs)
    by (subst w1; simpl; rewrite Hs; exact Hcs).
  assert (HT1 : timeoutSeconds (st w1) = inject_Z n) by (subst w1; exact HT).
  assert (Hnow : now (host w1) = t) by reflexivity.
  split; [exact Hcs1|].
  split; [subst w1; simpl; rewrite Hh; reflexivity|].
  split.
  { destruct (countdownSample_tick w1) as (beat & rest & E).
    exists beat, rest. rewrite E. unfold progress_of.
    rewrite (remaining_started w1 cs Hcs1), HT1, Hnow. reflexivity. }
  rewrite (destroys_iff_deadline w1 cs Hcs1), HT1, Hnow.
  change (1000 * inject_Z n)%Q with (inject_Z 1000 * inject_Z n)%Q.
  rewrite <- (inject_Z_mult 1000 n), <- inject_Z_plus, <- Zle_Qle. reflexivity.
Qed.

(** The example phase, the setting changed to 2, sampled two seconds in. *)
Lemma C5_timeout_change_witness :
  countdownStart (st decaying) = Some 1001000
  /\ parseInt (units "2") = Some 2
  /\ 1 <= 2 <= 30
  /\ exists txt k,
       In (TextDestroyed txt k)
          (snd (countdownSample
                  (at_clock 1003000 (handleTimeoutChange (units "2") decaying)))).
Proof.
  split; [reflexivity|]. split; [reflexivity|]. split; [lia|].
  apply (C5_timeout_change_applies_to_the_running_decay
           decaying 1001000 (units "2") 2 1003000 eq_refl eq_refl).
  - lia.
  - lia.
Defined.

(** ** Progress and decay intensity *)







Lemma handleInput_resets_display (w : World) :
  progressBar_width (el (handleInput w)) = 100%Q
  /\ textArea_filter (el (handleInput w)) = FilterNone
  /\ progressContainer_active (el (handleInput w)) = false
  /\ wrapper_countdown (el (handleInput w)) = false
  /\ wrapper_heartbeat (el (handleInput w)) = false
  /\ countdownActive (st (handleInput w)) = false
  /\ countdownTimerId (st (handleInput w)) = None.
Proof. repeat split. Qed.




(** ** Reset *)

Lemma resetSession_idempotent (w : World) :
  resetSession (resetSession w) = resetSession w.
Proof. destruct w as [s e h sto]. reflexivity. Qed.

Lemma in_resetSession (w : World) (tm : Timer) :
  In tm (timers (host (resetSession w)))
  <-> In tm (timers (host w))
      /\ graceTimerId (st w) <> Some (tid tm)
      /\ countdownTimerId (st w) <> Some (tid tm)
      /\ elapsedTimerId (st w) <> Some (tid tm).
Proof.
  unfold resetSession, stopCountdown. cbv zeta. simpl.
  apply in_clearAllTimers.
Qed.

(** ** The timer table stays well formed *)

Lemma cancel_keeps_tids_distinct (id : positive) (l : list Timer) :
  NoDup (map tid l) -> NoDup (map tid (filter (keeps id) l)).
Proof.
  intros Hnd. induction l as [|tm l IH]; [exact Hnd|].
  simpl in *. apply NoDup_cons_iff in Hnd. destruct Hnd as [Hfresh Hrest].
  destruct (keeps id tm); [|exact (IH Hrest)].
  simpl. apply NoDup_cons; [|exact (IH Hrest)].
  intros Hin. apply Hfresh. apply in_map_iff in Hin.
  destruct Hin as (x & Ex & Hx). apply in_map_iff. exists x.
  split; [exact Ex|]. apply filter_In in Hx. apply Hx.
Qed.

Lemma host_ok_cancel (id : positive) (h : Host) : host_ok h -> host_ok (cancel id h).
Proof.
  intros [Hnd Hlt]. split.
  - apply cancel_keeps_tids_distinct, Hnd.
  - intros tm Htm. apply in_cancel in Htm. apply Hlt. tauto.
Qed.

Lemma host_ok_clearTimer (id : option positive) (h : Host) :
  host_ok h -> host_ok (clearTimer id h).
Proof. destruct id; [apply host_ok_cancel | auto]. Qed.

Lemma host_ok_schedule (d : Z) (r : bool) (c : Callback) (h : Host) :
  host_ok h -> host_ok (snd (schedule d r c h)).
Proof.
  intros [Hnd Hlt]. split; simpl.
  - constructor; [|exact Hnd]. rewrite in_map_iff. intros (tm & Ht & Hin).
    apply Hlt in Hin. rewrite Ht in Hin. exact (Pos.lt_irrefl _ Hin).
  - intros tm [Htm|Htm].
    + subst tm. simpl. apply Pos.lt_succ_diag_r.
    + apply Pos.lt_lt_succ, Hlt, Htm.
Qed.

Lemma rearm_interval_tids (tm : Timer) (p : Z) (h : Host) :
  period tm = Some p -> map tid (timers (rearm tm h)) = map tid (timers h).
Proof.
  intros Hp. unfold rearm. rewrite Hp. simpl. rewrite map_map.
  apply map_ext. intros x. destruct (Pos.eqb _ _); reflexivity.
Qed.

Lemma in_rearm_interval (tm : Timer) (p : Z) (h : Host) (x' : Timer) :
  period tm = Some p ->
  In x' (timers (rearm tm h)) ->
  exists x, In x (timers h) /\ tid x' = tid x /\ cb x' = cb x
            /\ period x' = period x
            /\ (tid x <> tid tm -> x' = x)
            /\ (tid x = tid tm -> due x' = now h + p).
Proof.
  intros Hp. unfold rearm. rewrite Hp. simpl. rewrite in_map_iff.
  intros (x & Hx & Hin). exists x. split; [exact Hin|].
  destruct (Pos.eqb_spec (tid x) (tid tm)); subst x'; simpl;
    repeat split; auto; contradiction.
Qed.

Lemma rearm_interval_keeps (tm : Timer) (p : Z) (h : Host) (x : Timer) :
  period tm = Some p ->
  In x (timers h) ->
  exists x', In x' (timers (rearm tm h)) /\ tid x' = tid x /\ cb x' = cb x.
Proof.
  intros Hp Hin. unfold rearm. rewrite Hp. simpl.
  eexists. split; [apply in_map_iff; exists x; split; [reflexivity | exact Hin]|].
  destruct (Pos.eqb _ _); split; reflexivity.
Qed.

Lemma now_rearm (tm : Timer) (h : Host) : now (rearm tm h) = now h.
Proof. unfold rearm. destruct (period tm); reflexivity. Qed.

Lemma host_ok_rearm (tm : Timer) (h : Host) : host_ok h -> host_ok (rearm tm h).
Proof.
  intros Hok. destruct (period tm) as [p|] eqn:Hp.
  - destruct Hok as [Hnd Hlt]. split.
    + rewrite (rearm_interval_tids tm p h Hp). exact Hnd.
    + intros x' Hx'. destruct (in_rearm_interval tm p h x' Hp Hx')
        as (x & Hin & Ht & _).
      rewrite Ht. replace (nextId (rearm tm h)) with (nextId h)
        by (unfold rearm; rewrite Hp; reflexivity).
      apply Hlt, Hin.
  - unfold rearm. rewrite Hp. apply host_ok_cancel, Hok.
Qed.

Lemma lookup_timer_some (id : positive) (h : Host) (tm : Timer) :
  lookup_timer id h = Some tm -> In tm (timers h) /\ tid tm = id.
Proof.
  unfold lookup_timer. intros H. apply find_some in H.
  destruct H as [Hin Heq]. apply Pos.eqb_eq in Heq. auto.
Qed.

Lemma tid_inj (h : Host) (x y : Timer) :
  host_ok h -> In x (timers h) -> In y (timers h) -> tid x = tid y -> x = y.
Proof.
  intros [Hnd _]. induction (timers h) as [|a l IH]; simpl; [tauto|].
  inversion Hnd as [|z zs Hnin Hnd']; subst.
  intros [Hx|Hx] [Hy|Hy] Ht; subst; auto.
  - exfalso. apply Hnin. rewrite Ht. apply in_map, Hy.
  - exfalso. apply Hnin. rewrite <- Ht. apply in_map, Hx.
Qed.

(** ** The invariant is kept *)

Lemma inv_set_clock (la t : Z) (w : World) :
  Inv la w -> now (host w) <= t -> Inv la (with_host (set_clock t) w).
Proof.
  intros [Hh Hg Hc He Hp Hi Hpg Hcalm Hl] Ht. constructor; try assumption.
  intros tm Htm Hcb. destruct (Hc tm Htm Hcb) as (A & B & C & cs & D & E & F).
  repeat (split; [assumption|]). exists cs. simpl. repeat split; try assumption. lia.
Qed.

Lemma idle_page_spec (e : Elements) :
  idle_page e = true ->
  textArea_disabled e = true /\ startButton_shown e = true
  /\ resetButton_disabled e = true /\ saveButton_disabled e = true
  /\ textArea_filter e = FilterNone
  /\ progressContainer_active e = false
  /\ wrapper_countdown e = false /\ wrapper_heartbeat e = false.
Proof.
  unfold idle_page. intros H.
  repeat (apply andb_true_iff in H; destruct H as [H ?]).
  destruct (textArea_filter e); [|discriminate].
  repeat match goal with X : negb _ = true |- _ => apply negb_true_iff in X end.
  repeat split; assumption.
Qed.

Lemma boot_no_timers (page : Elements) (stored : Storage) (t0 : Z) :
  timers (host (boot page stored t0)) = [].
Proof.
  unfold boot, loadSettings. simpl.
  destruct (settings stored) as [s|]; [destruct (s_lightMode s)|]; reflexivity.
Qed.

Lemma inv_boot (la : Z) (page : Elements) (stored : Storage) (t0 : Z) :
  idle_page page = true -> Inv la (boot page stored t0).
Proof.
  intros Hpage.
  destruct (idle_page_spec page Hpage) as (P1 & P2 & P3 & P4 & P5 & P6 & P7 & P8).
  unfold boot, loadSettings. simpl.
  destruct (settings stored) as [s|]; [destruct (s_lightMode s)|];
    (constructor; simpl;
     [ split; [constructor | intros ? []]
     | intros ? [] | intros ? [] | intros ? [] | auto | auto | auto | auto
     | discriminate ]).
Qed.

Lemma inv_resetSession (la la' : Z) (w : World) :
  Inv la w -> Inv la' (resetSession w).
Proof.
  intros I. constructor.
  - unfold resetSession, stopCountdown, clearAllTimers. cbv zeta. simpl.
    repeat apply host_ok_clearTimer. apply I.
  - intros tm Htm Hcb. apply in_resetSession in Htm.
    destruct Htm as (Hin & Hg & _). destruct (inv_grace _ _ I tm Hin Hcb). tauto.
  - intros tm Htm Hcb. apply in_resetSession in Htm.
    destruct Htm as (Hin & _ & Hc & _).
    destruct (inv_countdown _ _ I tm Hin Hcb). tauto.
  - intros tm Htm Hcb. apply in_resetSession in Htm.
    destruct Htm as (Hin & _ & _ & He).
    pose proof (inv_elapsed _ _ I tm Hin Hcb). tauto.
  - reflexivity.
  - repeat split.
  - repeat split.
  - repeat split.
  - discriminate.
Qed.

Lemma host_ok_cons (tm : Timer) (h : Host) :
  host_ok h -> tid tm = nextId h ->
  host_ok (mkHost (now h) (Pos.succ (nextId h)) (tm :: timers h)).
Proof.
  intros [Hnd Hlt] Ht. split; simpl.
  - constructor; [|exact Hnd]. rewrite in_map_iff. intros (x & Hx & Hin).
    apply Hlt in Hin. rewrite Hx, Ht in Hin. exact (Pos.lt_irrefl _ Hin).
  - intros x [Hx|Hx].
    + subst x. rewrite Ht. apply Pos.lt_succ_diag_r.
    + apply Pos.lt_lt_succ, Hlt, Hx.
Qed.

Lemma no_timer_of (la : Z) (w : World) (tm : Timer) :
  Inv la w -> In tm (timers (host w)) ->
  (cb tm = CbGrace -> graceTimerId (st w) <> None)
  /\ (cb tm = CbCountdown -> countdownTimerId (st w) <> None)
  /\ (cb tm = CbElapsed -> elapsedTimerId (st w) <> None).
Proof.
  intros I Hin. repeat split; intros Hcb.
  - destruct (inv_grace _ _ I tm Hin Hcb) as [H _]. congruence.
  - destruct (inv_countdown _ _ I tm Hin Hcb) as [H _]. congruence.
  - pose proof (inv_elapsed _ _ I tm Hin Hcb). congruence.
Qed.

Lemma inv_startSession (la : Z) (i : option jsstring) (w : World) :
  Inv la w -> isActive (st w) = false ->
  Inv (now (host w)) (startSession i w).
Proof.
  intros I Hidle.
  destruct (inv_idle _ _ I Hidle) as (Hg & Hc & He).
  assert (Hnone : forall tm, In tm (timers (host w)) ->
                    cb tm <> CbGrace /\ cb tm <> CbCountdown /\ cb tm <> CbElapsed).
  { intros tm Hin. destruct (no_timer_of la w tm I Hin) as (A & B & C).
    repeat split; intros Hcb; [apply A | apply B | apply C]; assumption. }
  pose proof (inv_host _ _ I) as Hok.
  pose proof (inv_calm _ _ I (fun tm Hin => proj1 (proj2 (Hnone tm Hin)))) as Hcalm.
  destruct w as [s e h sto]. destruct s. simpl in *. subst.
  unfold startSession, startCountdown, startElapsedTimer, setTimeout, setInterval,
    schedule. simpl.
  constructor; simpl.
  - apply (host_ok_cons _ (mkHost (now h) (Pos.succ (nextId h)) (_ :: timers h)));
      [|reflexivity].
    apply host_ok_cons; [exact Hok | reflexivity].
  - intros tm [H|[H|H]] Hcb; subst; simpl in *; try discriminate.
    + repeat split.
    + destruct (Hnone tm H) as (A & _). contradiction.
  - intros tm [H|[H|H]] Hcb; subst; simpl in *; try discriminate.
    destruct (Hnone tm H) as (_ & A & _). contradiction.
  - intros tm [H|[H|H]] Hcb; subst; simpl in *; try discriminate.
    + reflexivity.
    + destruct (Hnone tm H) as (_ & _ & A). contradiction.
  - reflexivity.
  - discriminate.
  - repeat split.
  - intros _. exact Hcalm.
  - intros _. eexists. split; [left; reflexivity|]. left. reflexivity.
Qed.

Lemma inv_with_el (la : Z) (f : Elements -> Elements) (w : World) :
  Inv la w ->
  textArea_disabled (f (el w)) = textArea_disabled (el w) ->
  startButton_shown (f (el w)) = startButton_shown (el w) ->
  resetButton_disabled (f (el w)) = resetButton_disabled (el w) ->
  saveButton_disabled (f (el w)) = saveButton_disabled (el w) ->
  textArea_filter (f (el w)) = textArea_filter (el w) ->
  progressContainer_active (f (el w)) = progressContainer_active (el w) ->
  wrapper_countdown (f (el w)) = wrapper_countdown (el w) ->
  wrapper_heartbeat (f (el w)) = wrapper_heartbeat (el w) ->
  Inv la (with_el f w).
Proof.
  intros [Hh Hg Hc He Hp Hi Hpg Hcalm Hl] E1 E2 E3 E4 E5 E6 E7 E8.
  constructor; simpl; try assumption.
  - rewrite E1, E2, E3, E4. exact Hpg.
  - rewrite E5, E6, E7, E8. exact Hcalm.
Qed.

Lemma inv_with_store (la : Z) (f : Storage -> Storage) (w : World) :
  Inv la w -> Inv la (with_store f w).
Proof. intros [? ? ? ? ? ? ? ? ?]. constructor; assumption. Qed.

Lemma inv_handleInput (la : Z) (w : World) :
  Inv la w -> isActive (st w) = true ->
  Inv (now (host w)) (handleInput w).
Proof.
  intros I Hact.
  pose proof (inv_host _ _ I) as Hok.
  destruct I as [_ Hg Hc He Hp Hi Hpg Hcalm Hl].
  destruct w as [s e h sto]. destruct s. simpl in *. subst.
  unfold handleInput, stopCountdown, startCountdown, setTimeout, schedule.
  cbn -[clearTimer].
  constructor; cbn -[clearTimer].
  - apply host_ok_cons; [|reflexivity].
    repeat apply host_ok_clearTimer. exact Hok.
  - intros tm [H|H] Hcb.
    + subst tm. simpl. rewrite !now_clearTimer. repeat split.
    + rewrite !in_clearTimer in H. destruct H as (((Hin & Hng) & _) & _).
      destruct (Hg tm Hin Hcb) as [A _]. contradiction.
  - intros tm [H|H] Hcb.
    + subst tm. discriminate.
    + rewrite !in_clearTimer in H. destruct H as (((Hin & _) & Hnc) & _).
      destruct (Hc tm Hin Hcb) as [A _]. contradiction.
  - intros tm [H|H] Hcb.
    + subst tm. discriminate.
    + rewrite !in_clearTimer in H. destruct H as (((Hin & _) & _) & _).
      exact (He tm Hin Hcb).
  - reflexivity.
  - discriminate.
  - exact Hpg.
  - repeat split.
  - intros _. eexists. split; [left; reflexivity|]. left. reflexivity.
Qed.

Lemma inv_handleTextDeletion (la la' : Z) (w : World) :
  Inv la w -> Inv la' (fst (handleTextDeletion w)).
Proof.
  intros I.
  assert (Hshape :
    host_ok (host (fst (handleTextDeletion w)))
    /\ isActive (st (fst (handleTextDeletion w))) = false
    /\ countdownActive (st (fst (handleTextDeletion w))) = false
    /\ graceTimerId (st (fst (handleTextDeletion w))) = None
    /\ countdownTimerId (st (fst (handleTextDeletion w))) = None
    /\ elapsedTimerId (st (fst (handleTextDeletion w))) = None
    /\ el (fst (handleTextDeletion w))
       = ui_mark_deleted true (ui_session_over (timeoutSeconds (st w)) (el w))).
  { unfold handleTextDeletion. cbv zeta. unfold fst.
    destruct (_ && _); cbn -[clearTimer];
      (split; [apply host_ok_cons; [|reflexivity];
               repeat apply host_ok_clearTimer; apply I
              | repeat split]). }
  destruct Hshape as (Hok & Ha & Hca & Hg & Hc & He & Hel).
  pose proof (in_handleTextDeletion w) as Hin.
  constructor.
  - exact Hok.
  - intros tm Htm Hcb. destruct (Hin tm Htm) as [H|(H & Hng & _)]; [congruence|].
    destruct (inv_grace _ _ I tm H Hcb). tauto.
  - intros tm Htm Hcb. destruct (Hin tm Htm) as [H|(H & _ & Hnc & _)]; [congruence|].
    destruct (inv_countdown _ _ I tm H Hcb). tauto.
  - intros tm Htm Hcb. destruct (Hin tm Htm) as [H|(H & _ & _ & Hne)]; [congruence|].
    pose proof (inv_elapsed _ _ I tm H Hcb). tauto.
  - intros _. exact Hc.
  - intros _. auto.
  - rewrite Hel, Ha. repeat split.
  - intros _. rewrite Hel. repeat split.
  - rewrite Ha. discriminate.
Qed.

Lemma inv_rearm (la : Z) (tm : Timer) (w : World) :
  Inv la w -> In tm (timers (host w)) -> cb tm <> CbGrace ->
  Inv la (with_host (rearm tm) w).
Proof.
  intros I Htm Hng.
  pose proof (inv_host _ _ I) as Hok.
  assert (Huniq : forall x, In x (timers (host w)) -> tid x = tid tm -> x = tm)
    by (intros x Hx Ht; exact (tid_inj _ x tm Hok Hx Htm Ht)).
  destruct (period tm) as [p|] eqn:Hp.
  - (* an interval: armed again *)
    constructor; simpl; try apply I.
    + apply host_ok_rearm, Hok.
    + intros x' Hx' Hcb.
      destruct (in_rearm_interval tm p _ x' Hp Hx') as (x & Hx & Ht & Hc & Hpe & Hsame & _).
      rewrite Hc in Hcb.
      assert (Hne : tid x <> tid tm) by (intros E; apply Huniq in E; congruence).
      rewrite (Hsame Hne). exact (inv_grace _ _ I x Hx Hcb).
    + intros x' Hx' Hcb.
      destruct (in_rearm_interval tm p _ x' Hp Hx') as (x & Hx & Ht & Hc & Hpe & _).
      rewrite Hc in Hcb. rewrite Ht, Hpe, now_rearm.
      exact (inv_countdown _ _ I x Hx Hcb).
    + intros x' Hx' Hcb.
      destruct (in_rearm_interval tm p _ x' Hp Hx') as (x & Hx & Ht & Hc & _).
      rewrite Hc in Hcb. rewrite Ht. exact (inv_elapsed _ _ I x Hx Hcb).
    + intros Hno. apply (inv_calm _ _ I). intros x Hx Hcb.
      destruct (rearm_interval_keeps tm p _ x Hp Hx) as (x' & Hx' & _ & Hc).
      apply (Hno x' Hx'). congruence.
    + intros Ha. destruct (inv_live _ _ I Ha) as (x & Hx & Hcb).
      destruct (rearm_interval_keeps tm p _ x Hp Hx) as (x' & Hx' & _ & Hc).
      exists x'. split; [exact Hx'|]. rewrite Hc. exact Hcb.
  - (* a one-shot timer: removed *)
    assert (Hkeep : forall x, In x (timers (host w)) ->
                      cb x = CbGrace \/ cb x = CbCountdown ->
                      In x (timers (rearm tm (host w)))).
    { intros x Hx Hcb. unfold rearm. rewrite Hp. apply in_cancel.
      split; [exact Hx|]. intros E. apply Huniq in E; [|exact Hx]. subst x.
      destruct Hcb as [Hcb|Hcb]; [contradiction|].
      destruct (inv_countdown _ _ I tm Htm Hcb) as (_ & Hper & _). congruence. }
    assert (Hsub : forall x, In x (timers (rearm tm (host w))) -> In x (timers (host w))).
    { intros x. unfold rearm. rewrite Hp, in_cancel. tauto. }
    constructor; simpl; try apply I.
    + apply host_ok_rearm, Hok.
    + intros x Hx. apply (inv_grace _ _ I), Hsub, Hx.
    + intros x Hx. rewrite now_rearm. apply (inv_countdown _ _ I), Hsub, Hx.
    + intros x Hx. apply (inv_elapsed _ _ I), Hsub, Hx.
    + intros Hno. apply (inv_calm _ _ I). intros x Hx Hcb.
      apply (Hno x); [|exact Hcb]. apply Hkeep; auto.
    + intros Ha. destruct (inv_live _ _ I Ha) as (x & Hx & Hcb).
      exists x. split; [apply Hkeep; assumption | exact Hcb].
Qed.

Lemma inv_graceElapsed (la : Z) (tm : Timer) (w : World) :
  Inv la w -> In tm (timers (host w)) -> cb tm = CbGrace ->
  due tm <= now (host w) ->
  Inv la (graceElapsed (with_host (rearm tm) w)).
Proof.
  intros I Htm Hcb Hdue.
  pose proof (inv_host _ _ I) as Hok.
  destruct (inv_grace _ _ I tm Htm Hcb) as (Hgid & Hd & Hper).
  assert (Hcnone : countdownTimerId (st w) = None)
    by (apply (inv_phase _ _ I); congruence).
  assert (Hactive : isActive (st w) = true).
  { destruct (isActive (st w)) eqn:Ha; [reflexivity|].
    destruct (inv_idle _ _ I Ha) as (Hg0 & _). congruence. }
  unfold rearm. rewrite Hper.
  destruct I as [_ Hg Hc He Hp Hi Hpg Hcalm Hl].
  destruct w as [s e h sto]. destruct s. simpl in *. subst.
  unfold graceElapsed, beginActiveCountdown, setInterval, schedule,
    triggerHeartbeat. cbn -[cancel].
  constructor; cbn -[cancel].
  - apply (host_ok_cons _ (cancel (tid tm) h)); [|reflexivity].
    apply host_ok_cancel, Hok.
  - intros x [H|H] Hx; [subst x; discriminate|].
    apply in_cancel in H. destruct H as [Hin Hne].
    destruct (Hg x Hin Hx) as (A & _). congruence.
  - intros x [H|H] Hx.
    + subst x. simpl. repeat split. exists (now h). split; [reflexivity | lia].
    + apply in_cancel in H. destruct H as [Hin Hne].
      destruct (Hc x Hin Hx) as (A & _). discriminate.
  - intros x [H|H] Hx; [subst x; discriminate|].
    apply in_cancel in H. destruct H as [Hin Hne]. exact (He x Hin Hx).
  - intros H. contradiction.
  - discriminate.
  - exact Hpg.
  - intros Hno. exfalso. eapply Hno; [left; reflexivity | reflexivity].
  - intros _. eexists. split; [left; reflexivity|]. right. reflexivity.
Qed.

Lemma countdownSample_sampled (w : World) :
  countdownSample w
  = if Qle_bool (remaining_of w) 0
    then (fst (handleTextDeletion (sampled w)),
          DecayTick (progress_of w) (remaining_of w)
                    (heartbeatCount (st w) <? Qfloor (elapsed_of w))
          :: snd (handleTextDeletion (sampled w)))
    else (sampled w,
          [DecayTick (progress_of w) (remaining_of w)
                     (heartbeatCount (st w) <? Qfloor (elapsed_of w))]).
Proof.
  unfold countdownSample, sampled. cbv zeta.
  destruct (Qle_bool (remaining_of w) 0); [|reflexivity].
  destruct (handleTextDeletion _); reflexivity.
Qed.

Lemma inv_sampled (la : Z) (w : World) :
  Inv la w ->
  (exists tm, In tm (timers (host w)) /\ cb tm = CbCountdown) ->
  Inv la (sampled w).
Proof.
  intros I (tm & Htm & Hcb). unfold sampled. cbv zeta.
  destruct I as [Hh Hg Hc He Hp Hi Hpg Hcalm Hl].
  destruct (_ <? _); (constructor; simpl; try assumption;
    intros Hno; exfalso; exact (Hno tm Htm Hcb)).
Qed.

Lemma inv_saveDraft (la : Z) (w : World) : Inv la w -> Inv la (saveDraft w).
Proof.
  intros I. pose proof (inv_host _ _ I) as Hok.
  unfold saveDraft, saveToHistory, setTimeout, schedule. cbv zeta.
  destruct I as [_ Hg Hc He Hp Hi Hpg Hcalm Hl].
  destruct (_ && _); (constructor; simpl; try assumption;
    [ apply host_ok_cons; [exact Hok | reflexivity]
    | intros x [H|H] Hx; [subst x; discriminate | exact (Hg x H Hx)]
    | intros x [H|H] Hx; [subst x; discriminate | exact (Hc x H Hx)]
    | intros x [H|H] Hx; [subst x; discriminate | exact (He x H Hx)]
    | intros Hno; apply Hcalm; intros x Hx; apply Hno; right; exact Hx
    | intros Ha; destruct (Hl Ha) as (x & Hx & Hcb); exists x; split;
      [right; exact Hx | exact Hcb] ]).
Qed.

Lemma inv_handleTimeoutChange (la : Z) (v : jsstring) (w : World) :
  Inv la w -> Inv la (handleTimeoutChange v w).
Proof.
  intros I. unfold handleTimeoutChange.
  destruct (parseInt v) as [n|]; [|exact I].
  destruct (_ && _); [|exact I].
  destruct I as [? ? ? ? ? ? ? ? ?]. constructor; assumption.
Qed.

Lemma inv_handleDarkModeToggle (la : Z) (w : World) :
  Inv la w -> Inv la (handleDarkModeToggle w).
Proof. intros [? ? ? ? ? ? ? ? ?]. constructor; assumption. Qed.

Lemma inv_fire (la : Z) (tm : Timer) (w : World) :
  Inv la w -> In tm (timers (host w)) -> due tm <= now (host w) ->
  Inv la (fst (fire (cb tm) (with_host (rearm tm) w))).
Proof.
  intros I Htm Hdue. destruct (cb tm) eqn:Hcb; simpl.
  - apply inv_graceElapsed; assumption.
  - assert (I1 : Inv la (with_host (rearm tm) w))
      by (apply inv_rearm; [assumption | assumption | congruence]).
    assert (Hper : period tm = Some 100)
      by (destruct (inv_countdown _ _ I tm Htm Hcb) as (_ & H & _); exact H).
    assert (I2 : Inv la (sampled (with_host (rearm tm) w))).
    { apply inv_sampled; [exact I1|].
      destruct (rearm_interval_keeps tm 100 (host w) tm Hper Htm) as (x & Hx & _ & Hc).
      exists x. split; [exact Hx | congruence]. }
    rewrite countdownSample_sampled.
    destruct (Qle_bool _ 0); simpl; [|exact I2].
    apply (inv_handleTextDeletion la la), I2.
  - unfold elapsedTick.
    assert (I1 : Inv la (with_host (rearm tm) w))
      by (apply inv_rearm; [assumption | assumption | congruence]).
    destruct (_ && _); [|exact I1].
    apply inv_with_el; [exact I1 | reflexivity..].
  - apply inv_with_el; [|reflexivity..].
    apply inv_rearm; [assumption | assumption | congruence].
  - apply inv_with_el; [|reflexivity..].
    apply inv_rearm; [assumption | assumption | congruence].
Qed.

Lemma now_resetSession (w : World) :
  now (host (resetSession w)) = now (host w).
Proof.
  unfold resetSession, stopCountdown, clearAllTimers. cbv zeta. cbn -[clearTimer].
  rewrite !now_clearTimer. reflexivity.
Qed.

Lemma restarts_set_clock (t : Z) (e : Event) (w : World) :
  restarts e (with_host (set_clock t) w) = restarts e w.
Proof. destruct e; reflexivity. Qed.

(** The invariant along one event: a restarting event moves the time of the
    latest activity to the clock. *)
Lemma inv_handle (la : Z) (e : Event) (w : World) :
  Inv la w -> allowed e w = true -> enabled e w = true ->
  Inv (if restarts e w then now (host w) else la) (fst (handle e w)).
Proof.
  intros I Hal Hen. destruct (inv_page _ _ I) as (Hta & Hsb & Hrb & Hsv).
  destruct e; simpl in *.
  - apply inv_startSession with (la := la); [exact I|].
    rewrite Hen in Hsb. destruct (isActive (st w)); [discriminate | reflexivity].
  - apply (inv_handleInput la (with_el (ui_value newText) w)).
    + apply inv_with_el; [exact I | reflexivity..].
    + simpl. rewrite Hta in Hen. destruct (isActive (st w)); [reflexivity | discriminate].
  - apply (inv_resetSession la la), I.
  - destruct (isActive (st w)); [apply (inv_resetSession la la), I | exact I].
  - apply inv_saveDraft, I.
  - unfold loadDraft. destruct (draft (store w)) as [d|]; [|exact I].
    destruct (d_text d) eqn:Hd; [exact I|].
    apply inv_startSession with (la := la); [exact I|].
    destruct (isActive (st w)); [discriminate | reflexivity].
  - unfold continueFromHistory. destruct (find _ _) as [entry|]; [|exact I].
    destruct (isActive (st w)) eqn:Ha.
    + rewrite <- (now_resetSession w).
      apply (inv_startSession la _ (resetSession w));
        [apply (inv_resetSession la la), I | reflexivity].
    + apply inv_startSession with (la := la); assumption.
  - apply inv_with_store, I.
  - apply inv_with_store, I.
  - apply inv_handleTimeoutChange, I.
  - apply inv_handleDarkModeToggle, I.
  - destruct (lookup_timer id (host w)) as [tm|] eqn:Hl; [|discriminate].
    apply lookup_timer_some in Hl. destruct Hl as [Hin _].
    apply inv_fire; [exact I | exact Hin | apply Z.leb_le, Hen].
Qed.

Lemma step_inv (la t : Z) (e : Event) (w w' : World) (o : list Obs) :
  Inv la w -> allowed e w = true -> step t e w = Some (w', o) ->
  Inv (if restarts e w then t else la) w'.
Proof.
  intros I Hal Hs. unfold step in Hs.
  destruct (t <? now (host w)) eqn:Hlt; [discriminate|].
  destruct (enabled e (with_host (set_clock t) w)) eqn:Hen; [|discriminate].
  inversion Hs as [Hh]. clear Hs.
  assert (Hnow : now (host w) <= t) by (apply Z.ltb_ge; assumption).
  pose proof (inv_handle la e (with_host (set_clock t) w)
                (inv_set_clock la t w I Hnow)) as H.
  rewrite restarts_set_clock in H. rewrite Hh in H. simpl in H.
  apply H; [|exact Hen]. destruct e; exact Hal.
Qed.

Lemma run_inv (tr : list (Z * Event)) :
  forall la w w' obs,
    Inv la w -> starts_when_idle la w tr = true ->
    run tr w = Some (w', obs) ->
    Inv (last_activity la w tr) w'.
Proof.
  induction tr as [|[t e] tr IH]; intros la w w' obs I Hal Hrun; simpl in *.
  - inversion Hrun; subst. exact I.
  - unfold starts_when_idle in Hal. simpl in Hal.
    apply andb_true_iff in Hal. destruct Hal as [Hal1 Hal2].
    destruct (step t e w) as [[w1 o]|] eqn:Hs; [|discriminate].
    destruct (run tr w1) as [[w2 o2]|] eqn:Hr; [|discriminate].
    inversion Hrun; subst.
    eapply IH; [eapply step_inv; eassumption | exact Hal2 | exact Hr].
Qed.

(** ** One chain of callbacks *)

Lemma filter_same_tid_short (l : list Timer) (p : Timer -> bool) (k : positive) :
  NoDup (map tid l) ->
  (forall x, In x l -> p x = true -> tid x = k) ->
  (List.length (filter p l) <= 1)%nat.
Proof.
  induction l as [|a l IH]; simpl; intros Hnd Hk; [lia|].
  inversion Hnd as [|z zs Hnin Hnd']; subst.
  destruct (p a) eqn:Hpa.
  - assert (Hempty : filter p l = []).
    { destruct (filter p l) as [|b r] eqn:Hf; [reflexivity|]. exfalso.
      assert (Hb : In b (filter p l)) by (rewrite Hf; left; reflexivity).
      apply filter_In in Hb. destruct Hb as [Hbl Hpb].
      apply Hnin. rewrite (Hk a (or_introl eq_refl) Hpa).
      rewrite <- (Hk b (or_intror Hbl) Hpb). apply in_map, Hbl. }
    rewrite Hempty. simpl. lia.
  - apply IH; [exact Hnd'|]. intros x Hx. apply Hk. right. exact Hx.
Qed.

Lemma chains_short (w : World) (c : Callback) (id : option positive) :
  host_ok (host w) ->
  (forall tm, In tm (timers (host w)) -> cb tm = c -> id = Some (tid tm)) ->
  (chains c w <= 1)%nat.
Proof.
  intros [Hnd _] Hid. unfold chains.
  destruct id as [k|].
  - apply (filter_same_tid_short _ _ k Hnd). intros x Hx Hp.
    assert (Hc : cb x = c) by (destruct (cb x), c; simpl in Hp; congruence).
    specialize (Hid x Hx Hc). congruence.
  - replace (filter _ _) with (@nil Timer); [simpl; lia|].
    symmetry.
    destruct (filter (fun tm => cb_eqb (cb tm) c) (timers (host w))) as [|b r] eqn:Hf;
      [reflexivity|]. exfalso.
    assert (Hb : In b (filter (fun tm => cb_eqb (cb tm) c) (timers (host w))))
      by (rewrite Hf; left; reflexivity).
    apply filter_In in Hb. destruct Hb as [Hbl Hpb].
    assert (Hc : cb b = c) by (destruct (cb b), c; simpl in Hpb; congruence).
    specialize (Hid b Hbl Hc). discriminate.
Qed.

Lemma inv_one_chain (la : Z) (w : World) : Inv la w -> one_chain w.
Proof.
  intros I. pose proof (inv_host _ _ I) as Hok. repeat split.
  - apply (chains_short w CbGrace (graceTimerId (st w)) Hok).
    intros tm Htm Hcb. apply (inv_grace _ _ I tm Htm Hcb).
  - apply (chains_short w CbCountdown (countdownTimerId (st w)) Hok).
    intros tm Htm Hcb. apply (inv_countdown _ _ I tm Htm Hcb).
  - apply (chains_short w CbElapsed (elapsedTimerId (st w)) Hok).
    intros tm Htm Hcb. apply (inv_elapsed _ _ I tm Htm Hcb).
Qed.

(** As long as a session is never started over an active one, at most one
    grace timeout, one sampling interval and one elapsed-time interval are
    pending, and never a grace timeout together with a sampling interval. *)
Lemma disciplined_runs_keep_one_chain
    (page : Elements) (stored : Storage) (t0 : Z) (tr : list (Z * Event))
    (w : World) (obs : list (Z * Obs)) :
  idle_page page = true ->
  starts_when_idle t0 (boot page stored t0) tr = true ->
  run tr (boot page stored t0) = Some (w, obs) ->
  one_chain w /\ (chains CbGrace w + chains CbCountdown w <= 1)%nat.
Proof.
  intros Hpage Hal Hrun.
  pose proof (run_inv tr t0 _ _ _ (inv_boot t0 page stored t0 Hpage) Hal Hrun) as I.
  split; [exact (inv_one_chain _ _ I)|].
  destruct (inv_one_chain _ _ I) as (Hg & Hc & _).
  destruct (chains CbGrace w) as [|[|g]] eqn:Eg; [lia| |lia].
  destruct (chains CbCountdown w) as [|[|c]] eqn:Ec; [lia| |lia].
  exfalso. unfold chains in Eg, Ec.
  destruct (filter _ _) as [|a r] eqn:Fa in Eg; [discriminate|].
  destruct (filter _ _) as [|b r'] eqn:Fb in Ec; [discriminate|].
  assert (Ha : In a (filter (fun tm => cb_eqb (cb tm) CbGrace) (timers (host w))))
    by (rewrite Fa; left; reflexivity).
  assert (Hb : In b (filter (fun tm => cb_eqb (cb tm) CbCountdown) (timers (host w))))
    by (rewrite Fb; left; reflexivity).
  apply filter_In in Ha. apply filter_In in Hb.
  destruct Ha as [Ha Hca]. destruct Hb as [Hb Hcb].
  assert (Hca' : cb a = CbGrace) by (destruct (cb a); simpl in Hca; congruence).
  assert (Hcb' : cb b = CbCountdown) by (destruct (cb b); simpl in Hcb; congruence).
  destruct (inv_grace _ _ I a Ha Hca') as (Hgid & _).
  destruct (inv_countdown _ _ I b Hb Hcb') as (Hcid & _).
  rewrite (inv_phase _ _ I) in Hcid; congruence.
Qed.

(** C6.  The load button calls [startSession] without a reset, unlike
    [continueFromHistory].  Loading a stored draft half a second into a
    session leaves two elapsed-time intervals pending.  Loading it 50 ms into
    the decay leaves, once the new grace timeout has elapsed, two sampling
    intervals pending, of which [stopCountdown] cancels only the newer: after
    the next keystroke the older one finds [countdownStart] null and destroys
    the text, though every timer fired on time. *)
Theorem C6_load_during_session_leaves_two_chains :
  let w0 := boot page_served stored_draft 1000000 in
  chains CbElapsed
    (after [(1000000, UserRequestedStart); (1000500, LoadClicked)] w0) = 2%nat
  /\ punctual 1000000 w0 load_then_type = true
  /\ chains CbCountdown (after load_in_decay w0) = 2%nat
  /\ chains CbElapsed (after load_in_decay w0) = 2%nat
  /\ countdownStart (st (after load_then_type w0)) = None
  /\ filter is_destroyed (seen load_then_type w0)
     = [(1002200, TextDestroyed (units "x") 1)]
  /\ chains CbCountdown (after load_then_type w0) = 1%nat
  /\ countdownTimerId (st (after load_then_type w0)) = None.
Proof. vm_compute. repeat split. Qed.

(** C9.  After the load button has been pressed over an active session
    (C6), [resetSession] does not cancel every pending callback.  The
    sampling interval with handle 3 and the elapsed-time interval with
    handle 1, whose handles [beginActiveCountdown] and [startElapsedTimer]
    have overwritten, stay in the timer table, while the module holds no
    handle and the page looks idle; a second reset changes nothing.  The
    sampling interval left behind fires on: its next firing reports a
    destruction on the idle page, and in the session started after the reset
    it destroys three typed words 40 ms after the keystroke, every timer
    having fired on time. *)
Theorem C9_reset_leaves_orphaned_timers :
  let w0 := boot page_served stored_draft 1000000 in
  let w := after reset_after_load w0 in
  w = resetSession (at_clock 1002060 (after load_in_decay w0))
  /\ resetSession w = w
  /\ isActive (st w) = false
  /\ countdownActive (st w) = false
  /\ startButton_shown (el w) = true
  /\ graceTimerId (st w) = None
  /\ countdownTimerId (st w) = None
  /\ elapsedTimerId (st w) = None
  /\ timers (host w)
     = [mkTimer 3 1002100 (Some 100) CbCountdown;
        mkTimer 1 1003000 (Some 1000) CbElapsed]
  /\ punctual 1000000 w0 restart_after_reset = true
  /\ filter is_destroyed (seen restart_after_reset w0)
     = [(1002100, TextDestroyed [] 0);
        (1002200, TextDestroyed (units "a b c") 3)]
  /\ chains CbCountdown (after restart_after_reset w0) = 1%nat.
Proof. vm_compute. repeat split. Qed.

(** ** What a step can show *)

Lemma always_cons (P : Z -> Z -> Event -> World -> bool)
    (la t : Z) (e : Event) (w : World) (tr : list (Z * Event)) :
  always P la w ((t, e) :: tr)
  = P la t e w
    && match step t e w with
       | Some (w1, _) => always P (if restarts e w then t else la) w1 tr
       | None => true
       end.
Proof. reflexivity. Qed.

Lemma now_handleTextDeletion (w : World) :
  now (host (fst (handleTextDeletion w))) = now (host w).
Proof.
  unfold handleTextDeletion, clearAllTimers, saveToHistory. cbv zeta. unfold fst.
  destruct (_ && _); cbn -[clearTimer]; rewrite !now_clearTimer; reflexivity.
Qed.

Lemma now_sampled (w : World) : now (host (sampled w)) = now (host w).
Proof. unfold sampled. cbv zeta. destruct (_ <? _); reflexivity. Qed.

Lemma now_startSession (i : option jsstring) (w : World) :
  now (host (startSession i w)) = now (host w).
Proof.
  unfold startSession, startCountdown, startElapsedTimer, setTimeout,
    setInterval, schedule. cbn -[clearTimer]. rewrite now_clearTimer. reflexivity.
Qed.

Lemma now_handle (e : Event) (w : World) :
  now (host (fst (handle e w))) = now (host w).
Proof.
  destruct e; cbn [handle fst].
  - apply now_startSession.
  - unfold handleInput, stopCountdown, startCountdown, setTimeout, schedule.
    cbn -[clearTimer]. rewrite !now_clearTimer. reflexivity.
  - apply now_resetSession.
  - destruct (isActive (st w)); [apply now_resetSession | reflexivity].
  - unfold saveDraft, saveToHistory. cbv zeta. destruct (_ && _); reflexivity.
  - unfold loadDraft. destruct (draft (store w)) as [d|]; [|reflexivity].
    destruct (d_text d); [reflexivity | apply now_startSession].
  - unfold continueFromHistory. destruct (find _ _); [|reflexivity].
    rewrite now_startSession.
    destruct (isActive (st w)); [apply now_resetSession | reflexivity].
  - reflexivity.
  - reflexivity.
  - unfold handleTimeoutChange. destruct (parseInt value); [|reflexivity].
    destruct (_ && _); reflexivity.
  - reflexivity.
  - destruct (lookup_timer id (host w)) as [tm|]; [|reflexivity].
    destruct (cb tm); cbn [fire fst].
    + unfold graceElapsed, beginActiveCountdown, setInterval, schedule.
      simpl. apply now_rearm.
    + rewrite countdownSample_sampled.
      destruct (Qle_bool _ 0); cbn [fst];
        rewrite ?now_handleTextDeletion, now_sampled; simpl; apply now_rearm.
    + unfold elapsedTick. destruct (_ && _); simpl; apply now_rearm.
    + simpl. apply now_rearm.
    + simpl. apply now_rearm.
Qed.

Lemma step_unfold (t : Z) (e : Event) (w w' : World) (o : list Obs) :
  step t e w = Some (w', o) ->
  now (host w) <= t
  /\ enabled e (with_host (set_clock t) w) = true
  /\ handle e (with_host (set_clock t) w) = (w', o).
Proof.
  unfold step. destruct (t <? now (host w)) eqn:Hlt; [discriminate|].
  destruct (enabled e _) eqn:Hen; [|discriminate].
  intros H. inversion H as [Hh]. rewrite Hh.
  apply Z.ltb_ge in Hlt. auto.
Qed.

Lemma now_step (t : Z) (e : Event) (w w' : World) (o : list Obs) :
  step t e w = Some (w', o) -> now (host w') = t.
Proof.
  intros Hs. apply step_unfold in Hs. destruct Hs as (_ & _ & Hh).
  change w' with (fst (w', o)). rewrite <- Hh, now_handle. reflexivity.
Qed.

(** Only the sampling callback shows anything. *)
Lemma step_shows (t : Z) (e : Event) (w w' : World) (o : list Obs) :
  step t e w = Some (w', o) -> o <> [] ->
  exists id tm,
    e = TimerFired id
    /\ In tm (timers (host w)) /\ tid tm = id /\ cb tm = CbCountdown
    /\ due tm <= t
    /\ countdownSample (with_host (rearm tm) (with_host (set_clock t) w)) = (w', o).
Proof.
  intros Hs Ho. apply step_unfold in Hs. destruct Hs as (_ & Hen & Hh).
  assert (Hne : forall x : World, (x, @nil Obs) <> (w', o))
    by (intros x E; inversion E; subst; apply Ho; reflexivity).
  destruct e; cbn [handle] in Hh; try (exfalso; exact (Hne _ Hh)).
  cbn [enabled] in Hen.
  change (host (with_host (set_clock t) w)) with (set_clock t (host w)) in Hh, Hen.
  change (lookup_timer id (set_clock t (host w)))
    with (lookup_timer id (host w)) in Hh, Hen.
  destruct (lookup_timer id (host w)) as [tm|] eqn:Hl;
    [|exfalso; exact (Hne _ Hh)].
  destruct (lookup_timer_some _ _ _ Hl) as [Hin Hid].
  destruct (cb tm) eqn:Hcb; cbn [fire] in Hh; try (exfalso; exact (Hne _ Hh)).
  exists id, tm. repeat split; try assumption. apply Z.leb_le, Hen.
Qed.

Lemma active_of_engine_timer (la : Z) (w : World) (tm : Timer) :
  Inv la w -> In tm (timers (host w)) ->
  cb tm = CbGrace \/ cb tm = CbCountdown \/ cb tm = CbElapsed ->
  isActive (st w) = true.
Proof.
  intros I Hin Hcb. destruct (isActive (st w)) eqn:Ha; [reflexivity|].
  destruct (inv_idle _ _ I Ha) as (Hg & Hc & He).
  destruct (no_timer_of la w tm I Hin) as (A & B & C).
  destruct Hcb as [H|[H|H]]; [apply A in H | apply B in H | apply C in H];
    contradiction.
Qed.

Lemma tick_bound (la t : Z) (e : Event) (w w' : World) (o : list Obs) :
  Inv la w -> step t e w = Some (w', o) -> o <> [] ->
  isActive (st w) = true /\ la + 1000 <= t.
Proof.
  intros I Hs Ho. pose proof (step_unfold _ _ _ _ _ Hs) as (Hnow & _ & _).
  destruct (step_shows _ _ _ _ _ Hs Ho) as (id & tm & _ & Hin & _ & Hcb & _ & _).
  split; [eapply active_of_engine_timer; eauto|].
  destruct (inv_countdown _ _ I tm Hin Hcb) as (_ & _ & _ & cs & _ & H1 & H2). lia.
Qed.

Lemma destroyed_bound (la t : Z) (e : Event) (w w' : World) (o : list Obs) :
  Inv la w -> step t e w = Some (w', o) ->
  (exists txt n, In (TextDestroyed txt n) o) ->
  isActive (st w) = true
  /\ (inject_Z la + 1000 + 1000 * timeoutSeconds (st w) <= inject_Z t)%Q.
Proof.
  intros I Hs Hd.
  assert (Ho : o <> []) by (destruct Hd as (? & ? & Hin); intros E; subst; exact Hin).
  split; [exact (proj1 (tick_bound _ _ _ _ _ _ I Hs Ho))|].
  destruct (step_shows _ _ _ _ _ Hs Ho) as (id & tm & _ & Hin & _ & Hcb & _ & Hsample).
  destruct (inv_countdown _ _ I tm Hin Hcb) as (_ & _ & _ & cs & Hcs & H1 & _).
  set (w1 := with_host (rearm tm) (with_host (set_clock t) w)) in *.
  assert (Hcs1 : countdownStart (st w1) = Some cs) by exact Hcs.
  pose proof (destroys_iff_deadline w1 cs Hcs1) as Hiff.
  rewrite Hsample in Hiff. cbn [snd] in Hiff. apply Hiff in Hd.
  replace (now (host w1)) with t in Hd by (subst w1; simpl; rewrite now_rearm; reflexivity).
  change (timeoutSeconds (st w1)) with (timeoutSeconds (st w)) in Hd.
  assert (Hq : (inject_Z la + 1000 <= inject_Z cs)%Q).
  { change 1000%Q with (inject_Z 1000). rewrite <- inject_Z_plus, <- Zle_Qle. exact H1. }
  lra.
Qed.

Lemma idle_stays_idle (la t : Z) (e : Event) (w w' : World) (o : list Obs) :
  Inv la w -> isActive (st w) = false -> restarts e w = false ->
  step t e w = Some (w', o) ->
  isActive (st w') = false /\ o = [].
Proof.
  intros I Ha Hr Hs. split.
  - pose proof (step_unfold _ _ _ _ _ Hs) as (Hnow & Hen & Hh).
    assert (E : w' = fst (handle e (with_host (set_clock t) w)))
      by (rewrite Hh; reflexivity).
    subst w'. clear Hh Hs.
    destruct e; cbn [handle fst restarts] in *; try discriminate; try exact Ha.
    + reflexivity.
    + change (isActive (st (with_host (set_clock t) w))) with (isActive (st w)).
      rewrite Ha. exact Ha.
    + unfold saveDraft, saveToHistory. cbv zeta. destruct (_ && _); exact Ha.
    + unfold loadDraft. simpl.
      destruct (draft (store w)) as [d|]; [|exact Ha].
      destruct (d_text d); [exact Ha | discriminate].
    + unfold continueFromHistory, getHistory in *. simpl.
      destruct (find _ (history (store w))); [discriminate | exact Ha].
    + unfold handleTimeoutChange. destruct (parseInt value); [|exact Ha].
      destruct (_ && _); exact Ha.
    + cbn [enabled] in Hen.
      change (lookup_timer id (host (with_host (set_clock t) w)))
        with (lookup_timer id (host w)) in *.
      destruct (lookup_timer id (host w)) as [tm|] eqn:Hl; [|exact Ha].
      destruct (lookup_timer_some _ _ _ Hl) as [Hin _].
      destruct (cb tm) eqn:Hcb;
        try (pose proof (active_of_engine_timer la w tm I Hin) as Hact;
             rewrite Hcb in Hact; rewrite Hact in Ha;
             [discriminate | solve [auto]]);
        exact Ha.
  - destruct o as [|x o]; [reflexivity|]. exfalso.
    assert (Ho : x :: o <> []) by discriminate.
    destruct (tick_bound _ _ _ _ _ _ I Hs Ho) as [Hact _]. congruence.
Qed.

Lemma calm_step (la t : Z) (e : Event) (w w' : World) (o : list Obs) :
  Inv la w -> allowed e w = true -> step t e w = Some (w', o) ->
  negb (isActive (st w)) || (t - la <? 1000) = true ->
  o = [] /\ forall tm, In tm (timers (host w')) -> cb tm <> CbCountdown.
Proof.
  intros I Hal Hs Hp. split.
  - destruct o as [|x o]; [reflexivity|]. exfalso.
    assert (Ho : x :: o <> []) by discriminate.
    destruct (tick_bound _ _ _ _ _ _ I Hs Ho) as [Hact Hla].
    rewrite Hact in Hp. simpl in Hp. apply Z.ltb_lt in Hp. lia.
  - intros tm Htm Hcb.
    pose proof (step_inv _ _ _ _ _ _ I Hal Hs) as I'.
    pose proof (now_step _ _ _ _ _ Hs) as Hnow.
    destruct (inv_countdown _ _ I' tm Htm Hcb) as (_ & _ & _ & cs & _ & H1 & H2).
    rewrite Hnow in H2.
    destruct (restarts e w) eqn:Hr; [lia|].
    destruct (isActive (st w)) eqn:Ha; simpl in Hp.
    + apply Z.ltb_lt in Hp. lia.
    + destruct (idle_stays_idle _ _ _ _ _ _ I Ha Hr Hs) as [Ha' _].
      pose proof (active_of_engine_timer _ _ tm I' Htm) as Hact.
      rewrite Hact in Ha'; [discriminate | auto].
Qed.

Lemma run_within_grace (tr : list (Z * Event)) :
  forall la w w' obs,
    Inv la w ->
    (forall tm, In tm (timers (host w)) -> cb tm <> CbCountdown) ->
    starts_when_idle la w tr = true ->
    active_within_grace la w tr = true ->
    run tr w = Some (w', obs) ->
    obs = [] /\ forall tm, In tm (timers (host w')) -> cb tm <> CbCountdown.
Proof.
  induction tr as [|[t e] tr IH]; intros la w w' obs I Hnc Hal Hg Hrun.
  - simpl in Hrun. inversion Hrun; subst. auto.
  - unfold starts_when_idle, active_within_grace in *.
    rewrite always_cons in Hal, Hg. simpl in Hrun.
    apply andb_true_iff in Hal. destruct Hal as [Hal1 Hal2].
    apply andb_true_iff in Hg. destruct Hg as [Hg1 Hg2].
    destruct (step t e w) as [[w1 o]|] eqn:Hs; [|discriminate].
    destruct (run tr w1) as [[w2 o2]|] eqn:Hr; [|discriminate].
    inversion Hrun; subst.
    destruct (calm_step _ _ _ _ _ _ I Hal1 Hs Hg1) as [Ho Hnc1].
    destruct (IH _ _ _ _ (step_inv _ _ _ _ _ _ I Hal1 Hs) Hnc1 Hal2 Hg2 Hr)
      as [Ho2 Hnc2].
    subst. auto.
Qed.

Lemma run_within_timeout (tr : list (Z * Event)) :
  forall la w w' obs,
    Inv la w ->
    starts_when_idle la w tr = true ->
    active_within_timeout la w tr = true ->
    run tr w = Some (w', obs) ->
    forall x, In x obs -> is_destroyed x = false.
Proof.
  induction tr as [|[t e] tr IH]; intros la w w' obs I Hal Hg Hrun x Hx.
  - simpl in Hrun. inversion Hrun; subst. destruct Hx.
  - unfold starts_when_idle, active_within_timeout in *.
    rewrite always_cons in Hal, Hg. simpl in Hrun.
    apply andb_true_iff in Hal. destruct Hal as [Hal1 Hal2].
    apply andb_true_iff in Hg. destruct Hg as [Hg1 Hg2].
    destruct (step t e w) as [[w1 o]|] eqn:Hs; [|discriminate].
    destruct (run tr w1) as [[w2 o2]|] eqn:Hr; [|discriminate].
    inversion Hrun; subst. apply in_app_or in Hx. destruct Hx as [Hx|Hx].
    + unfold stamp in Hx. apply in_map_iff in Hx. destruct Hx as (y & Hy & Hin).
      subst x. unfold is_destroyed. simpl. destruct y; try reflexivity. exfalso.
      destruct (destroyed_bound _ _ _ _ _ _ I Hs) as [Hact Hb]; [eauto|].
      rewrite Hact in Hg1. simpl in Hg1. unfold Qlt_b in Hg1.
      apply negb_true_iff in Hg1.
      assert (Hle : (1000 * timeoutSeconds (st w) <= inject_Z (t - la))%Q).
      { unfold Z.sub. rewrite inject_Z_plus, inject_Z_opp. lra. }
      apply Qle_bool_iff in Hle. congruence.
    + exact (IH _ _ _ _ (step_inv _ _ _ _ _ _ I Hal1 Hs) Hal2 Hg2 Hr x Hx).
Qed.

(** ** A session left alone *)

Lemma split_after_clean {A : Type} (p : A -> bool) (l r l1 l2 : list A) (x : A) :
  (forall y, In y l -> p y = false) -> p x = true ->
  l ++ r = l1 ++ x :: l2 ->
  exists l1', l1 = l ++ l1' /\ r = l1' ++ x :: l2.
Proof.
  revert l1. induction l as [|a l IH]; intros l1 Hl Hx E; simpl in *.
  - exists l1. auto.
  - destruct l1 as [|b l1]; simpl in E; inversion E; subst.
    + rewrite (Hl x (or_introl eq_refl)) in Hx. discriminate.
    + destruct (IH l1) as (l1' & E1 & E2); auto.
      exists l1'. subst. auto.
Qed.

Lemma last_is_destroyed {A : Type} (p : A -> bool) (pre l1 l2 : list A) (d x : A) :
  (forall y, In y pre -> p y = false) -> p x = true ->
  pre ++ [d] = l1 ++ x :: l2 -> l2 = [].
Proof.
  intros Hpre Hx E.
  destruct (split_after_clean p pre [d] l1 l2 x Hpre Hx E) as (l1' & _ & E2).
  destruct l1' as [|a [|b l1']]; simpl in E2; inversion E2; reflexivity.
Qed.

Lemma handleTextDeletion_obs_shape (w : World) :
  exists pre txt k,
    snd (handleTextDeletion w) = pre ++ [TextDestroyed txt k]
    /\ forall y, In y pre -> destroyed_obs y = false.
Proof.
  rewrite handleTextDeletion_obs. eexists. eexists. eexists.
  split; [reflexivity|].
  intros y Hy. destruct (3 <=? _)%nat; simpl in Hy; [|contradiction].
  destruct Hy as [Hy|[]]. subst y. reflexivity.
Qed.

(** A step either shows no destruction, or ends the session and shows the
    destruction last. *)
Lemma step_destroys (t : Z) (e : Event) (w w' : World) (o : list Obs) :
  step t e w = Some (w', o) ->
  (forall y, In y o -> destroyed_obs y = false)
  \/ (isActive (st w') = false
      /\ exists pre txt k,
           o = pre ++ [TextDestroyed txt k]
           /\ forall y, In y pre -> destroyed_obs y = false).
Proof.
  intros Hs. destruct o as [|x o'] eqn:Ho; [left; intros y []|].
  assert (Hne : x :: o' <> []) by discriminate. rewrite <- Ho in *.
  destruct (step_shows _ _ _ _ _ Hs Hne) as (id & tm & _ & _ & _ & _ & _ & Hsample).
  rewrite countdownSample_sampled in Hsample.
  destruct (Qle_bool _ 0); apply pair_equal_spec in Hsample;
    destruct Hsample as [Hw Hobs]; rewrite <- Hw, <- Hobs.
  - right. split.
    + unfold handleTextDeletion. cbv zeta. unfold fst.
      destruct (_ && _); reflexivity.
    + destruct (handleTextDeletion_obs_shape
                  (sampled (with_host (rearm tm) (with_host (set_clock t) w))))
        as (pre & txt & k & E & Hpre).
      rewrite E. eexists (_ :: pre), txt, k. split; [reflexivity|].
      intros y [Hy|Hy]; [subst y; reflexivity | apply Hpre, Hy].
  - left. intros y [Hy|[]]. subst y. reflexivity.
Qed.

Lemma only_timers_cons (t : Z) (e : Event) (tr : list (Z * Event)) :
  only_timers ((t, e) :: tr) = true ->
  (exists id, e = TimerFired id) /\ only_timers tr = true.
Proof.
  unfold only_timers. simpl. intros H. apply andb_true_iff in H.
  destruct H as [H1 H2]. split; [|exact H2].
  destruct e; try discriminate. eauto.
Qed.

Lemma silent_idle (tr : list (Z * Event)) :
  forall la w w' obs,
    Inv la w -> isActive (st w) = false -> only_timers tr = true ->
    run tr w = Some (w', obs) ->
    obs = [] /\ isActive (st w') = false.
Proof.
  induction tr as [|[t e] tr IH]; intros la w w' obs I Ha Hot Hrun; simpl in Hrun.
  - inversion Hrun; subst. auto.
  - destruct (only_timers_cons _ _ _ Hot) as [(id & He) Hot']. subst e.
    destruct (step t (TimerFired id) w) as [[w1 o]|] eqn:Hs; [|discriminate].
    destruct (run tr w1) as [[w2 o2]|] eqn:Hr; [|discriminate].
    inversion Hrun; subst.
    destruct (idle_stays_idle la t (TimerFired id) w w1 o I Ha eq_refl Hs) as [Ha1 Ho].
    pose proof (step_inv la t (TimerFired id) w w1 o I eq_refl Hs) as I1. simpl in I1.
    destruct (IH _ _ _ _ I1 Ha1 Hot' Hr) as [Ho2 Ha2].
    subst. auto.
Qed.

Lemma stamp_clean (t : Z) (o : list Obs) :
  (forall y, In y o -> destroyed_obs y = false) ->
  forall x, In x (stamp t o) -> is_destroyed x = false.
Proof.
  intros H x Hx. unfold stamp in Hx. apply in_map_iff in Hx.
  destruct Hx as (y & Hy & Hin). subst x. exact (H y Hin).
Qed.

Lemma quiet_after_destruction (tr : list (Z * Event)) :
  forall la w w' obs,
    Inv la w -> only_timers tr = true -> run tr w = Some (w', obs) ->
    forall obs1 x obs2,
      obs = obs1 ++ x :: obs2 -> is_destroyed x = true -> obs2 = [].
Proof.
  induction tr as [|[t e] tr IH]; intros la w w' obs I Hot Hrun obs1 x obs2 E Hx;
    simpl in Hrun.
  - inversion Hrun; subst. destruct obs1; discriminate.
  - destruct (only_timers_cons _ _ _ Hot) as [(id & He) Hot']. subst e.
    destruct (step t (TimerFired id) w) as [[w1 o]|] eqn:Hs; [|discriminate].
    destruct (run tr w1) as [[w2 o2]|] eqn:Hr; [|discriminate].
    injection Hrun as Hw Hobs. rewrite <- Hobs in E. clear Hobs.
    pose proof (step_inv la t (TimerFired id) w w1 o I eq_refl Hs) as I1. simpl in I1.
    destruct (step_destroys _ _ _ _ _ Hs) as [Hclean|(Ha1 & pre & txt & k & Ho & Hpre)].
    + destruct (split_after_clean is_destroyed _ _ _ _ _ (stamp_clean t o Hclean) Hx E)
        as (l1' & _ & E2).
      exact (IH _ _ _ _ I1 Hot' Hr _ _ _ E2 Hx).
    + destruct (silent_idle _ _ _ _ _ I1 Ha1 Hot' Hr) as [Ho2 _]. subst o2 o.
      rewrite app_nil_r in E. unfold stamp in E. rewrite map_app in E. simpl in E.
      apply (last_is_destroyed is_destroyed _ _ _ _ _
               (stamp_clean t pre Hpre) Hx E).
Qed.

Lemma rearm_keeps_other (tm y : Timer) (h : Host) :
  In y (timers h) -> tid y <> tid tm -> In y (timers (rearm tm h)).
Proof.
  intros Hy Hne. unfold rearm. destruct (period tm) as [p|].
  - simpl. apply in_map_iff. exists y. split; [|exact Hy].
    destruct (Pos.eqb_spec (tid y) (tid tm)); [contradiction | reflexivity].
  - apply in_cancel. auto.
Qed.

Lemma isActive_sampled (w : World) : isActive (st (sampled w)) = isActive (st w).
Proof. unfold sampled. cbv zeta. destruct (_ <? _); reflexivity. Qed.

Lemma countdownStart_sampled (w : World) :
  countdownStart (st (sampled w)) = countdownStart (st w).
Proof. unfold sampled. cbv zeta. destruct (_ <? _); reflexivity. Qed.

Lemma timers_sampled (w : World) : timers (host (sampled w)) = timers (host w).
Proof. unfold sampled. cbv zeta. destruct (_ <? _); reflexivity. Qed.

Lemma remaining_le0_iff (w : World) (cs n : Z) :
  countdownStart (st w) = Some cs ->
  timeoutSeconds (st w) = inject_Z n ->
  Qle_bool (remaining_of w) 0 = true <-> cs + 1000 * n <= now (host w).
Proof.
  intros Hcs HT. rewrite Qle_bool_iff. unfold remaining_of, elapsed_of.
  rewrite Hcs, HT. simpl null_to_zero. rewrite Math_max0_le0, past_deadline.
  change (1000 * inject_Z n)%Q with (inject_Z 1000 * inject_Z n)%Q.
  rewrite <- (inject_Z_mult 1000 n), <- inject_Z_plus, <- Zle_Qle. reflexivity.
Qed.

Lemma waiting_set_clock (s n t : Z) (w : World) :
  Waiting s n w -> now (host w) <= t -> Waiting s n (with_host (set_clock t) w).
Proof.
  intros (I & HT & Ha & Hph) Ht.
  split; [apply inv_set_clock; assumption|]. auto.
Qed.

Lemma waiting_frame (s n : Z) (w w1 : World) (tm : Timer) :
  Waiting s n w -> In tm (timers (host w)) ->
  cb tm <> CbGrace -> cb tm <> CbCountdown ->
  Inv s w1 -> st w1 = st w ->
  timers (host w1) = timers (rearm tm (host w)) ->
  Waiting s n w1.
Proof.
  intros (I & HT & Ha & Hph) Htm Hng Hnc I1 Hst Htimers.
  pose proof (inv_host _ _ I) as Hok.
  assert (Hother : forall y, In y (timers (host w)) -> cb y <> cb tm ->
                     In y (timers (host w1))).
  { intros y Hy Hcb. rewrite Htimers. apply rearm_keeps_other; [exact Hy|].
    intros E. apply Hcb. f_equal. exact (tid_inj _ y tm Hok Hy Htm E). }
  split; [exact I1|]. rewrite Hst. split; [exact HT|]. split; [exact Ha|].
  destruct Hph as [(g & Hg & Hcb)|(c & k & Hc & Hcb & Hcs & Hk & Hd)].
  - left. exists g. split; [apply Hother; [exact Hg | congruence] | exact Hcb].
  - right. exists c, k. split; [apply Hother; [exact Hc | congruence]|]. auto.
Qed.

Lemma waiting_step (s n t : Z) (id : positive) (w w1 : World) (o : list Obs) :
  1 <= n -> Waiting s n w ->
  step t (TimerFired id) w = Some (w1, o) ->
  (forall tm, lookup_timer id (host w) = Some tm -> due tm = t) ->
  (Waiting s n w1 /\ forall y, In y o -> destroyed_obs y = false)
  \/ (t = s + 1000 + 1000 * n
      /\ isActive (st w1) = false
      /\ exists pre txt k,
           o = pre ++ [TextDestroyed txt k]
           /\ forall y, In y pre -> destroyed_obs y = false).
Proof.
  intros Hn W Hs Hp.
  pose proof (step_unfold _ _ _ _ _ Hs) as (Hnow & Hen & Hh).
  pose proof (waiting_set_clock s n t w W Hnow) as W0.
  destruct W as (I & _). 
  pose proof (step_inv s t (TimerFired id) w w1 o I eq_refl Hs) as I1. simpl in I1.
  assert (HT1 : timeoutSeconds (st w1) = inject_Z n).
  { change w1 with (fst (w1, o)). rewrite <- Hh, handle_timeout by discriminate.
    apply W0. }
  set (w0 := with_host (set_clock t) w) in *.
  destruct W0 as (I0 & HT & Ha & Hph).
  cbn [handle enabled] in Hh, Hen.
  change (lookup_timer id (host w0)) with (lookup_timer id (host w)) in Hh, Hen.
  destruct (lookup_timer id (host w)) as [tm|] eqn:Hl; [|discriminate].
  specialize (Hp tm eq_refl).
  destruct (lookup_timer_some _ _ _ Hl) as [Hin _].
  change (In tm (timers (host w0))) in Hin.
  pose proof (inv_host _ _ I0) as Hok.
  assert (Hw1 : fst (fire (cb tm) (with_host (rearm tm) w0)) = w1)
    by (rewrite Hh; reflexivity).
  assert (Ho : snd (fire (cb tm) (with_host (rearm tm) w0)) = o)
    by (rewrite Hh; reflexivity).
  clear Hh.
  destruct (cb tm) eqn:Hcb; cbn [fire fst snd] in Hw1, Ho.
  - (* the grace timeout *)
    left. destruct (inv_grace _ _ I0 tm Hin Hcb) as (_ & Hdue & _).
    split; [|subst o; intros y []].
    split; [exact I1|]. split; [exact HT1|].
    split; [rewrite <- Hw1; exact Ha|].
    right. eexists. exists 1. rewrite <- Hw1.
    split; [left; reflexivity|]. split; [reflexivity|].
    unfold graceElapsed, beginActiveCountdown, setInterval, schedule,
      CONFIG_COUNTDOWN_INTERVAL.
    cbn -[Z.mul Z.add rearm]. rewrite now_rearm. cbn -[Z.mul Z.add].
    split; [f_equal; lia|]. split; lia.
  - (* the sampling interval *)
    destruct (inv_countdown _ _ I0 tm Hin Hcb) as (Hcid & Hper & _).
    destruct Hph as [(g & Hg & Hgcb)|(c & k & Hc & Hccb & Hcs & Hk & Hd)].
    { exfalso. destruct (inv_grace _ _ I0 g Hg Hgcb) as (Hgid & _).
      rewrite (inv_phase _ _ I0) in Hcid; congruence. }
    assert (Ec : c = tm).
    { apply (tid_inj _ c tm Hok Hc Hin).
      destruct (inv_countdown _ _ I0 c Hc Hccb) as (Hcid' & _). congruence. }
    subst c.
    set (X := with_host (rearm tm) w0) in *.
    assert (HnowX : now (host X) = t) by (subst X; simpl; apply now_rearm).
    rewrite countdownSample_sampled in Hw1, Ho.
    pose proof (remaining_le0_iff X (s + 1000) n Hcs HT) as Hiff.
    rewrite HnowX in Hiff.
    destruct (Qle_bool (remaining_of X) 0) eqn:Hq; cbn [fst snd] in Hw1, Ho.
    + right. assert (s + 1000 + 1000 * n <= t) by (apply Hiff; reflexivity).
      split; [lia|]. split.
      * rewrite <- Hw1. unfold handleTextDeletion. cbv zeta. unfold fst.
        destruct (_ && _); reflexivity.
      * destruct (handleTextDeletion_obs_shape (sampled X))
          as (pre & txt & j & E & Hpre).
        rewrite E in Ho. rewrite <- Ho. eexists (_ :: pre), txt, j.
        split; [reflexivity|].
        intros y [Hy|Hy]; [subst y; reflexivity | apply Hpre, Hy].
    + left. assert (Hlt : ~ s + 1000 + 1000 * n <= t).
      { intros H. apply Hiff in H. congruence. }
      split; [|rewrite <- Ho; intros y [Hy|[]]; subst y; reflexivity].
      split; [exact I1|]. split; [exact HT1|].
      split; [rewrite <- Hw1, isActive_sampled; exact Ha|].
      right.
      destruct (rearm_interval_keeps tm 100 (host w0) tm Hper Hin)
        as (x' & Hx' & Htid & Hxcb).
      destruct (in_rearm_interval tm 100 (host w0) x' Hper Hx')
        as (x & Hx & Htx & _ & _ & _ & Hdue).
      exists x', (k + 1). rewrite <- Hw1, timers_sampled, countdownStart_sampled.
      split; [exact Hx'|]. split; [congruence|]. split; [exact Hcs|].
      split; [lia|]. rewrite Hdue by congruence. cbn -[Z.mul Z.add]. lia.
  - (* the elapsed-time interval *)
    left. split; [|subst o; intros y []].
    apply (waiting_frame s n w0 w1 tm); try assumption; try congruence.
    + exact (conj I0 (conj HT (conj Ha Hph))).
    + rewrite <- Hw1. unfold elapsedTick. destruct (_ && _); reflexivity.
    + rewrite <- Hw1. unfold elapsedTick. destruct (_ && _); reflexivity.
  - left. split; [|subst o; intros y []].
    apply (waiting_frame s n w0 w1 tm); try assumption; try congruence.
    + exact (conj I0 (conj HT (conj Ha Hph))).
    + rewrite <- Hw1. reflexivity.
    + rewrite <- Hw1. reflexivity.
  - left. split; [|subst o; intros y []].
    apply (waiting_frame s n w0 w1 tm); try assumption; try congruence.
    + exact (conj I0 (conj HT (conj Ha Hph))).
    + rewrite <- Hw1. reflexivity.
    + rewrite <- Hw1. reflexivity.
Qed.

Lemma waiting_run (tr : list (Z * Event)) :
  forall s n la w w' obs,
    1 <= n -> Waiting s n w -> only_timers tr = true ->
    punctual la w tr = true ->
    run tr w = Some (w', obs) ->
    (Waiting s n w' /\ forall x, In x obs -> is_destroyed x = false)
    \/ exists pre txt k,
         obs = pre ++ [(s + 1000 + 1000 * n, TextDestroyed txt k)]
         /\ forall x, In x pre -> is_destroyed x = false.
Proof.
  induction tr as [|[t e] tr IH]; intros s n la w w' obs Hn W Hot Hp Hrun.
  - simpl in Hrun. injection Hrun as Hw Hobs. subst. left. split; [exact W|].
    intros x [].
  - destruct (only_timers_cons _ _ _ Hot) as [(id & He) Hot']. subst e.
    unfold punctual in Hp. rewrite always_cons in Hp.
    apply andb_true_iff in Hp. destruct Hp as [Hp1 Hp2].
    simpl in Hrun.
    destruct (step t (TimerFired id) w) as [[w1 o]|] eqn:Hs; [|discriminate].
    destruct (run tr w1) as [[w2 o2]|] eqn:Hr; [|discriminate].
    injection Hrun as Hw Hobs. subst w2 obs.
    assert (Hdue : forall tm, lookup_timer id (host w) = Some tm -> due tm = t).
    { intros tm Hl. rewrite Hl in Hp1. apply Z.eqb_eq, Hp1. }
    destruct (waiting_step s n t id w w1 o Hn W Hs Hdue)
      as [[W1 Hclean]|(Ht & Ha1 & pre & txt & k & Ho & Hpre)].
    + destruct (IH s n _ w1 w' o2 Hn W1 Hot' Hp2 Hr)
        as [[W' Hclean2]|(pre & txt & k & E & Hpre)].
      * left. split; [exact W'|]. intros x Hx. apply in_app_or in Hx.
        destruct Hx as [Hx|Hx]; [exact (stamp_clean t o Hclean x Hx) | auto].
      * right. exists (stamp t o ++ pre), txt, k. rewrite E, app_assoc.
        split; [reflexivity|]. intros x Hx. apply in_app_or in Hx.
        destruct Hx as [Hx|Hx]; [exact (stamp_clean t o Hclean x Hx) | auto].
    + right. destruct W as (I & _).
      pose proof (step_inv s t (TimerFired id) w w1 o I eq_refl Hs) as I1.
      simpl in I1.
      destruct (silent_idle tr s w1 w' o2 I1 Ha1 Hot' Hr) as [Ho2 _].
      subst o2 o t. exists (stamp (s + 1000 + 1000 * n) pre), txt, k.
      rewrite app_nil_r. unfold stamp. rewrite map_app. split; [reflexivity|].
      apply (stamp_clean _ pre Hpre).
Qed.

Lemma handleInput_schedules (w : World) :
  hd_error (timers (host (handleInput w)))
  = Some (mkTimer (nextId (host w)) (now (host w) + 1000) None CbGrace)
  /\ graceTimerId (st (handleInput w)) = Some (nextId (host w)).
Proof.
  unfold handleInput, stopCountdown, startCountdown, setTimeout, schedule.
  cbn -[clearTimer Z.add]. rewrite !nextId_clearTimer, !now_clearTimer. auto.
Qed.

Lemma startSession_schedules (i : option jsstring) (w : World) :
  hd_error (timers (host (startSession i w)))
  = Some (mkTimer (Pos.succ (nextId (host w))) (now (host w) + 1000) None CbGrace)
  /\ graceTimerId (st (startSession i w)) = Some (Pos.succ (nextId (host w))).
Proof.
  unfold startSession, startCountdown, startElapsedTimer, setTimeout,
    setInterval, schedule.
  cbn -[clearTimer Z.add]. rewrite !nextId_clearTimer, !now_clearTimer. auto.
Qed.

Lemma run_computed (tr : list (Z * Event)) (w : World) :
  match run tr w with Some _ => True | None => False end ->
  run tr w = Some (after tr w, seen tr w).
Proof.
  unfold after, seen. destruct (run tr w) as [[w' o]|]; [reflexivity | intros []].
Qed.

(** C2.  The load button pressed over an active session (C6) starts a
    session and arms its grace timeout for one second later, and yet the
    sampling interval of the decay that was running goes on: 50 ms after
    this session start a sample blurs the text.  Once the new grace timeout
    has elapsed two sampling intervals are pending; the keystroke at 1002120
    arms a grace timeout for 1003120 and cancels the newer interval only, and
    80 ms after the keystroke the older one shows a sample and destroys the
    text, every timer having fired on time. *)
Theorem C2_load_over_session_shows_decay_within_grace :
  let w0 := boot page_served stored_draft 1000000 in
  let loaded := to_decaying ++ [(1001050, LoadClicked)] in
  let typed := load_in_decay
               ++ [(1002100, TimerFired 3%positive);
                   (1002120, UserEditedText (units "x"))] in
  punctual 1000000 w0 load_then_type = true
  /\ last_activity 1000000 w0 loaded = 1001050
  /\ hd_error (timers (host (after loaded w0)))
     = Some (mkTimer 5 1002050 None CbGrace)
  /\ seen (loaded ++ [(1001100, TimerFired 3%positive)]) w0
     = [(1001100, DecayTick (4900 # 5000) (4900 # 1000) false)]
  /\ last_activity 1000000 w0 typed = 1002120
  /\ hd_error (timers (host (after typed w0)))
     = Some (mkTimer 7 1003120 None CbGrace)
  /\ chains CbCountdown (after typed w0) = 1%nat
  /\ filter (fun o => 1002120 <? fst o) (seen load_then_type w0)
     = [(1002200, DecayTick (0 # 5) 0 true);
        (1002200, TextDestroyed (units "x") 1)].
Proof. vm_compute. repeat split. Qed.

(** C3.  In the same run (C6) the timeout is 5 seconds and every event
    comes less than 5 seconds after the latest activity, the last of which
    is the keystroke at 1002120; every timer fires on time.  The text is
    destroyed at 1002200 all the same, by the sampling interval that the
    load left behind.  That interval stays pending after the destruction: at
    its next firing, with no session started in between, one more sample and
    one more destruction are shown. *)
Theorem C3_load_over_session_destroys_during_typing :
  let w0 := boot page_served stored_draft 1000000 in
  timeoutSeconds (st w0) = 5%Q
  /\ active_within_timeout 1000000 w0 load_then_type = true
  /\ punctual 1000000 w0 load_then_type = true
  /\ last_activity 1000000 w0 load_then_type = 1002120
  /\ filter is_destroyed (seen load_then_type w0)
     = [(1002200, TextDestroyed (units "x") 1)]
  /\ isActive (st (after load_then_type w0)) = false
  /\ punctual 1000000 w0 (load_then_type ++ [(1002300, TimerFired 3%positive)])
     = true
  /\ filter (fun o => 1002200 <? fst o)
       (seen (load_then_type ++ [(1002300, TimerFired 3%positive)]) w0)
     = [(1002300, DecayTick (0 # 5) 0 false); (1002300, TextDestroyed [] 0)].
Proof. vm_compute. repeat split. Qed.

(** ** The earlier revision, for comparison *)

(** In [static/js/main.js] the quiet period before the blur is
    [timeoutSeconds] itself, and the deletion comes with the twentieth tick
    whatever the clock shows. *)
Lemma legacy_timing_counts_ticks :
  Legacy.pauseDelay 5 == 5000
  /\ Legacy.pauseDelay 30 == 30000
  /\ Legacy.blurTicks 19 0 = (19, false)
  /\ Legacy.blurTicks 20 0 = (20, true).
Proof. repeat split. Qed.

(** * Further properties of the module *)

(** ** The writing history *)

Lemma saveToHistory_history (text : jsstring) (n : nat) (w : World) :
  history (store (saveToHistory text n w))
  = firstn CONFIG_MAX_HISTORY
      (mkEntry (now (host w)) text n (now (host w)) :: history (store w)).
Proof.
  unfold saveToHistory, getHistory. cbv zeta.
  destruct (CONFIG_MAX_HISTORY <? _)%nat eqn:Hlen; cbn [store with_store history].
  - reflexivity.
  - apply Nat.ltb_ge in Hlen. symmetry. apply firstn_all2. exact Hlen.
Qed.

Lemma saveToHistory_short (text : jsstring) (n : nat) (w : World) :
  (List.length (history (store (saveToHistory text n w))) <= CONFIG_MAX_HISTORY)%nat.
Proof. rewrite saveToHistory_history. apply firstn_le_length. Qed.

Lemma store_sampled (w : World) : store (sampled w) = store w.
Proof. unfold sampled. cbv zeta. destruct (_ <? _); reflexivity. Qed.

Lemma handleTextDeletion_short (w : World) :
  (List.length (history (store w)) <= CONFIG_MAX_HISTORY)%nat ->
  (List.length (history (store (fst (handleTextDeletion w)))) <= CONFIG_MAX_HISTORY)%nat.
Proof.
  intros H. rewrite handleTextDeletion_history.
  destruct (3 <=? _)%nat; [apply saveToHistory_short | exact H].
Qed.

Lemma handle_history_short (e : Event) (w : World) :
  (List.length (history (store w)) <= CONFIG_MAX_HISTORY)%nat ->
  (List.length (history (store (fst (handle e w)))) <= CONFIG_MAX_HISTORY)%nat.
Proof.
  intros H. destruct e; cbn [handle fst]; try exact H.
  - destruct (isActive (st w)); exact H.
  - unfold saveDraft. cbv zeta.
    destruct (_ && _); cbn [store with_host with_el];
      [apply saveToHistory_short | exact H].
  - unfold loadDraft. destruct (draft (store w)) as [d|]; [|exact H].
    destruct (d_text d); exact H.
  - unfold continueFromHistory. destruct (find _ _); [|exact H].
    destruct (isActive (st w)); exact H.
  - unfold deleteFromHistory. cbn [store with_store history].
    eapply Nat.le_trans; [apply filter_length_le | exact H].
  - cbn. lia.
  - unfold handleTimeoutChange. destruct (parseInt value); [|exact H].
    destruct (_ && _); exact H.
  - destruct (lookup_timer id (host w)) as [tm|]; [|exact H].
    destruct (cb tm); cbn [fire fst]; try exact H.
    + rewrite countdownSample_sampled. destruct (Qle_bool _ 0); cbn [fst].
      * apply handleTextDeletion_short. rewrite store_sampled. exact H.
      * rewrite store_sampled. exact H.
    + unfold elapsedTick. destruct (_ && _); exact H.
Qed.

(** The history never grows beyond twenty entries: a run that starts with
    at most twenty stored entries ends with at most twenty, and
    [saveToHistory] alone cuts any history down to the newest twenty, the
    new entry first. *)
Theorem history_stays_within_twenty_entries
    (tr : list (Z * Event)) (w w' : World) (obs : list (Z * Obs)) :
  (List.length (history (store w)) <= 20)%nat ->
  run tr w = Some (w', obs) ->
  (List.length (history (store w')) <= 20)%nat
  /\ forall text n,
       history (store (saveToHistory text n w'))
       = firstn 20 (mkEntry (now (host w')) text n (now (host w'))
                    :: history (store w'))
       /\ (List.length (history (store (saveToHistory text n w'))) <= 20)%nat.
Proof.
  intros Hlen Hrun.
  assert (Hend : (List.length (history (store w')) <= 20)%nat).
  { revert w obs Hlen Hrun. induction tr as [|[t e] tr IH]; intros w obs Hlen Hrun.
    - simpl in Hrun. injection Hrun as Hw _. subst. exact Hlen.
    - simpl in Hrun.
      destruct (step t e w) as [[w1 o]|] eqn:Hs; [|discriminate].
      destruct (run tr w1) as [[w2 o2]|] eqn:Hr; [|discriminate].
      injection Hrun as Hw _. subst w2.
      apply (IH w1 o2); [|exact Hr].
      apply step_unfold in Hs. destruct Hs as (_ & _ & Hh).
      change w1 with (fst (w1, o)). rewrite <- Hh.
      apply handle_history_short. exact Hlen. }
  split; [exact Hend|]. intros text n.
  split; [apply saveToHistory_history | apply saveToHistory_short].
Qed.

(** Twenty texts are stored; three words are typed and left alone until the
    countdown destroys them.  The destroyed text is archived first, and the
    oldest entry, with id 20 at the end of the list, is dropped. *)
Lemma history_within_twenty_witness :
  let w0 := boot page_served stored_history 1000000 in
  List.length (history (store w0)) = 20%nat
  /\ (List.length (history (store (after write_and_leave w0))) <= 20)%nat
  /\ seen write_and_leave w0
     = [(1006500, DecayTick (0 # 5) 0 true);
        (1006500, Archived (units "one two three") 3);
        (1006500, TextDestroyed (units "one two three") 3)]
  /\ map e_id (history (store (after write_and_leave w0)))
     = 1006500 :: map Z.of_nat (seq 1 19)
  /\ hd_error (history (store (after write_and_leave w0)))
     = Some (mkEntry 1006500 (units "one two three") 3 1006500).
Proof.
  intros w0.
  assert (H0 : (List.length (history (store w0)) <= 20)%nat)
    by (vm_compute; lia).
  assert (Hrun : run write_and_leave w0
                 = Some (after write_and_leave w0, seen write_and_leave w0))
    by (apply run_computed; vm_compute; exact I).
  split; [reflexivity|].
  split; [exact (proj1 (history_stays_within_twenty_entries write_and_leave
                          w0 _ _ H0 Hrun))|].
  vm_compute. repeat split.
Defined.

Lemma find_filter_none (id : Z) (h : list Entry) :
  find (fun x => e_id x =? id) (filter (fun x => negb (e_id x =? id)) h) = None.
Proof.
  induction h as [|a h IH]; simpl; [reflexivity|].
  destruct (e_id a =? id) eqn:Ha; simpl; [exact IH|]. rewrite Ha. exact IH.
Qed.

Lemma filter_filter_same {A : Type} (p : A -> bool) (l : list A) :
  filter p (filter p l) = filter p l.
Proof.
  induction l as [|a l IH]; simpl; [reflexivity|].
  destruct (p a) eqn:Ha; simpl; rewrite ?Ha, IH; reflexivity.
Qed.

(** Deleting from the history removes every entry with that id and nothing
    else, keeps the order of the others, changes nothing outside the stored
    history, and does nothing the second time; after it the continue button
    of that id has no effect, and an id that is not in the history deletes
    nothing. *)
Theorem deleteFromHistory_removes_exactly_that_id (id : Z) (w : World) :
  (forall x, In x (history (store (deleteFromHistory id w)))
             <-> In x (history (store w)) /\ e_id x <> id)
  /\ history (store (deleteFromHistory id w))
     = filter (fun x => negb (e_id x =? id)) (history (store w))
  /\ st (deleteFromHistory id w) = st w
  /\ host (deleteFromHistory id w) = host w
  /\ el (deleteFromHistory id w) = el w
  /\ draft (store (deleteFromHistory id w)) = draft (store w)
  /\ settings (store (deleteFromHistory id w)) = settings (store w)
  /\ deleteFromHistory id (deleteFromHistory id w) = deleteFromHistory id w
  /\ continueFromHistory id (deleteFromHistory id w) = deleteFromHistory id w
  /\ ((forall x, In x (history (store w)) -> e_id x <> id) ->
      history (store (deleteFromHistory id w)) = history (store w)).
Proof.
  split.
  { intros x. unfold deleteFromHistory. cbn [store with_store history].
    rewrite filter_In. destruct (Z.eqb_spec (e_id x) id); simpl;
      intuition congruence. }
  repeat (split; [reflexivity|]).
  split.
  { unfold deleteFromHistory, with_store. cbn [store history draft settings st el host].
    rewrite filter_filter_same. reflexivity. }
  split.
  { unfold continueFromHistory, getHistory, deleteFromHistory.
    cbn [store with_store history]. rewrite find_filter_none. reflexivity. }
  intros Hnone. unfold deleteFromHistory. cbn [store with_store history].
  induction (history (store w)) as [|a h IH]; simpl; [reflexivity|].
  destruct (Z.eqb_spec (e_id a) id) as [E|E]; simpl.
  - exfalso. exact (Hnone a (or_introl eq_refl) E).
  - f_equal. apply IH. intros x Hx. apply Hnone. right. exact Hx.
Qed.

Lemma startSession_text (text : jsstring) (w : World) :
  textArea_value (el (startSession (Some text) w)) = text
  /\ wordCount_text (el (startSession (Some text) w)) = countWords text
  /\ isActive (st (startSession (Some text) w)) = true
  /\ startTime (st (startSession (Some text) w)) = Some (now (host w))
  /\ textArea_disabled (el (startSession (Some text) w)) = false
  /\ store (startSession (Some text) w) = store w.
Proof. repeat split. Qed.

(** The continue button resets an active session before it starts the new
    one: from a world of a disciplined run it leads to a world of a
    disciplined run, active or not before, so it never leaves a second chain
    of callbacks.  The session it starts holds the text of the entry, shows
    its word count, and counts its elapsed time and its grace period from the
    click.  An id that is not in the history changes nothing. *)
Theorem continueFromHistory_restarts_cleanly (la : Z) (id : Z) (w : World) :
  Inv la w ->
  match find (fun h => e_id h =? id) (history (store w)) with
  | Some entry =>
      Inv (now (host w)) (continueFromHistory id w)
      /\ one_chain (continueFromHistory id w)
      /\ chains CbCountdown (continueFromHistory id w) = 0%nat
      /\ textArea_value (el (continueFromHistory id w)) = e_text entry
      /\ wordCount_text (el (continueFromHistory id w)) = countWords (e_text entry)
      /\ isActive (st (continueFromHistory id w)) = true
      /\ startTime (st (continueFromHistory id w)) = Some (now (host w))
      /\ store (continueFromHistory id w) = store w
  | None => continueFromHistory id w = w
  end.
Proof.
  intros I. unfold continueFromHistory, getHistory.
  destruct (find _ (history (store w))) as [entry|]; [|reflexivity].
  set (w1 := if isActive (st w) then resetSession w else w).
  assert (I1 : Inv la w1)
    by (subst w1; destruct (isActive (st w)); [apply (inv_resetSession la la), I | exact I]).
  assert (Ha1 : isActive (st w1) = false)
    by (subst w1; destruct (isActive (st w)) eqn:Ha; [reflexivity | exact Ha]).
  assert (Hnow : now (host w1) = now (host w))
    by (subst w1; destruct (isActive (st w)); [apply now_resetSession | reflexivity]).
  assert (Hstore : store w1 = store w)
    by (subst w1; destruct (isActive (st w)); reflexivity).
  pose proof (inv_startSession la (Some (e_text entry)) w1 I1 Ha1) as I2.
  rewrite Hnow in I2.
  destruct (startSession_text (e_text entry) w1) as (H1 & H2 & H3 & H4 & _ & H6).
  split; [exact I2|]. split; [exact (inv_one_chain _ _ I2)|].
  split.
  { unfold chains.
    destruct (filter _ _) as [|a r] eqn:Hf; [reflexivity|]. exfalso.
    assert (Hin : In a (filter (fun tm => cb_eqb (cb tm) CbCountdown)
                          (timers (host (startSession (Some (e_text entry)) w1)))))
      by (rewrite Hf; left; reflexivity).
    apply filter_In in Hin. destruct Hin as [Hin Hc].
    assert (Hcb : cb a = CbCountdown) by (destruct (cb a); simpl in Hc; congruence).
    destruct (inv_countdown _ _ I2 a Hin Hcb) as (Hid & _).
    rewrite (inv_phase _ _ I2) in Hid; [discriminate|].
    destruct (startSession_schedules (Some (e_text entry)) w1) as [_ Hg].
    rewrite Hg. discriminate. }
  rewrite H4, Hnow, H6, Hstore. auto.
Qed.

(** After the example session has begun to decay, a continue click on a
    stored entry. *)
Lemma continueFromHistory_witness :
  let w := with_store (fun s => mkStorage (draft s) (settings s)
                                  [mkEntry 7 (units "a b c") 3 7]) decaying in
  isActive (st w) = true
  /\ chains CbCountdown w = 1%nat
  /\ one_chain (continueFromHistory 7 w).
Proof.
  intros w. split; [reflexivity|]. split; [reflexivity|].
  assert (I : Inv 1000000 w).
  { apply inv_with_store.
    apply (run_inv to_decaying 1000000 fresh decaying (seen to_decaying fresh)).
    - apply inv_boot. reflexivity.
    - vm_compute. reflexivity.
    - apply run_computed. vm_compute. exact I. }
  exact (proj1 (proj2 (continueFromHistory_restarts_cleanly 1000000 7 w I))).
Defined.

(** A text of at least three words that the countdown destroys can be
    taken up again: the entry archived at the destruction carries the clock
    of that moment as its id, and the continue button of that id starts a
    session on the trimmed text. *)
Theorem destroyed_text_can_be_continued (w : World) :
  (3 <= countWords (textArea_value (el w)))%nat ->
  let w1 := fst (handleTextDeletion w) in
  let w2 := continueFromHistory (now (host w)) w1 in
  textArea_value (el w1) = []
  /\ textArea_value (el w2) = trim (textArea_value (el w))
  /\ wordCount_text (el w2) = countWords (textArea_value (el w))
  /\ isActive (st w2) = true.
Proof.
  intros H3 w1 w2.
  assert (Hfind : find (fun h => e_id h =? now (host w)) (history (store w1))
                  = Some (mkEntry (now (host w)) (trim (textArea_value (el w)))
                                  (countWords (textArea_value (el w)))
                                  (now (host w)))).
  { subst w1. rewrite handleTextDeletion_history.
    apply Nat.leb_le in H3. rewrite H3.
    destruct (saveToHistory_head (trim (textArea_value (el w)))
                (countWords (textArea_value (el w))) w) as (rest & E).
    rewrite E. simpl. rewrite Z.eqb_refl. reflexivity. }
  split.
  { subst w1. unfold handleTextDeletion. cbv zeta. unfold fst.
    destruct (_ && _); reflexivity. }
  subst w2. unfold continueFromHistory, getHistory. rewrite Hfind.
  cbn [e_text].
  match goal with |- context [startSession _ ?x] =>
    destruct (startSession_text (trim (textArea_value (el w))) x)
      as (E1 & E2 & E3 & _) end.
  rewrite E1, E2, E3, countWords_trim. auto.
Qed.

(** The sentence of the fox, destroyed and taken up again. *)
Lemma destroyed_text_continued_witness :
  (3 <= countWords (units " the quick brown fox "))%nat
  /\ textArea_value
       (el (continueFromHistory 1000000
              (fst (handleTextDeletion
                      (with_el (ui_value (units " the quick brown fox ")) fresh)))))
     = units "the quick brown fox".
Proof.
  split; [vm_compute; lia|].
  exact (proj1 (proj2 (destroyed_text_can_be_continued
                         (with_el (ui_value (units " the quick brown fox ")) fresh)
                         (proj1 (Nat.leb_le 3 4) eq_refl)))).
Defined.

(** ** The draft *)

(** Saving a draft and loading it gives the text back: [saveDraft] stores
    the text of the text area as it is with its word count and the clock,
    and leaves the state of the module alone; wherever that draft is still
    stored, [loadDraft] starts a session on exactly that text, provided it is
    not empty.  An empty draft, or none, loads nothing. *)
Theorem draft_round_trip (w : World) :
  let text := textArea_value (el w) in
  draft (store (saveDraft w)) = Some (mkDraft text (countWords text) (now (host w)))
  /\ st (saveDraft w) = st w
  /\ textArea_value (el (saveDraft w)) = text
  /\ (forall w2, draft (store w2) = draft (store (saveDraft w)) ->
        match text with
        | [] => loadDraft w2 = w2
        | _ => textArea_value (el (loadDraft w2)) = text
               /\ wordCount_text (el (loadDraft w2)) = countWords text
               /\ isActive (st (loadDraft w2)) = true
               /\ textArea_disabled (el (loadDraft w2)) = false
        end)
  /\ (forall w2, draft (store w2) = None -> loadDraft w2 = w2).
Proof.
  intros text.
  assert (Hd : draft (store (saveDraft w))
               = Some (mkDraft text (countWords text) (now (host w)))).
  { unfold saveDraft, saveToHistory. cbv zeta. fold text.
    destruct (_ && _); reflexivity. }
  split; [exact Hd|].
  split; [unfold saveDraft, saveToHistory; cbv zeta; destruct (_ && _); reflexivity|].
  split; [unfold saveDraft, saveToHistory; cbv zeta; destruct (_ && _); reflexivity|].
  split.
  - intros w2 E. rewrite Hd in E. unfold loadDraft. rewrite E. cbn [d_text].
    destruct text as [|c text']; [reflexivity|].
    destruct (startSession_text (c :: text') w2) as (E1 & E2 & E3 & _ & E5 & _).
    auto.
  - intros w2 E. unfold loadDraft. rewrite E. reflexivity.
Qed.

(** ** The settings *)

Lemma timeout_or_default_in_range (q : Q) :
  in_range q -> timeout_or_default (Some q) = q.
Proof.
  intros (n & Hn & E). subst q. unfold timeout_or_default.
  destruct (Qeq_bool (inject_Z n) 0) eqn:H0; [|reflexivity].
  apply Qeq_bool_iff in H0. unfold Qeq, inject_Z in H0. simpl in H0. lia.
Qed.

(** What [saveSettings] stores, [loadSettings] restores at the next
    start-up: the timeout, unless it is 0, and the light mode, on a page
    served dark.  With nothing stored start-up keeps the default of 5; a
    stored object without a timeout, or with 0, gives 5 as well. *)
Theorem settings_round_trip (w : World) (page : Elements) (t0 : Z) :
  Qeq_bool (timeoutSeconds (st w)) 0 = false ->
  body_lightMode page = false ->
  let w' := boot page (store (saveSettings w)) t0 in
  timeoutSeconds (st w') = timeoutSeconds (st w)
  /\ pauseTimer_text (el w') = timeoutSeconds (st w)
  /\ body_lightMode (el w') = body_lightMode (el w)
  /\ (forall stored, settings stored = None ->
        boot page stored t0
        = mkWorld initial_state page (mkHost t0 1%positive []) stored)
  /\ (forall stored l,
        settings stored = Some (mkSettings None l)
        \/ settings stored = Some (mkSettings (Some 0%Q) l) ->
        timeoutSeconds (st (boot page stored t0)) = 5%Q).
Proof.
  intros HT Hdark w'. subst w'. unfold boot, loadSettings, saveSettings.
  cbn [store with_store settings s_timeout s_lightMode timeout_or_default].
  rewrite HT.
  split; [destruct (body_lightMode (el w)); reflexivity|].
  split; [destruct (body_lightMode (el w)); reflexivity|].
  split; [destruct (body_lightMode (el w)); simpl; auto|].
  split.
  - intros stored E. rewrite E. reflexivity.
  - intros stored l [E|E]; rewrite E; destruct l; reflexivity.
Qed.

(** The setting changed to 12 and the theme switched to light, then a new
    start-up. *)
Lemma settings_round_trip_witness :
  timeoutSeconds
    (st (boot page_served
           (store (handleDarkModeToggle (handleTimeoutChange (units "12") fresh)))
           2000000)) = 12%Q
  /\ body_lightMode
       (el (boot page_served
              (store (handleDarkModeToggle (handleTimeoutChange (units "12") fresh)))
              2000000)) = true.
Proof.
  pose proof (settings_round_trip
                (with_el (fun e => ui_lightMode (negb (body_lightMode e)) e)
                   (handleTimeoutChange (units "12") fresh))
                page_served 2000000 eq_refl eq_refl) as H.
  cbv zeta in H. destruct H as (H1 & _ & H3 & _).
  split; [exact H1 | exact H3].
Defined.

Lemma settings_handleTextDeletion (w : World) :
  settings (store (fst (handleTextDeletion w))) = settings (store w).
Proof.
  unfold handleTextDeletion, saveToHistory. cbv zeta. unfold fst.
  destruct (_ && _); reflexivity.
Qed.

Lemma settings_handle (e : Event) (w : World) :
  (forall v, e <> TimeoutSettingChanged v) -> e <> ThemeToggled ->
  settings (store (fst (handle e w))) = settings (store w).
Proof.
  intros Hv Ht. destruct e; cbn [handle fst]; try reflexivity.
  - destruct (isActive (st w)); reflexivity.
  - unfold saveDraft, saveToHistory. cbv zeta. destruct (_ && _); reflexivity.
  - unfold loadDraft. destruct (draft (store w)) as [d|]; [|reflexivity].
    destruct (d_text d); reflexivity.
  - unfold continueFromHistory. destruct (find _ _); [|reflexivity].
    destruct (isActive (st w)); reflexivity.
  - exfalso. exact (Hv value eq_refl).
  - exfalso. exact (Ht eq_refl).
  - destruct (lookup_timer id (host w)) as [tm|]; [|reflexivity].
    destruct (cb tm); cbn [fire fst]; try reflexivity.
    + rewrite countdownSample_sampled. destruct (Qle_bool _ 0); cbn [fst].
      * rewrite settings_handleTextDeletion, store_sampled. reflexivity.
      * rewrite store_sampled. reflexivity.
    + unfold elapsedTick. destruct (_ && _); reflexivity.
Qed.

Lemma handle_in_range (e : Event) (w : World) :
  in_range (timeoutSeconds (st w)) -> settings_in_range (store w) ->
  in_range (timeoutSeconds (st (fst (handle e w))))
  /\ settings_in_range (store (fst (handle e w))).
Proof.
  intros HT Hs.
  destruct e;
    try (split;
         [ rewrite handle_timeout by discriminate; exact HT
         | unfold settings_in_range;
           rewrite settings_handle by discriminate; exact Hs ]).
  - cbn [handle fst]. unfold handleTimeoutChange.
    destruct (parseInt value) as [n|]; [|auto].
    destruct ((1 <=? n) && (n <=? 30)) eqn:Hr; [|auto].
    apply andb_true_iff in Hr. destruct Hr as [H1 H2].
    apply Z.leb_le in H1. apply Z.leb_le in H2.
    split; [|unfold settings_in_range]; simpl; exists n; auto.
  - cbn [handle fst]. split; [exact HT|].
    unfold settings_in_range. simpl. exact HT.
Qed.

Lemma run_in_range (tr : list (Z * Event)) :
  forall w w' obs,
    in_range (timeoutSeconds (st w)) -> settings_in_range (store w) ->
    run tr w = Some (w', obs) ->
    in_range (timeoutSeconds (st w')) /\ settings_in_range (store w').
Proof.
  induction tr as [|[t e] tr IH]; intros w w' obs HT Hs Hrun; simpl in Hrun.
  - injection Hrun as Hw _. subst. auto.
  - destruct (step t e w) as [[w1 o]|] eqn:Hstep; [|discriminate].
    destruct (run tr w1) as [[w2 o2]|] eqn:Hr; [|discriminate].
    injection Hrun as Hw _. subst w2.
    apply step_unfold in Hstep. destruct Hstep as (_ & _ & Hh).
    destruct (handle_in_range e (with_host (set_clock t) w) HT Hs) as [HT1 Hs1].
    rewrite Hh in HT1, Hs1. exact (IH w1 w' o2 HT1 Hs1 Hr).
Qed.

Lemma boot_store (page : Elements) (stored : Storage) (t0 : Z) :
  store (boot page stored t0) = stored.
Proof.
  unfold boot, loadSettings. cbn [store].
  destruct (settings stored) as [s|]; [destruct (s_lightMode s)|]; reflexivity.
Qed.

Lemma boot_timeout (page : Elements) (stored : Storage) (t0 : Z) :
  timeoutSeconds (st (boot page stored t0))
  = match settings stored with
    | Some s => timeout_or_default (s_timeout s)
    | None => CONFIG_DEFAULT_TIMEOUT
    end.
Proof.
  unfold boot, loadSettings. cbn [store].
  destruct (settings stored) as [s|]; [destruct (s_lightMode s)|]; reflexivity.
Qed.

(** If the settings store holds no timeout or a whole number from 1 to 30
    at start-up, then at every point of every run [timeoutSeconds] is a whole
    number from 1 to 30, and so is the timeout in the settings store: the
    page itself never stores a value that a later start-up would apply out
    of range. *)
Theorem timeout_stays_in_range
    (page : Elements) (stored : Storage) (t0 : Z) (tr : list (Z * Event))
    (w : World) (obs : list (Z * Obs)) :
  settings_in_range stored ->
  run tr (boot page stored t0) = Some (w, obs) ->
  in_range (timeoutSeconds (st w)) /\ settings_in_range (store w).
Proof.
  intros Hs Hrun.
  apply (run_in_range tr (boot page stored t0) w obs); [| |exact Hrun].
  - rewrite boot_timeout. unfold settings_in_range in Hs.
    destruct (settings stored) as [s|]; [|exists 5; split; [lia | reflexivity]].
    destruct (s_timeout s) as [q|].
    + rewrite (timeout_or_default_in_range q Hs). exact Hs.
    + exists 5. split; [lia | reflexivity].
  - rewrite boot_store. exact Hs.
Qed.

(** The setting is changed to 2, then to 31, in the example phase. *)
Lemma timeout_in_range_witness :
  settings_in_range empty_storage
  /\ in_range (timeoutSeconds
                 (st (after (change_in_decay "2"
                             ++ [(1001060, TimeoutSettingChanged (units "31"))])
                            fresh))).
Proof.
  assert (Hs : settings_in_range empty_storage) by exact I.
  split; [exact Hs|].
  refine (proj1 (timeout_stays_in_range page_served empty_storage 1000000
                   (change_in_decay "2"
                    ++ [(1001060, TimeoutSettingChanged (units "31"))])
                   _ _ Hs (run_computed _ fresh _))).
  vm_compute. exact I.
Defined.

(** ** The elapsed time *)

Lemma formatTime_floor (t : Q) :
  (0 <= t)%Q -> formatTime t = (Qfloor t / 60, Qfloor t mod 60).
Proof.
  destruct t as [n d]. intros H. unfold Qle in H. simpl in H.
  assert (Hn : 0 <= n) by lia.
  unfold formatTime. f_equal.
  - unfold Qdiv, Qmult, Qinv, Qfloor. simpl.
    rewrite Z.mul_1_r, Pos2Z.inj_mul, Z.div_div by lia. reflexivity.
  - unfold Qtrunc, Qdiv, Qmult, Qinv, Qminus, Qplus, Qopp, inject_Z, Qfloor.
    cbn [Qnum Qden]. rewrite !Z.mul_1_r, Pos.mul_1_r.
    rewrite Z.quot_div_nonneg by lia.
    rewrite Pos2Z.inj_mul, <- Z.div_div by lia.
    set (q := n / Z.pos d).
    replace (n + - (60 * (q / 60) * 1) * Z.pos d)
      with (n + (- (60 * (q / 60))) * Z.pos d) by lia.
    rewrite Z.div_add by lia. fold q.
    rewrite (Z.mod_eq q 60) by lia. lia.
Qed.

(** For the arguments it is called on, a whole number of milliseconds
    from 0 to below 10^15 divided by 1000, [formatTime] splits the whole
    seconds into minutes and seconds: the seconds are between 0 and 59, the
    minutes are the whole minutes, and 60 minutes + seconds is the number of
    whole seconds. *)
Theorem formatTime_splits_whole_seconds (ms : Z) :
  0 <= ms < 1000000000000000 ->
  let (minutes, seconds) := formatTime (ms # 1000) in
  0 <= seconds < 60
  /\ minutes = ms / 60000
  /\ 60 * minutes + seconds = ms / 1000.
Proof.
  intros H.
  assert (H0 : (0 <= ms # 1000)%Q) by (unfold Qle; simpl; lia).
  rewrite (formatTime_floor (ms # 1000) H0).
  change (Qfloor (ms # 1000)) with (ms / 1000).
  split; [apply Z.mod_pos_bound; lia|].
  split; [rewrite Z.div_div by lia; reflexivity|].
  rewrite (Z.mod_eq (ms / 1000) 60) by lia. lia.
Qed.

(** Two minutes and five seconds. *)
Lemma formatTime_witness :
  0 <= 125000 < 1000000000000000
  /\ (let (minutes, seconds) := formatTime (125000 # 1000) in
      0 <= seconds < 60
      /\ minutes = 125000 / 60000
      /\ 60 * minutes + seconds = 125000 / 1000).
Proof.
  assert (H : 0 <= 125000 < 1000000000000000) by lia.
  split; [exact H|].
  exact (formatTime_splits_whole_seconds 125000 H).
Defined.

(** While a session is active the callback of the elapsed-time interval
    shows the whole seconds since the start of the session, as minutes and
    seconds below 60, and changes nothing else.  With no session active it
    changes nothing at all, and neither with no start time recorded, which
    is how [resetSession] and [handleTextDeletion] leave the state. *)
Theorem elapsedTick_shows_time_since_start (w : World) :
  (forall s,
     isActive (st w) = true -> startTime (st w) = Some s -> s <> 0 ->
     s <= now (host w) -> now (host w) - s < 1000000000000000 ->
     elapsedTime_text (el (elapsedTick w))
     = ((now (host w) - s) / 1000 / 60, (now (host w) - s) / 1000 mod 60)
     /\ st (elapsedTick w) = st w
     /\ host (elapsedTick w) = host w
     /\ store (elapsedTick w) = store w
     /\ textArea_value (el (elapsedTick w)) = textArea_value (el w)
     /\ textArea_filter (el (elapsedTick w)) = textArea_filter (el w))
  /\ (isActive (st w) = false -> elapsedTick w = w)
  /\ (startTime (st w) = None -> elapsedTick w = w)
  /\ (startTime (st w) = Some 0 -> elapsedTick w = w)
  /\ startTime (st (resetSession w)) = None
  /\ startTime (st (fst (handleTextDeletion w))) = None
  /\ elapsedTick (resetSession w) = resetSession w
  /\ elapsedTick (fst (handleTextDeletion w)) = fst (handleTextDeletion w).
Proof.
  assert (Hd : startTime (st (fst (handleTextDeletion w))) = None).
  { unfold handleTextDeletion. cbv zeta. unfold fst. destruct (_ && _); reflexivity. }
  split.
  { intros s Ha Hs Hs0 Hle _. unfold elapsedTick. rewrite Hs, Ha.
    cbn [truthy_time null_to_zero].
    replace (s =? 0) with false by (symmetry; apply Z.eqb_neq; exact Hs0).
    cbn [negb andb]. repeat split. cbn [el with_el ui_elapsed elapsedTime_text].
    rewrite formatTime_floor; [reflexivity|].
    unfold Qle. simpl. lia. }
  split.
  { intros Ha. unfold elapsedTick. rewrite Ha, andb_false_r. reflexivity. }
  split; [intros Hs; unfold elapsedTick; rewrite Hs; reflexivity|].
  split; [intros Hs; unfold elapsedTick; rewrite Hs; reflexivity|].
  split; [reflexivity|]. split; [exact Hd|]. split; [reflexivity|].
  unfold elapsedTick. rewrite Hd. reflexivity.
Qed.

(** The example session, 125 seconds after its start; and the idle page at
    start-up. *)
Lemma elapsedTick_witness :
  startTime (st (at_clock 1125000 decaying)) = Some 1000000
  /\ elapsedTime_text (el (elapsedTick (at_clock 1125000 decaying))) = (2, 5)
  /\ isActive (st fresh) = false
  /\ elapsedTick fresh = fresh.
Proof.
  split; [reflexivity|].
  assert (Hne : 1000000 <> 0) by discriminate.
  assert (Hle : 1000000 <= now (host (at_clock 1125000 decaying)))
    by (vm_compute; discriminate).
  assert (Hb : now (host (at_clock 1125000 decaying)) - 1000000 < 1000000000000000)
    by (vm_compute; reflexivity).
  destruct (elapsedTick_shows_time_since_start (at_clock 1125000 decaying))
    as [H _].
  destruct (H 1000000 eq_refl eq_refl Hne Hle Hb) as (E & _).
  split; [rewrite E; reflexivity|].
  split; [reflexivity|].
  exact (proj1 (proj2 (elapsedTick_shows_time_since_start fresh)) eq_refl).
Defined.

(** ** The heartbeat *)

Lemma countdownSample_beat (w : World) :
  exists rest,
    snd (countdownSample w)
    = DecayTick (progress_of w) (remaining_of w)
                (heartbeatCount (st w) <? Qfloor (elapsed_of w)) :: rest.
Proof.
  rewrite countdownSample_sampled. destruct (Qle_bool _ 0); cbn [snd]; eauto.
Qed.

(** A sample beats exactly when the whole seconds of the decay exceed the
    count of beats so far, and then records that number and the clock; so
    after a sample that leaves the text alone the count is the larger of the
    old count and the whole seconds elapsed, and a later sample of the phase
    that falls into the same whole second does not beat again. *)
Theorem heartbeat_once_per_whole_second (w : World) :
  ~ (remaining_of w <= 0)%Q ->
  let w1 := fst (countdownSample w) in
  let beat := heartbeatCount (st w) <? Qfloor (elapsed_of w) in
  snd (countdownSample w) = [DecayTick (progress_of w) (remaining_of w) beat]
  /\ heartbeatCount (st w1) = Z.max (heartbeatCount (st w)) (Qfloor (elapsed_of w))
  /\ (beat = true ->
      lastBeatTime (st w1) = Some (now (host w))
      /\ wrapper_heartbeat (el w1) = true)
  /\ (beat = false ->
      lastBeatTime (st w1) = lastBeatTime (st w)
      /\ wrapper_heartbeat (el w1) = wrapper_heartbeat (el w))
  /\ forall t2,
       Qfloor (elapsed_of (at_clock t2 w1)) <= Qfloor (elapsed_of w) ->
       exists p r rest,
         snd (countdownSample (at_clock t2 w1)) = DecayTick p r false :: rest.
Proof.
  intros Hr w1 beat.
  assert (Hq : Qle_bool (remaining_of w) 0 = false).
  { destruct (Qle_bool (remaining_of w) 0) eqn:E; [|reflexivity].
    apply Qle_bool_iff in E. contradiction. }
  assert (Hw1 : w1 = sampled w)
    by (subst w1; rewrite countdownSample_sampled, Hq; reflexivity).
  assert (Hhb : heartbeatCount (st w1)
                = Z.max (heartbeatCount (st w)) (Qfloor (elapsed_of w))).
  { rewrite Hw1. unfold sampled. cbv zeta. cbn [st with_el].
    destruct (heartbeatCount (st w) <? Qfloor (elapsed_of w)) eqn:E.
    - apply Z.ltb_lt in E. rewrite Z.max_r by lia. reflexivity.
    - apply Z.ltb_ge in E. rewrite Z.max_l by lia. reflexivity. }
  split; [rewrite countdownSample_sampled, Hq; reflexivity|].
  split; [exact Hhb|].
  split.
  { intros Hb. rewrite Hw1. unfold sampled. cbv zeta. cbn [st with_el].
    fold beat. rewrite Hb. split; reflexivity. }
  split.
  { intros Hb. rewrite Hw1. unfold sampled. cbv zeta. cbn [st with_el].
    fold beat. rewrite Hb. split; reflexivity. }
  intros t2 Hsame.
  destruct (countdownSample_beat (at_clock t2 w1)) as (rest & E).
  exists (progress_of (at_clock t2 w1)), (remaining_of (at_clock t2 w1)), rest.
  rewrite E. f_equal. f_equal.
  change (heartbeatCount (st (at_clock t2 w1))) with (heartbeatCount (st w1)).
  rewrite Hhb. apply Z.ltb_ge. lia.
Qed.

(** The example phase sampled 1000 ms and again 1100 ms after it began:
    the first sample beats, the second does not. *)
Lemma heartbeat_witness :
  ~ (remaining_of (at_clock 1002000 decaying) <= 0)%Q
  /\ snd (countdownSample (at_clock 1002000 decaying))
     = [DecayTick (progress_of (at_clock 1002000 decaying))
                  (remaining_of (at_clock 1002000 decaying)) true]
  /\ exists p r rest,
       snd (countdownSample
              (at_clock 1002100 (fst (countdownSample (at_clock 1002000 decaying)))))
       = DecayTick p r false :: rest.
Proof.
  assert (H : ~ (remaining_of (at_clock 1002000 decaying) <= 0)%Q)
    by (vm_compute; intros E; apply E; reflexivity).
  split; [exact H|].
  destruct (heartbeat_once_per_whole_second (at_clock 1002000 decaying) H)
    as (H1 & _ & _ & _ & H5).
  split; [exact H1|].
  apply H5. vm_compute. discriminate.
Defined.

(** ** The page along a run *)

Lemma cb_eqb_eq (a b : Callback) : cb_eqb a b = true <-> a = b.
Proof. destruct a, b; simpl; split; intros H; congruence. Qed.

Lemma chains_pos (c : Callback) (w : World) (tm : Timer) :
  In tm (timers (host w)) -> cb tm = c -> (1 <= chains c w)%nat.
Proof.
  intros Hin Hcb. unfold chains.
  assert (H : In tm (filter (fun x => cb_eqb (cb x) c) (timers (host w))))
    by (apply filter_In; split; [exact Hin | apply cb_eqb_eq; exact Hcb]).
  destruct (filter _ _); [destruct H | simpl; lia].
Qed.

Lemma chains_zero (c : Callback) (w : World) :
  (forall tm, In tm (timers (host w)) -> cb tm <> c) -> chains c w = 0%nat.
Proof.
  intros Hno. unfold chains.
  destruct (filter _ _) as [|a r] eqn:Hf; [reflexivity|]. exfalso.
  assert (H : In a (filter (fun x => cb_eqb (cb x) c) (timers (host w))))
    by (rewrite Hf; left; reflexivity).
  apply filter_In in H. destruct H as [Hin Hc]. apply cb_eqb_eq in Hc.
  exact (Hno a Hin Hc).
Qed.

(** In a run from start-up in which a session is started only when none is
    active, a session is never without its countdown and an idle page never
    has one: exactly one of the grace timeout and the sampling interval is
    pending while a session is active, none of the engine's timers
    otherwise.  The controls follow: the text area is enabled, the start
    button hidden and the save and reset buttons enabled exactly while a
    session is active. *)
Theorem active_session_has_exactly_one_countdown
    (page : Elements) (stored : Storage) (t0 : Z) (tr : list (Z * Event))
    (w : World) (obs : list (Z * Obs)) :
  idle_page page = true ->
  starts_when_idle t0 (boot page stored t0) tr = true ->
  run tr (boot page stored t0) = Some (w, obs) ->
  (chains CbGrace w + chains CbCountdown w)%nat
  = (if isActive (st w) then 1 else 0)%nat
  /\ (isActive (st w) = false -> chains CbElapsed w = 0%nat)
  /\ textArea_disabled (el w) = negb (isActive (st w))
  /\ startButton_shown (el w) = negb (isActive (st w))
  /\ saveButton_disabled (el w) = negb (isActive (st w))
  /\ resetButton_disabled (el w) = negb (isActive (st w)).
Proof.
  intros Hpage Hal Hrun.
  pose proof (run_inv tr t0 _ _ _ (inv_boot t0 page stored t0 Hpage) Hal Hrun) as I.
  destruct (disciplined_runs_keep_one_chain page stored t0 tr w obs Hpage Hal Hrun)
    as [_ Hsum].
  destruct (inv_page _ _ I) as (P1 & P2 & P3 & P4).
  assert (Hidle : isActive (st w) = false ->
                  forall c, c = CbGrace \/ c = CbCountdown \/ c = CbElapsed ->
                            chains c w = 0%nat).
  { intros Ha c Hc. apply chains_zero. intros tm Htm Hcb.
    pose proof (active_of_engine_timer _ _ tm I Htm) as Hact.
    rewrite Hcb in Hact. rewrite Hact in Ha; [discriminate | exact Hc]. }
  split.
  { destruct (isActive (st w)) eqn:Ha.
    - destruct (inv_live _ _ I Ha) as (tm & Htm & [Hcb|Hcb]).
      + pose proof (chains_pos CbGrace w tm Htm Hcb). lia.
      + pose proof (chains_pos CbCountdown w tm Htm Hcb). lia.
    - rewrite (Hidle eq_refl CbGrace), (Hidle eq_refl CbCountdown); auto. }
  split; [intros Ha; apply (Hidle Ha); auto|].
  auto.
Qed.

(** The example session in its decay: the sampling interval is pending and
    no grace timeout. *)
Lemma one_countdown_witness :
  idle_page page_served = true
  /\ starts_when_idle 1000000 fresh to_decaying = true
  /\ (chains CbGrace decaying + chains CbCountdown decaying)%nat = 1%nat.
Proof.
  assert (Hal : starts_when_idle 1000000 fresh to_decaying = true)
    by (vm_compute; reflexivity).
  assert (Hrun : run to_decaying fresh = Some (decaying, seen to_decaying fresh))
    by (apply run_computed; vm_compute; exact I).
  split; [reflexivity|]. split; [exact Hal|].
  exact (proj1 (active_session_has_exactly_one_countdown page_served empty_storage
                  1000000 to_decaying decaying _ eq_refl Hal Hrun)).
Defined.

(** ** The preview of an entry *)

Lemma replaceAll_removes (c : N) (r s : jsstring) :
  ~ In c r -> ~ In c (replaceAll c r s).
Proof.
  intros Hr. induction s as [|x s IH]; simpl; [tauto|].
  intros H. apply in_app_or in H. destruct H as [H|H]; [|exact (IH H)].
  destruct (N.eqb_spec x c) as [E|E]; [exact (Hr H)|].
  destruct H as [H|[]]. congruence.
Qed.

Lemma replaceAll_keeps_out (c d : N) (r s : jsstring) :
  ~ In d r -> ~ In d s -> ~ In d (replaceAll c r s).
Proof.
  intros Hr. induction s as [|x s IH]; simpl; [tauto|].
  intros Hs H. apply in_app_or in H. destruct H as [H|H].
  - destruct (x =? c)%N; [exact (Hr H)|]. destruct H as [H|[]]. auto.
  - apply IH; [|exact H]. tauto.
Qed.

Lemma replaceAll_absent (c : N) (r s : jsstring) :
  ~ In c s -> replaceAll c r s = s.
Proof.
  induction s as [|x s IH]; simpl; [reflexivity|]. intros H.
  destruct (N.eqb_spec x c) as [E|E]; [exfalso; auto|].
  simpl. f_equal. apply IH. tauto.
Qed.

(** The preview that [renderHistory] puts into the page holds neither [<]
    nor [>], whatever the stored text: no tag can be opened from the text of
    an entry.  The text is cut to 120 code units, followed by three dots,
    before it is escaped; a text of at most 120 code units without angle
    brackets is shown as it is. *)
Theorem previewHtml_has_no_angle_brackets (text : jsstring) :
  ~ In 60%N (previewHtml text)
  /\ ~ In 62%N (previewHtml text)
  /\ (List.length (preview text) <= 123)%nat
  /\ ((List.length text <= 120)%nat -> preview text = text)
  /\ ((120 < List.length text)%nat ->
      preview text = firstn 120 text ++ units "...")
  /\ ((List.length text <= 120)%nat -> ~ In 60%N text -> ~ In 62%N text ->
      previewHtml text = text).
Proof.
  unfold previewHtml.
  split.
  { apply replaceAll_keeps_out.
    - vm_compute. intuition discriminate.
    - apply replaceAll_removes. vm_compute. intuition discriminate. }
  split.
  { apply replaceAll_removes. vm_compute. intuition discriminate. }
  assert (Hshort : (List.length text <= 120)%nat -> preview text = text).
  { intros H. unfold preview. apply Nat.ltb_ge in H. rewrite H. reflexivity. }
  assert (Hlong : (120 < List.length text)%nat ->
                  preview text = firstn 120 text ++ units "...").
  { intros H. unfold preview. apply Nat.ltb_lt in H. rewrite H. reflexivity. }
  split.
  { destruct (Nat.le_gt_cases (List.length text) 120) as [H|H].
    - rewrite (Hshort H). lia.
    - rewrite (Hlong H), length_app.
      pose proof (firstn_le_length 120 text) as Hf.
      change (List.length (units "...")) with 3%nat. lia. }
  split; [exact Hshort|]. split; [exact Hlong|].
  intros H Hlt Hgt. rewrite (Hshort H).
  rewrite (replaceAll_absent 60 _ text Hlt). apply replaceAll_absent. exact Hgt.
Qed.

(** ** The date of an entry *)

(** [formatDate] says "Just now" for less than a minute, and for any date in
    the future; then whole minutes from 1 to 59, then whole hours from 1 to
    23, each rounded down; from a full day on it shows the date itself. *)
Theorem formatDate_ranges (savedAt now : Z) :
  match formatDate savedAt now with
  | JustNow => now - savedAt < 60000
  | MinutesAgo n =>
      1 <= n <= 59 /\ 60000 * n <= now - savedAt < 60000 * (n + 1)
  | HoursAgo n =>
      1 <= n <= 23 /\ 3600000 * n <= now - savedAt < 3600000 * (n + 1)
  | LocaleDate d => d = savedAt /\ 86400000 <= now - savedAt
  end.
Proof.
  unfold formatDate. cbv zeta.
  destruct (now - savedAt <? 60000) eqn:H1; [apply Z.ltb_lt in H1; exact H1|].
  apply Z.ltb_ge in H1.
  destruct (now - savedAt <? 3600000) eqn:H2.
  { apply Z.ltb_lt in H2.
    pose proof (Z.div_mod (now - savedAt) 60000 ltac:(lia)) as D.
    pose proof (Z.mod_pos_bound (now - savedAt) 60000 ltac:(lia)) as M.
    lia. }
  apply Z.ltb_ge in H2.
  destruct (now - savedAt <? 86400000) eqn:H3.
  { apply Z.ltb_lt in H3.
    pose proof (Z.div_mod (now - savedAt) 3600000 ltac:(lia)) as D.
    pose proof (Z.mod_pos_bound (now - savedAt) 3600000 ltac:(lia)) as M.
    lia. }
  apply Z.ltb_ge in H3. auto.
Qed.

(** ** The earlier pages *)

Lemma split_go_nonempty (s : jsstring) :
  forall inws cur, (1 <= List.length (split_go inws cur s))%nat.
Proof.
  induction s as [|c s IH]; intros inws cur; simpl; [lia|].
  destruct (is_space c); [destruct inws|]; simpl.
  - apply IH.
  - lia.
  - apply IH.
Qed.

(** The word count of the first page, [trim().split(/\s+/).length] without
    a test for blank text, agrees with [countWords] on every text that holds
    a word and counts one word where [countWords] counts none. *)
Theorem inlineWordCount_counts_blank_as_one (text : jsstring) :
  inlineWordCount text = Nat.max 1 (countWords text)
  /\ (forallb is_space text = true -> inlineWordCount text = 1%nat)
  /\ (forallb is_space text = false ->
      inlineWordCount text = word_runs false text).
Proof.
  assert (E : inlineWordCount text = Nat.max 1 (countWords text)).
  { unfold inlineWordCount, countWords. cbv zeta.
    destruct (trim text) as [|c t] eqn:Ht; [reflexivity|].
    pose proof (split_go_nonempty (c :: t) false []) as H.
    unfold split_ws. lia. }
  split; [exact E|]. rewrite E, countWords_word_runs. split; intros H.
  - apply word_runs_zero in H. rewrite H. reflexivity.
  - destruct (word_runs false text) eqn:Hw; [|lia].
    apply word_runs_zero in Hw. congruence.
Qed.

Lemma legacy_blurTicks_count (k : nat) :
  forall b, b < Legacy.BLUR_MAX ->
    Legacy.blurTicks k b
    = if Z.of_nat k <? Legacy.BLUR_MAX - b
      then (b + Z.of_nat k, false)
      else (Legacy.BLUR_MAX, true).
Proof.
  unfold Legacy.BLUR_MAX.
  induction k as [|k IH]; intros b Hb.
  - cbn [Legacy.blurTicks]. change (Z.of_nat 0) with 0.
    replace (0 <? 20 - b) with true by (symmetry; apply Z.ltb_lt; lia).
    rewrite Z.add_0_r. reflexivity.
  - cbn [Legacy.blurTicks]. unfold Legacy.blurTick, Legacy.BLUR_INCREMENT,
      Legacy.BLUR_MAX. cbv zeta.
    destruct (20 <=? b + 1) eqn:Hd.
    + apply Z.leb_le in Hd.
      replace (Z.of_nat (S k) <? 20 - b) with false
        by (symmetry; apply Z.ltb_ge; lia).
      f_equal. lia.
    + apply Z.leb_gt in Hd. rewrite IH by lia.
      replace (Z.of_nat k <? 20 - (b + 1)) with (Z.of_nat (S k) <? 20 - b)
        by (apply Bool.eq_true_iff_eq; rewrite !Z.ltb_lt; lia).
      destruct (Z.of_nat (S k) <? 20 - b); f_equal; lia.
Qed.

(** In the earlier revision the blur loop deletes by count: from a blur of
    [b] below 20 the text goes with tick number [20 - b] and not before,
    five seconds of ticks from a fresh blur whatever [timeoutSeconds] is.
    What it shows meanwhile is scaled to the setting: after [b] ticks the
    time left reads [timeoutSeconds * (20 - b) / 20] and the bar
    [100 - 5 b] per cent, so the display reaches zero exactly at the
    deleting tick. *)
Theorem legacy_blur_deletes_at_the_twentieth_tick
    (timeoutSeconds : Q) (b : Z) (k : nat) :
  0 <= b < 20 -> (0 < timeoutSeconds)%Q ->
  Legacy.blurTicks k b
  = (if Z.of_nat k <? 20 - b then (b + Z.of_nat k, false) else (20, true))
  /\ (legacyTimeLeft timeoutSeconds b
      == timeoutSeconds * inject_Z (20 - b) / 20)%Q
  /\ (legacyWidth b == 100 - 5 * inject_Z b)%Q
  /\ ~ (legacyTimeLeft timeoutSeconds b == 0)%Q
  /\ (legacyTimeLeft timeoutSeconds 20 == 0)%Q
  /\ (legacyWidth 20 == 0)%Q.
Proof.
  intros Hb HT.
  split; [apply (legacy_blurTicks_count k b); unfold Legacy.BLUR_MAX; lia|].
  assert (Hq : (0 <= inject_Z b)%Q /\ (inject_Z b < 20)%Q).
  { split.
    - change 0%Q with (inject_Z 0). rewrite <- Zle_Qle. lia.
    - change 20%Q with (inject_Z 20). rewrite <- Zlt_Qlt. lia. }
  destruct Hq as [Hq0 Hq20].
  assert (E : (timeoutSeconds - inject_Z b / inject_Z Legacy.BLUR_MAX * timeoutSeconds
               == timeoutSeconds * inject_Z (20 - b) / 20)%Q).
  { unfold Z.sub. rewrite inject_Z_plus, inject_Z_opp.
    change (inject_Z Legacy.BLUR_MAX) with 20%Q. change (inject_Z 20) with 20%Q.
    field. }
  assert (Hpos : (0 < timeoutSeconds * inject_Z (20 - b) / 20)%Q).
  { unfold Z.sub. rewrite inject_Z_plus, inject_Z_opp. change (inject_Z 20) with 20%Q.
    assert (H1 : (0 < 20 + - inject_Z b)%Q) by lra.
    pose proof (Qmult_lt_0_compat _ _ HT H1) as H2.
    assert (E2 : (timeoutSeconds * (20 + - inject_Z b) / 20
                  == timeoutSeconds * (20 + - inject_Z b) * (1 # 20))%Q) by field.
    rewrite E2. lra. }
  assert (Hleft : (legacyTimeLeft timeoutSeconds b
                   == timeoutSeconds * inject_Z (20 - b) / 20)%Q).
  { unfold legacyTimeLeft, Math_max0.
    destruct (Qle_bool _ 0) eqn:Hle; [|exact E].
    apply Qle_bool_iff in Hle. rewrite E in Hle. lra. }
  split; [exact Hleft|].
  split.
  { unfold legacyWidth. change (inject_Z Legacy.BLUR_MAX) with 20%Q. field. }
  split; [rewrite Hleft; lra|].
  split.
  { unfold legacyTimeLeft, Math_max0.
    destruct (Qle_bool _ 0) eqn:Hle; [reflexivity|].
    change (inject_Z 20 / inject_Z Legacy.BLUR_MAX)%Q with (20 / 20)%Q. field. }
  reflexivity.
Qed.

(** A fresh blur with the default timeout: nineteen ticks leave the text,
    the twentieth deletes it. *)
Lemma legacy_blur_witness :
  0 <= 0 < 20 /\ (0 < 5)%Q
  /\ Legacy.blurTicks 19 0 = (19, false)
  /\ Legacy.blurTicks 20 0 = (20, true).
Proof.
  assert (Hb : 0 <= 0 < 20) by lia.
  assert (HT : (0 < 5)%Q) by reflexivity.
  split; [exact Hb|]. split; [exact HT|].
  split.
  - exact (proj1 (legacy_blur_deletes_at_the_twentieth_tick 5 0 19 Hb HT)).
  - exact (proj1 (legacy_blur_deletes_at_the_twentieth_tick 5 0 20 Hb HT)).
Defined.

(** ** Destruction and reset *)

(** A destruction ends the session the way a reset does.  With the mark of
    the deletion animation not set beforehand, the destruction sets it and
    arms one 500 ms timer that takes it off again; once that has fired the
    page shows exactly what [resetSession] would have left.  Both leave the
    session inactive with the three handles null, and the same timers
    pending, the animation timer apart.  They differ in the state only in
    that the destruction keeps [countdownStart] and [heartbeatCount] where
    the reset clears them. *)
Theorem destruction_leaves_the_page_as_reset_does (w : World) :
  textArea_deleted (el w) = false ->
  let d := fst (handleTextDeletion w) in
  let r := resetSession w in
  textArea_deleted (el d) = true
  /\ el (fst (fire CbUndelete d)) = el r
  /\ isActive (st d) = false /\ isActive (st r) = false
  /\ countdownActive (st d) = false /\ countdownActive (st r) = false
  /\ startTime (st d) = None /\ startTime (st r) = None
  /\ graceTimerId (st d) = None /\ countdownTimerId (st d) = None
  /\ elapsedTimerId (st d) = None
  /\ timers (host d)
     = mkTimer (nextId (host w)) (now (host w) + 500) None CbUndelete
       :: timers (host r)
  /\ countdownStart (st d) = countdownStart (st w)
  /\ heartbeatCount (st d) = heartbeatCount (st w)
  /\ countdownStart (st r) = None.
Proof.
  intros H d r. subst d r.
  destruct w as [s e h sto]. simpl in H.
  unfold handleTextDeletion, resetSession. cbv zeta.
  destruct e; simpl in H; subst.
  destruct ((0 <? _)%nat && _);
    repeat split; try reflexivity;
    destruct s; cbn; rewrite !nextId_clearTimer, !now_clearTimer; reflexivity.
Qed.

(** The page in its decaying phase: destroyed and the animation over, it
    shows what a reset shows. *)
Lemma destruction_as_reset_witness :
  textArea_deleted (el decaying) = false
  /\ el (fst (fire CbUndelete (fst (handleTextDeletion decaying))))
     = el (resetSession decaying).
Proof.
  assert (H : textArea_deleted (el decaying) = false) by reflexivity.
  split; [exact H|].
  exact (proj1 (proj2 (destruction_leaves_the_page_as_reset_does decaying H))).
Defined.

(** ** Runs in which no session is started over an active one

    The load button pressed over an active session leaves callbacks behind
    that the module cannot cancel any more (C6).  What follows holds in the
    runs from start-up in which that does not happen: [starts_when_idle]
    restricts the load button alone. *)

(** An event that begins a grace period, that is a session start by the
    start, load or continue button or an edit, shows nothing, leaves a
    session active with the setting as it was, and leaves the grace timeout
    pending and no sampling interval. *)
Lemma restart_step (la s : Z) (e : Event) (w w1 : World) (o : list Obs) :
  Inv la w -> allowed e w = true -> restarts e w = true ->
  step s e w = Some (w1, o) ->
  Inv s w1 /\ o = [] /\ isActive (st w1) = true
  /\ timeoutSeconds (st w1) = timeoutSeconds (st w)
  /\ (forall tm, In tm (timers (host w1)) -> cb tm <> CbCountdown)
  /\ exists g, In g (timers (host w1)) /\ cb g = CbGrace.
Proof.
  intros I Hal Hr Hs.
  pose proof (step_inv _ _ _ _ _ _ I Hal Hs) as I1. rewrite Hr in I1.
  pose proof (now_step _ _ _ _ _ Hs) as Hnow.
  pose proof (step_unfold _ _ _ _ _ Hs) as (Hle & Hen & Hh).
  assert (Hnc : forall tm, In tm (timers (host w1)) -> cb tm <> CbCountdown).
  { intros tm Htm Hcb.
    destruct (inv_countdown _ _ I1 tm Htm Hcb) as (_ & _ & _ & cs & _ & H1 & H2).
    lia. }
  assert (HT : timeoutSeconds (st w1) = timeoutSeconds (st w)).
  { change w1 with (fst (w1, o)). rewrite <- Hh, handle_timeout; [reflexivity|].
    intros v E. subst e. discriminate. }
  assert (Ho : o = []).
  { change o with (snd (w1, o)). rewrite <- Hh.
    destruct e; try discriminate; reflexivity. }
  assert (Ha : isActive (st w1) = true).
  { change w1 with (fst (w1, o)). rewrite <- Hh.
    destruct e; try discriminate; cbn [handle fst].
    - reflexivity.
    - cbn [enabled] in Hen. destruct (inv_page _ _ I) as (Hta & _).
      change (textArea_disabled (el (with_host (set_clock s) w)))
        with (textArea_disabled (el w)) in Hen.
      rewrite Hta in Hen. destruct (isActive (st w)) eqn:E; [|discriminate].
      unfold handleInput, stopCountdown, startCountdown. cbv zeta.
      cbn -[clearTimer]. exact E.
    - cbn [restarts] in Hr. unfold loadDraft.
      change (store (with_host (set_clock s) w)) with (store w).
      destruct (draft (store w)) as [d|]; [|discriminate].
      destruct (d_text d); [discriminate | reflexivity].
    - cbn [restarts] in Hr. unfold continueFromHistory, getHistory in *.
      change (store (with_host (set_clock s) w)) with (store w).
      destruct (find _ (history (store w))); [reflexivity | discriminate]. }
  repeat (split; [assumption|]).
  destruct (inv_live _ _ I1 Ha) as (g & Hg & [Hcb|Hcb]); [eauto|].
  exfalso. exact (Hnc g Hg Hcb).
Qed.

Lemma graceElapsed_begins (w : World) :
  countdownActive (st (graceElapsed w)) = true
  /\ countdownStart (st (graceElapsed w)) = Some (now (host w))
  /\ graceTimerId (st (graceElapsed w)) = None
  /\ countdownTimerId (st (graceElapsed w)) = Some (nextId (host w))
  /\ heartbeatCount (st (graceElapsed w)) = 0
  /\ timers (host (graceElapsed w))
     = mkTimer (nextId (host w)) (now (host w) + 100) (Some 100) CbCountdown
       :: timers (host w)
  /\ progressContainer_active (el (graceElapsed w)) = true
  /\ wrapper_countdown (el (graceElapsed w)) = true
  /\ wrapper_heartbeat (el (graceElapsed w)) = true
  /\ textArea_value (el (graceElapsed w)) = textArea_value (el w).
Proof. repeat split. Qed.

(** The grace timeout cannot fire before it is due, one second after the
    latest activity, and its firing is [graceElapsed]. *)
Lemma grace_fires (la t : Z) (g : Timer) (w w1 : World) (o : list Obs) :
  Inv la w -> In g (timers (host w)) -> cb g = CbGrace ->
  step t (TimerFired (tid g)) w = Some (w1, o) ->
  la + 1000 <= t /\ o = []
  /\ w1 = graceElapsed (with_host (rearm g) (with_host (set_clock t) w)).
Proof.
  intros I Hg Hcb Hs.
  destruct (inv_grace _ _ I g Hg Hcb) as (_ & Hdue & _).
  apply step_unfold in Hs. destruct Hs as (_ & Hen & Hh).
  cbn [enabled handle] in Hen, Hh.
  change (host (with_host (set_clock t) w)) with (set_clock t (host w)) in Hen, Hh.
  change (lookup_timer (tid g) (set_clock t (host w)))
    with (lookup_timer (tid g) (host w)) in Hen, Hh.
  destruct (lookup_timer (tid g) (host w)) as [tm|] eqn:Hl; [|discriminate].
  destruct (lookup_timer_some _ _ _ Hl) as [Hin Hid].
  assert (E : tm = g) by (apply (tid_inj (host w)); [apply (inv_host _ _ I)|..]; assumption).
  subst tm. rewrite Hcb in Hh. cbn [fire] in Hh.
  apply pair_equal_spec in Hh. destruct Hh as [Hw Ho].
  change (now (set_clock t (host w))) with t in Hen. apply Z.leb_le in Hen.
  split; [lia|]. split; [symmetry; exact Ho | symmetry; exact Hw].
Qed.

(** The grace period.  Every edit and every session start arms one timeout
    of exactly 1000 ms for the grace callback, whatever [timeoutSeconds] is,
    and the grace callback begins the decay: it records the clock as
    [countdownStart] and arms the sampling interval of 100 ms.  In a run from
    start-up in which no session is started over an active one:
    a pending grace timeout is due 1000 ms after the latest activity; every
    session start and every edit, also one that interrupts a decay, shows
    nothing, leaves exactly the grace timeout pending and no sampling
    interval, and the page without a trace of the countdown, which stays so
    as long as every later event comes less than a second after the latest
    activity; and the firing of the grace timeout, which cannot come before
    that second is over, shows nothing itself and leaves the decay begun at
    the clock of the firing with one sampling interval pending. *)
Theorem grace_period_is_one_second_in_disciplined_runs
    (page : Elements) (stored : Storage) (t0 : Z) :
  idle_page page = true ->
  (forall w,
      hd_error (timers (host (handleInput w)))
      = Some (mkTimer (nextId (host w)) (now (host w) + 1000) None CbGrace)
      /\ graceTimerId (st (handleInput w)) = Some (nextId (host w))
      /\ no_countdown_shown (handleInput w))
  /\ (forall w i,
        hd_error (timers (host (startSession i w)))
        = Some (mkTimer (Pos.succ (nextId (host w))) (now (host w) + 1000)
                        None CbGrace)
        /\ graceTimerId (st (startSession i w)) = Some (Pos.succ (nextId (host w))))
  /\ (forall w T,
        timers (host (handleInput (with_st (set_timeoutSeconds T) w)))
        = timers (host (handleInput w)))
  /\ (forall w i T,
        timers (host (startSession i (with_st (set_timeoutSeconds T) w)))
        = timers (host (startSession i w)))
  /\ (forall w,
        countdownActive (st (graceElapsed w)) = true
        /\ countdownStart (st (graceElapsed w)) = Some (now (host w))
        /\ hd_error (timers (host (graceElapsed w)))
           = Some (mkTimer (nextId (host w)) (now (host w) + 100) (Some 100)
                           CbCountdown)
        /\ countdownTimerId (st (graceElapsed w)) = Some (nextId (host w)))
  /\ (forall tr w obs,
        starts_when_idle t0 (boot page stored t0) tr = true ->
        run tr (boot page stored t0) = Some (w, obs) ->
        (forall tm, In tm (timers (host w)) -> cb tm = CbGrace ->
           due tm = last_activity t0 (boot page stored t0) tr + 1000
           /\ period tm = None)
        /\ (active_within_grace t0 (boot page stored t0) tr = true ->
            obs = [] /\ chains CbCountdown w = 0%nat /\ no_countdown_shown w)
        /\ (forall t e w1 o1,
              restarts e w = true -> allowed e w = true ->
              step t e w = Some (w1, o1) ->
              o1 = []
              /\ chains CbGrace w1 = 1%nat
              /\ chains CbCountdown w1 = 0%nat
              /\ no_countdown_shown w1
              /\ forall tr2 w2 obs2,
                   starts_when_idle t w1 tr2 = true ->
                   active_within_grace t w1 tr2 = true ->
                   run tr2 w1 = Some (w2, obs2) ->
                   obs2 = [] /\ chains CbCountdown w2 = 0%nat
                   /\ no_countdown_shown w2)
        /\ (forall t g w1 o1,
              In g (timers (host w)) -> cb g = CbGrace ->
              step t (TimerFired (tid g)) w = Some (w1, o1) ->
              last_activity t0 (boot page stored t0) tr + 1000 <= t
              /\ o1 = []
              /\ countdownActive (st w1) = true
              /\ countdownStart (st w1) = Some t
              /\ chains CbGrace w1 = 0%nat
              /\ chains CbCountdown w1 = 1%nat
              /\ exists c, In c (timers (host w1)) /\ cb c = CbCountdown
                           /\ due c = t + 100 /\ period c = Some 100)).
Proof.
  intros Hpage. split.
  { intros w. destruct (handleInput_schedules w) as [H1 H2].
    split; [exact H1|]. split; [exact H2|]. repeat split. }
  split; [intros w i; apply startSession_schedules|].
  split; [reflexivity|]. split; [reflexivity|].
  split; [intros w; repeat split|].
  intros tr w obs Hal Hrun.
  pose proof (run_inv tr t0 _ _ _ (inv_boot t0 page stored t0 Hpage) Hal Hrun) as I.
  split.
  { intros tm Htm Hcb. destruct (inv_grace _ _ I tm Htm Hcb) as (_ & Hd & Hp). auto. }
  split.
  { intros Hg.
    assert (Hnc0 : forall tm, In tm (timers (host (boot page stored t0))) ->
                     cb tm <> CbCountdown)
      by (rewrite boot_no_timers; intros tm []).
    destruct (run_within_grace tr t0 _ _ _ (inv_boot t0 page stored t0 Hpage)
                Hnc0 Hal Hg Hrun) as [Hobs Hnc].
    split; [exact Hobs|]. split; [exact (chains_zero _ _ Hnc)|].
    exact (inv_calm _ _ I Hnc). }
  split.
  { intros t e w1 o1 Hr Hal1 Hs.
    destruct (restart_step _ _ _ _ _ _ I Hal1 Hr Hs)
      as (I1 & Ho & Ha & _ & Hnc & g & Hg & Hcb).
    split; [exact Ho|]. split.
    { destruct (inv_one_chain _ _ I1) as (Hle & _).
      pose proof (chains_pos CbGrace w1 g Hg Hcb). lia. }
    split; [exact (chains_zero _ _ Hnc)|].
    split; [exact (inv_calm _ _ I1 Hnc)|].
    intros tr2 w2 obs2 Hal2 Hg2 Hrun2.
    destruct (run_within_grace tr2 t w1 w2 obs2 I1 Hnc Hal2 Hg2 Hrun2)
      as [Hobs2 Hnc2].
    split; [exact Hobs2|]. split; [exact (chains_zero _ _ Hnc2)|].
    exact (inv_calm _ _ (run_inv tr2 t w1 w2 obs2 I1 Hal2 Hrun2) Hnc2). }
  intros t g w1 o1 Hg Hcb Hs.
  pose proof (step_inv _ t (TimerFired (tid g)) w w1 o1 I eq_refl Hs) as I1.
  cbn [restarts] in I1.
  destruct (grace_fires _ _ _ _ _ _ I Hg Hcb Hs) as (Hle & Ho & Hw).
  set (w' := with_host (rearm g) (with_host (set_clock t) w)) in *.
  assert (Hnow : now (host w') = t) by (subst w'; simpl; apply now_rearm).
  destruct (graceElapsed_begins w')
    as (B1 & B2 & B3 & _ & _ & B6 & _).
  rewrite <- Hw in B1, B2, B3, B6. rewrite Hnow in B2, B6.
  split; [exact Hle|]. split; [exact Ho|]. split; [exact B1|].
  split; [exact B2|].
  assert (Hc : In (mkTimer (nextId (host w')) (t + 100) (Some 100) CbCountdown)
                  (timers (host w1))) by (rewrite B6; left; reflexivity).
  split.
  { apply chains_zero. intros tm Htm Hgr.
    destruct (inv_grace _ _ I1 tm Htm Hgr) as (Hid & _). congruence. }
  split.
  { destruct (inv_one_chain _ _ I1) as (_ & Hle1 & _).
    pose proof (chains_pos CbCountdown w1 _ Hc eq_refl). lia. }
  eexists. split; [exact Hc|]. repeat split.
Qed.

(** Thirty seconds of typing with half a second between keystrokes show
    nothing; and a keystroke 50 ms into a decay removes the sampling
    interval and the blur. *)
Lemma grace_period_witness :
  idle_page page_served = true
  /\ starts_when_idle 1000000 fresh steady_typing = true
  /\ active_within_grace 1000000 fresh steady_typing = true
  /\ seen steady_typing fresh = []
  /\ textArea_filter (el (after steady_typing fresh)) = FilterNone
  /\ chains CbCountdown decaying = 1%nat
  /\ chains CbCountdown
       (fst (handle (UserEditedText (units "a")) (at_clock 1001050 decaying)))
     = 0%nat.
Proof.
  assert (Hal : starts_when_idle 1000000 fresh steady_typing = true)
    by (vm_compute; reflexivity).
  assert (Hg : active_within_grace 1000000 fresh steady_typing = true)
    by (vm_compute; reflexivity).
  assert (Hrun : run steady_typing fresh
                 = Some (after steady_typing fresh, seen steady_typing fresh))
    by (apply run_computed; vm_compute; exact I).
  assert (Hal2 : starts_when_idle 1000000 fresh to_decaying = true)
    by (vm_compute; reflexivity).
  assert (Hrun2 : run to_decaying fresh = Some (decaying, seen to_decaying fresh))
    by (apply run_computed; vm_compute; exact I).
  assert (Hs : step 1001050 (UserEditedText (units "a")) decaying
               = Some (fst (handle (UserEditedText (units "a"))
                              (at_clock 1001050 decaying)),
                       snd (handle (UserEditedText (units "a"))
                              (at_clock 1001050 decaying))))
    by (vm_compute; reflexivity).
  destruct (grace_period_is_one_second_in_disciplined_runs page_served
              empty_storage 1000000 eq_refl) as (_ & _ & _ & _ & _ & H).
  destruct (H steady_typing _ _ Hal Hrun) as (_ & Hcalm & _).
  destruct (Hcalm Hg) as (Hobs & _ & _ & Hf & _).
  destruct (H to_decaying _ _ Hal2 Hrun2) as (_ & _ & Hedit & _).
  destruct (Hedit 1001050 (UserEditedText (units "a")) _ _ eq_refl eq_refl Hs)
    as (_ & _ & Hnone & _).
  split; [reflexivity|]. split; [exact Hal|]. split; [exact Hg|].
  split; [exact Hobs|]. split; [exact Hf|]. split; [reflexivity | exact Hnone].
Defined.

Lemma restart_then (s : Z) (e : Event) (fires : list (Z * Event)) (la : Z)
    (w0 w : World) (obs : list (Z * Obs)) :
  Inv la w0 -> allowed e w0 = true -> restarts e w0 = true ->
  run ((s, e) :: fires) w0 = Some (w, obs) ->
  exists w1, step s e w0 = Some (w1, []) /\ run fires w1 = Some (w, obs).
Proof.
  intros I Hal Hr. simpl.
  destruct (step s e w0) as [[w1 o]|] eqn:Hs; [|discriminate].
  destruct (run fires w1) as [[w2 o2]|] eqn:Hrun; [|discriminate].
  intros H. injection H as Hw Hobs.
  destruct (restart_step _ _ _ _ _ _ I Hal Hr Hs) as (_ & Ho & _).
  subst. exists w1. auto.
Qed.

(** Destruction needs silence and follows it.  In a run from start-up in
    which no session is started over an active one: while every event
    comes less than [timeoutSeconds] after the latest activity, the text is
    never destroyed.  After a session start (by the start, load or continue
    button) or an edit that is followed by timer firings only, the run shows
    at most one destruction and nothing at all after it; and if
    [timeoutSeconds] is a whole number [n] of seconds, at least 1, and the
    host has fired every timer exactly when it was due up to a clock of at
    least [s + 1000 + 1000 n], the run shows exactly one destruction, at
    [s + 1000 + 1000 n]. *)
Theorem disciplined_runs_destroy_only_after_silence
    (page : Elements) (stored : Storage) (t0 : Z) :
  idle_page page = true ->
  (forall tr w obs,
      starts_when_idle t0 (boot page stored t0) tr = true ->
      active_within_timeout t0 (boot page stored t0) tr = true ->
      run tr (boot page stored t0) = Some (w, obs) ->
      forall x, In x obs -> is_destroyed x = false)
  /\ (forall pre w0 obs0 s e fires w obs,
        starts_when_idle t0 (boot page stored t0) pre = true ->
        run pre (boot page stored t0) = Some (w0, obs0) ->
        restarts e w0 = true -> allowed e w0 = true ->
        only_timers fires = true ->
        run ((s, e) :: fires) w0 = Some (w, obs) ->
        (forall obs1 x obs2,
            obs = obs1 ++ x :: obs2 -> is_destroyed x = true -> obs2 = [])
        /\ (forall n,
              1 <= n -> timeoutSeconds (st w0) = inject_Z n ->
              punctual s w0 ((s, e) :: fires) = true ->
              s + 1000 + 1000 * n <= now (host w) ->
              (forall tm, In tm (timers (host w)) -> now (host w) < due tm) ->
              exists before txt k,
                obs = before ++ [(s + 1000 + 1000 * n, TextDestroyed txt k)]
                /\ forall x, In x before -> is_destroyed x = false)).
Proof.
  intros Hpage. split.
  { intros tr w obs Hal Hg Hrun.
    exact (run_within_timeout tr t0 _ _ _ (inv_boot t0 page stored t0 Hpage)
             Hal Hg Hrun). }
  intros pre w0 obs0 s e fires w obs Hal0 Hrun0 Hr Hal Hot Hrun.
  pose proof (run_inv pre t0 _ _ _ (inv_boot t0 page stored t0 Hpage) Hal0 Hrun0)
    as I0.
  destruct (restart_then s e fires _ w0 w obs I0 Hal Hr Hrun) as (w1 & Hs & Hrest).
  destruct (restart_step _ _ _ _ _ _ I0 Hal Hr Hs)
    as (I1 & _ & Ha & HT1 & _ & g & Hg & Hcb).
  split; [exact (quiet_after_destruction fires s w1 w obs I1 Hot Hrest)|].
  intros n Hn HT Hp Hend Hover.
  assert (W1 : Waiting s n w1).
  { split; [exact I1|]. split; [rewrite HT1; exact HT|]. split; [exact Ha|].
    left. exists g. auto. }
  unfold punctual in Hp. rewrite always_cons, Hs, Hr in Hp.
  apply andb_true_iff in Hp. destruct Hp as [_ Hp].
  destruct (waiting_run fires s n s w1 w obs Hn W1 Hot Hp Hrest)
    as [[(I & _ & _ & Hph) _]|H]; [exfalso | exact H].
  destruct Hph as [(g' & Hg' & Hcb')|(c & k & Hc & Hcbc & _ & Hk & Hd)].
  - destruct (inv_grace _ _ I g' Hg' Hcb') as (_ & Hdue & _).
    specialize (Hover g' Hg'). lia.
  - specialize (Hover c Hc). lia.
Qed.

(** Steady typing never loses the text; a session left alone with the
    default timeout of 5 loses it exactly 6 seconds after the start. *)
Lemma left_alone_witness :
  idle_page page_served = true
  /\ starts_when_idle 1000000 fresh steady_typing = true
  /\ active_within_timeout 1000000 fresh steady_typing = true
  /\ (forall x, In x (seen steady_typing fresh) -> is_destroyed x = false)
  /\ punctual 1000000 fresh ((1000000, UserRequestedStart) :: left_alone) = true
  /\ exists before txt k,
       seen ((1000000, UserRequestedStart) :: left_alone) fresh
       = before ++ [(1006000, TextDestroyed txt k)]
       /\ forall x, In x before -> is_destroyed x = false.
Proof.
  assert (Hp : punctual 1000000 fresh ((1000000, UserRequestedStart) :: left_alone)
               = true) by (vm_compute; reflexivity).
  assert (Hal : starts_when_idle 1000000 fresh steady_typing = true)
    by (vm_compute; reflexivity).
  assert (Hg : active_within_timeout 1000000 fresh steady_typing = true)
    by (vm_compute; reflexivity).
  assert (Hrun1 : run steady_typing fresh
                  = Some (after steady_typing fresh, seen steady_typing fresh))
    by (apply run_computed; vm_compute; exact I).
  split; [reflexivity|]. split; [exact Hal|]. split; [exact Hg|].
  split.
  { destruct (disciplined_runs_destroy_only_after_silence page_served
                empty_storage 1000000 eq_refl) as [H1 _].
    exact (H1 steady_typing (after steady_typing fresh) (seen steady_typing fresh)
             Hal Hg Hrun1). }
  split; [exact Hp|].
  assert (Hrun : run ((1000000, UserRequestedStart) :: left_alone) fresh
                 = Some (after ((1000000, UserRequestedStart) :: left_alone) fresh,
                         seen ((1000000, UserRequestedStart) :: left_alone) fresh))
    by (apply run_computed; vm_compute; exact I).
  destruct (disciplined_runs_destroy_only_after_silence page_served
              empty_storage 1000000 eq_refl) as [_ H].
  destruct (H [] fresh [] 1000000 UserRequestedStart left_alone _ _
              eq_refl eq_refl eq_refl eq_refl eq_refl Hrun)
    as [_ Hex].
  apply (Hex 5).
  - lia.
  - reflexivity.
  - exact Hp.
  - vm_compute. discriminate.
  - vm_compute. intros tm [Htm|[]]. subst tm. reflexivity.
Defined.

(** [resetSession] twice is [resetSession] once, from every world.  It
    leaves the state idle with no handle held and the text area empty, and
    takes from the timer table exactly the timers whose handles the module
    held.  In a world that satisfies the invariant of the runs in which no
    session is started over an active one, these are all the timers of the
    engine, and with no session active the table is left as it is. *)
Theorem resetSession_is_idempotent (w : World) :
  resetSession (resetSession w) = resetSession w
  /\ isActive (st (resetSession w)) = false
  /\ countdownActive (st (resetSession w)) = false
  /\ countdownStart (st (resetSession w)) = None
  /\ startTime (st (resetSession w)) = None
  /\ graceTimerId (st (resetSession w)) = None
  /\ countdownTimerId (st (resetSession w)) = None
  /\ elapsedTimerId (st (resetSession w)) = None
  /\ textArea_value (el (resetSession w)) = []
  /\ (forall tm, In tm (timers (host (resetSession w))) <->
        In tm (timers (host w))
        /\ graceTimerId (st w) <> Some (tid tm)
        /\ countdownTimerId (st w) <> Some (tid tm)
        /\ elapsedTimerId (st w) <> Some (tid tm))
  /\ (forall la, Inv la w ->
        forall tm, In tm (timers (host (resetSession w))) ->
          cb tm <> CbGrace /\ cb tm <> CbCountdown /\ cb tm <> CbElapsed)
  /\ (forall la, Inv la w -> isActive (st w) = false ->
        timers (host (resetSession w)) = timers (host w)).
Proof.
  split; [apply resetSession_idempotent|].
  repeat (split; [reflexivity|]).
  split; [intros tm; apply in_resetSession|].
  split.
  - intros la I tm Htm. apply in_resetSession in Htm.
    destruct Htm as (Hin & Hg & Hc & He).
    repeat split; intros Hcb.
    + destruct (inv_grace _ _ I tm Hin Hcb). tauto.
    + destruct (inv_countdown _ _ I tm Hin Hcb). tauto.
    + pose proof (inv_elapsed _ _ I tm Hin Hcb). tauto.
  - intros la I Ha. destruct (inv_idle _ _ I Ha) as (Hg & Hc & He).
    unfold resetSession, stopCountdown, clearAllTimers. cbv zeta. simpl.
    rewrite Hg, Hc, He. reflexivity.
Qed.
